(** * Lazy Scholar CLI ([scholar.py]): a shallow embedding and its properties

    The development follows the layout of [scholar.py]:

    - [PyStr]   : the [str] methods and the two regular expressions the
                  program uses, on strings of code points below 256;
    - [Py]      : the dynamically typed values the program manipulates (what
                  [json.loads] / [resp.json()] hand back), Python's
                  exceptions as an error monad, and the built-ins the program
                  calls on those values ([dict.get], indexing, [len],
                  truthiness, [in], f-string formatting);
    - [Scholar] : the functions of [scholar.py], one definition per function,
                  under the source's names;
    - the theorems about them. *)

From Stdlib Require Import List String Ascii ZArith Bool Lia Floats.
From Stdlib Require Import DecimalString Permutation.
Import ListNotations.

Local Open Scope string_scope.
Local Open Scope Z_scope.

(* ===================================================================== *)
(** ** Strings *)
(* ===================================================================== *)

Module PyStr.

(** A Python [str] is modelled by a [string] whose characters are the code
    points below 256; the character classes below are Python's on that
    range. *)

Definition code (c : ascii) : Z := Z.of_nat (nat_of_ascii c).

Definition chr (n : Z) : ascii := ascii_of_nat (Z.to_nat n).

(** [\d] and [str.isdigit] agree on this range for the decimal digits used by
    the DOI grammar: only [0-9] are of Unicode category Nd. *)
Definition is_digit (c : ascii) : bool :=
  (48 <=? code c) && (code c <=? 57).

(** [\s] and the default of [str.strip]: TAB, LF, VT, FF, CR, the four
    separators FS..US, SPACE, NEL and NBSP. *)
Definition is_space (c : ascii) : bool :=
  let n := code c in
  ((9 <=? n) && (n <=? 13)) || ((28 <=? n) && (n <=? 32))
  || (n =? 133) || (n =? 160).

(** [str.lower] on one character: [A-Z], and the Latin-1 capitals
    U+00C0..U+00DE except the multiplication sign U+00D7. *)
Definition lower_char (c : ascii) : ascii :=
  let n := code c in
  if ((65 <=? n) && (n <=? 90))
     || ((192 <=? n) && (n <=? 222) && negb (n =? 215))
  then chr (n + 32) else c.

Fixpoint lower (s : string) : string :=
  match s with
  | EmptyString => EmptyString
  | String c r => String (lower_char c) (lower r)
  end.

Fixpoint rev_onto (s acc : string) : string :=
  match s with
  | EmptyString => acc
  | String c r => rev_onto r (String c acc)
  end.

Definition rev (s : string) : string := rev_onto s EmptyString.

Fixpoint mem_char (c : ascii) (cs : string) : bool :=
  match cs with
  | EmptyString => false
  | String d r => Ascii.eqb c d || mem_char c r
  end.

(** Drop the longest prefix whose characters satisfy [p]. *)
Fixpoint drop_while (p : ascii -> bool) (s : string) : string :=
  match s with
  | EmptyString => EmptyString
  | String c r => if p c then drop_while p r else s
  end.

(** The longest prefix whose characters satisfy [p]. *)
Fixpoint take_while (p : ascii -> bool) (s : string) : string :=
  match s with
  | EmptyString => EmptyString
  | String c r => if p c then String c (take_while p r) else EmptyString
  end.

(** [s.rstrip(chars)] *)
Definition rstrip (chars : string) (s : string) : string :=
  rev (drop_while (fun c => mem_char c chars) (rev s)).

(** [s.strip()] *)
Definition strip (s : string) : string :=
  rev (drop_while is_space (rev (drop_while is_space s))).

(** [s.startswith(p)] *)
Fixpoint startswith (s p : string) : bool :=
  match p, s with
  | EmptyString, _ => true
  | String a p', String b s' => Ascii.eqb a b && startswith s' p'
  | String _ _, EmptyString => false
  end.

(** [s.endswith(p)] *)
Definition endswith (s p : string) : bool := startswith (rev s) (rev p).

(** [sub in s] *)
Fixpoint contains (s sub : string) : bool :=
  startswith s sub ||
  match s with
  | EmptyString => false
  | String _ r => contains r sub
  end.

(** [s[:n]] for [0 <= n]. *)
Fixpoint take (n : nat) (s : string) : string :=
  match n, s with
  | S k, String c r => String c (take k r)
  | _, _ => EmptyString
  end.

(** [s[: -n]] for [0 < n]: all but the last [n] characters. *)
Definition drop_last (n : nat) (s : string) : string :=
  take (String.length s - n) s.

(** [sep.join(parts)] *)
Fixpoint join (sep : string) (parts : list string) : string :=
  match parts with
  | [] => ""
  | [p] => p
  | p :: rest => p ++ sep ++ join sep rest
  end.

(** [str(n)] for an [int]. *)
Definition of_Z (n : Z) : string := NilZero.string_of_int (Z.to_int n).

Definition eqb_ci (a b : string) : bool := String.eqb (lower a) (lower b).

End PyStr.

(* ===================================================================== *)
(** ** Python values, exceptions and built-ins *)
(* ===================================================================== *)

Module Py.

#[local] Set Warnings "-register-all".

(** What [json.loads] produces: [None], [bool], [int], [float], [str],
    [list] and [dict] with string keys.  A [dict] keeps insertion order, so
    it is an association list; [json.loads] never yields a repeated key. *)
Inductive value : Type :=
| VNone
| VBool (b : bool)
| VInt (n : Z)
| VFloat (f : float)
| VStr (s : string)
| VList (l : list value)
| VDict (d : list (string * value)).

(** The exceptions (all subclasses of [Exception]) the built-ins below can
    raise. *)
Inductive exn : Type :=
| KeyError | IndexError | TypeError | AttributeError | ValueError
| OverflowError.

Inductive result (A : Type) : Type :=
| Ok (a : A)
| Raise (e : exn).

Arguments Ok {A} a.
Arguments Raise {A} e.

Definition bind {A B : Type} (m : result A) (k : A -> result B) : result B :=
  match m with
  | Ok a => k a
  | Raise e => Raise e
  end.

Declare Scope py_scope.
Delimit Scope py_scope with py.

Notation "x <- m ;; k" := (bind m (fun x => k))
  (at level 61, m at next level, right associativity) : py_scope.

Notation "' pat <- m ;; k" := (bind m (fun x => match x with pat => k end))
  (at level 61, pat pattern, m at next level, right associativity) : py_scope.

Local Open Scope py_scope.

(** Formatting a [float], and the [repr] of a [str] (quoting and escapes),
    are left to the interpreter: everything else of [str()] and of the
    format specifications the program uses is written out below. *)
Record runtime : Type := {
  float_repr : float -> string;       (* repr(x)          *)
  float_grouped : float -> string;    (* format(x, ",")   *)
  float_percent0 : float -> string;   (* format(x, ".0%") *)
  str_repr : string -> string         (* repr(s)          *)
}.

(** *** Truthiness *)

Definition truthy (v : value) : bool :=
  match v with
  | VNone => false
  | VBool b => b
  | VInt n => negb (n =? 0)
  | VFloat f => negb (PrimFloat.eqb f 0%float)
  | VStr s => negb (String.eqb s "")
  | VList l => match l with [] => false | _ => true end
  | VDict d => match d with [] => false | _ => true end
  end.

(** [a or b], with [b] evaluated only when [a] is falsy. *)
Definition or_else (a : value) (b : result value) : result value :=
  if truthy a then Ok a else b.

(** *** Dictionaries *)

Fixpoint lookup (k : string) (d : list (string * value)) : option value :=
  match d with
  | [] => None
  | (k', v) :: r => if String.eqb k k' then Some v else lookup k r
  end.

(** [v.get(k, default)]: only a [dict] has the method. *)
Definition get (v : value) (k : string) (default : value) : result value :=
  match v with
  | VDict d => Ok (match lookup k d with Some x => x | None => default end)
  | _ => Raise AttributeError
  end.

(** [v[k]] for a string key. *)
Definition getitem (v : value) (k : string) : result value :=
  match v with
  | VDict d => match lookup k d with Some x => Ok x | None => Raise KeyError end
  | _ => Raise TypeError
  end.

(** [v[0]] *)
Definition first (v : value) : result value :=
  match v with
  | VList l => match l with x :: _ => Ok x | [] => Raise IndexError end
  | VStr s =>
      match s with
      | String c _ => Ok (VStr (String c ""))
      | EmptyString => Raise IndexError
      end
  | VDict _ => Raise KeyError
  | _ => Raise TypeError
  end.

(** [v[i]] for a non-negative literal index [i]. *)
Definition item (v : value) (i : nat) : result value :=
  match v with
  | VList l => match nth_error l i with Some x => Ok x | None => Raise IndexError end
  | VStr s =>
      match String.get i s with
      | Some c => Ok (VStr (String c ""))
      | None => Raise IndexError
      end
  | VDict _ => Raise KeyError
  | _ => Raise TypeError
  end.

(** [len(v)] *)
Definition len (v : value) : result Z :=
  match v with
  | VList l => Ok (Z.of_nat (List.length l))
  | VStr s => Ok (Z.of_nat (String.length s))
  | VDict d => Ok (Z.of_nat (List.length d))
  | _ => Raise TypeError
  end.

Fixpoint chars (s : string) : list value :=
  match s with
  | EmptyString => []
  | String c r => VStr (String c "") :: chars r
  end.

(** The items a [for x in v] loop or a comprehension goes through. *)
Definition iter (v : value) : result (list value) :=
  match v with
  | VList l => Ok l
  | VStr s => Ok (chars s)
  | VDict d => Ok (map (fun kv => VStr (fst kv)) d)
  | _ => Raise TypeError
  end.

(** [float(n)] for an [int]: rounding to the nearest double, ties to even;
    an [int] that rounds past the largest double raises. *)
Definition float_of_int (n : Z) : result float :=
  match binary_normalize prec emax n 0 false with
  | S754_infinity _ => Raise OverflowError
  | sf => Ok (SF2Prim sf)
  end.

(** [int(f)] for a [float]: truncation towards zero. *)
Definition int_of_float (f : float) : result Z :=
  match Prim2SF f with
  | S754_zero _ => Ok 0
  | S754_infinity _ => Raise OverflowError
  | S754_nan => Raise ValueError
  | S754_finite s m e =>
      let a := if 0 <=? e then Zpos m * 2 ^ e else Zpos m / 2 ^ (- e) in
      Ok (if s then - a else a)
  end.

Definition is_number (v : value) : bool :=
  match v with
  | VBool _ | VInt _ | VFloat _ => true
  | _ => false
  end.

(** The items of [for x in a + b]: [+] concatenates two lists or two
    strings; a sum of numbers is not iterable; other operands have no [+]. *)
Definition iter_sum (a b : value) : result (list value) :=
  match a, b with
  | VList l1, VList l2 => Ok (l1 ++ l2)%list
  | VStr s1, VStr s2 => Ok (chars (s1 ++ s2))
  | VInt n, VFloat _ | VFloat _, VInt n =>
      _ <- float_of_int n ;; Raise TypeError
  | _, _ => Raise TypeError
  end.

(** [v == s] for a string literal [s]. *)
Definition eq_str (v : value) (s : string) : bool :=
  match v with
  | VStr t => String.eqb t s
  | _ => false
  end.

(** [s in v] for a string literal [s]. *)
Definition str_in (s : string) (v : value) : result bool :=
  match v with
  | VStr t => Ok (PyStr.contains t s)
  | VList l => Ok (existsb (fun x => eq_str x s) l)
  | VDict d => Ok (existsb (fun kv => String.eqb (fst kv) s) d)
  | _ => Raise TypeError
  end.

(** [isinstance(v, dict)], [isinstance(v, list)], [isinstance(v, str)] *)
Definition is_dict (v : value) : bool :=
  match v with VDict _ => true | _ => false end.

Definition is_list (v : value) : bool :=
  match v with VList _ => true | _ => false end.

Definition is_str (v : value) : bool :=
  match v with VStr _ => true | _ => false end.

(** [v.lower()] *)
Definition lower (v : value) : result string :=
  match v with
  | VStr s => Ok (PyStr.lower s)
  | _ => Raise AttributeError
  end.

(** *** Comparisons with the numeric literals of the program *)

(** [v > 0] *)
Definition gt_zero (v : value) : result bool :=
  match v with
  | VBool b => Ok b
  | VInt n => Ok (0 <? n)
  | VFloat f => Ok (PrimFloat.ltb 0%float f)
  | _ => Raise TypeError
  end.

(** [v > 0.3]: an [int] is compared exactly, so it is above iff positive. *)
Definition gt_0_3 (v : value) : result bool :=
  match v with
  | VBool b => Ok b
  | VInt n => Ok (0 <? n)
  | VFloat f => Ok (PrimFloat.ltb 0x1.3333333333333p-2%float f)
  | _ => Raise TypeError
  end.

(** [v != 1]: defined on every value. *)
Definition ne_one (v : value) : bool :=
  match v with
  | VBool b => negb b
  | VInt n => negb (n =? 1)
  | VFloat f => negb (PrimFloat.eqb f 1%float)
  | _ => true
  end.

(** *** Formatting *)

Section Format.

Variable rt : runtime.

(** [repr(v)] *)
Fixpoint repr (v : value) : string :=
  match v with
  | VNone => "None"
  | VBool true => "True"
  | VBool false => "False"
  | VInt n => PyStr.of_Z n
  | VFloat f => float_repr rt f
  | VStr s => str_repr rt s
  | VList l => "[" ++ PyStr.join ", " (map repr l) ++ "]"
  | VDict d =>
      "{" ++ PyStr.join ", "
               (map (fun kv => match kv with
                               | (k, x) => str_repr rt k ++ ": " ++ repr x
                               end) d) ++ "}"
  end.

(** [str(v)], which is also [f"{v}"]. *)
Definition str (v : value) : string :=
  match v with
  | VStr s => s
  | _ => repr v
  end.

(** [format(n, "02d")] for an [int]: sign-aware zero padding to width 2. *)
Definition pad2 (n : Z) : string :=
  if (0 <=? n) && (n <? 10) then "0" ++ PyStr.of_Z n else PyStr.of_Z n.

(** [f"{v:02d}"] *)
Definition format_02d (v : value) : result string :=
  match v with
  | VInt n => Ok (pad2 n)
  | VBool b => Ok (pad2 (if b then 1 else 0))
  | VFloat _ | VStr _ => Raise ValueError
  | _ => Raise TypeError
  end.

(** Digits of a non-negative [int] in groups of three, most significant
    group first. *)
Fixpoint group3 (fuel : nat) (n : Z) : string :=
  match fuel with
  | O => PyStr.of_Z n
  | S k =>
      if n <? 1000 then PyStr.of_Z n
      else
        let r := n mod 1000 in
        group3 k (n / 1000) ++ "," ++
        (if r <? 10 then "00" else if r <? 100 then "0" else "") ++ PyStr.of_Z r
  end.

(** [format(n, ",")] for an [int]. *)
Definition grouped (n : Z) : string :=
  let a := Z.abs n in
  (if n <? 0 then "-" else "") ++ group3 (Z.to_nat (Z.log2 a)) a.

(** [f"{v:,}"] *)
Definition format_grouped (v : value) : result string :=
  match v with
  | VInt n => Ok (grouped n)
  | VBool b => Ok (if b then "1" else "0")
  | VFloat f => Ok (float_grouped rt f)
  | VStr _ => Raise ValueError
  | _ => Raise TypeError
  end.

(** [f"{v:.0%}"]: an [int] is converted to [float] first. *)
Definition format_percent0 (v : value) : result string :=
  match v with
  | VFloat f => Ok (float_percent0 rt f)
  | VInt n => f <- float_of_int n ;; Ok (float_percent0 rt f)
  | VBool b => Ok (float_percent0 rt (if b then 1%float else 0%float))
  | VStr _ => Raise ValueError
  | _ => Raise TypeError
  end.

(** [sep.join(items)]: every item must be a [str]. *)
Fixpoint strings (items : list value) : result (list string) :=
  match items with
  | [] => Ok []
  | VStr s :: r => rest <- strings r ;; Ok (s :: rest)
  | _ :: _ => Raise TypeError
  end.

Definition join (sep : string) (items : list value) : result string :=
  ss <- strings items ;; Ok (PyStr.join sep ss).

End Format.

End Py.

(* ===================================================================== *)
(** ** The program *)
(* ===================================================================== *)

Module Scholar.

Import Py.
Local Open Scope py_scope.

(** [xs.append(x)] *)
Definition append {A : Type} (xs : list A) (x : A) : list A := (xs ++ [x])%list.

(* --------------------------------------------------------------------- *)
(** *** Configuration *)

(** [DOI_REGEX]: the literal [10.], four to nine [\d], a [/], then one or more
    characters of a negated class, the whole being group 1, compiled with
    [re.IGNORECASE].  The class excludes [\s], the double quote (code 34) and
    the eight characters of the literal below. *)
Definition doi_excluded : string := String (PyStr.chr 34) "'<>])}{,".

Definition doi_tail_char (c : ascii) : bool :=
  negb (PyStr.is_space c || PyStr.mem_char c doi_excluded).

(** The pattern matched at the first character of [s]: the text of group 1.
    [\d{4,9}] is greedy and must be followed by [/], which is no digit, so it
    matches exactly when the whole run of digits has 4 to 9 of them; the
    final class is greedy with nothing after it.  The pattern holds no
    letter, so [re.IGNORECASE] changes nothing. *)
Definition doi_match_here (s : string) : option string :=
  match s with
  | String "1" (String "0" (String "." r)) =>
      let digits := PyStr.take_while PyStr.is_digit r in
      let n := String.length digits in
      if (4 <=? n)%nat && (n <=? 9)%nat then
        match PyStr.drop_while PyStr.is_digit r with
        | String "/" t =>
            match PyStr.take_while doi_tail_char t with
            | EmptyString => None
            | tail => Some ("10." ++ digits ++ "/" ++ tail)
            end
        | _ => None
        end
      else None
  | _ => None
  end.

(** [DOI_REGEX.search(text)]: the match at the leftmost position that has
    one. *)
Fixpoint doi_search (text : string) : option string :=
  match doi_match_here text with
  | Some m => Some m
  | None =>
      match text with
      | EmptyString => None
      | String _ r => doi_search r
      end
  end.

Definition MIN_INTERVAL_SECONDS : float := 5%float.
Definition MAX_REQUESTS_PER_HOUR : Z := 10.

(* --------------------------------------------------------------------- *)
(** *** What the program does to the outside world *)

(** The two messages of the rate limiter, with the numbers they format. *)
Inductive message : Type :=
| MsgWaiting (wait : float)
    (* f"Rate limit: waiting {wait:.1f}s between requests..." *)
| MsgLimitReached (limit : Z) (minutes : float).
    (* f"Rate limit reached ({limit} lookups/hour). Try again in
       {minutes:.0f} minute(s)." *)

Inductive event : Type :=
| Print (m : message)                 (* print(...)                          *)
| PrintErr (m : message)              (* print(..., file=sys.stderr)         *)
| Sleep (seconds : float)             (* time.sleep(seconds)                 *)
| SleepUniform (lo hi : float)        (* time.sleep(random.uniform(lo, hi))  *)
| Request (attempt : Z).              (* requests.get / requests.post        *)

(** How a call that may end the process comes back. *)
Inductive outcome : Type :=
| Returned
| SystemExit (code : Z).

(* --------------------------------------------------------------------- *)
(** *** [check_rate_limit] *)

(** [max(xs)] / [min(xs)] on a non-empty list: the first item is replaced by
    each later one that compares strictly above (below) it. *)
Definition py_max (x : float) (xs : list float) : float :=
  fold_left (fun m y => if PrimFloat.ltb m y then y else m) xs x.

Definition py_min (x : float) (xs : list float) : float :=
  fold_left (fun m y => if PrimFloat.ltb y m then y else m) xs x.

(** [[ts for ts in timestamps if now - ts < window]] *)
Definition prune (now window : float) (timestamps : list float) : list float :=
  filter (fun ts => PrimFloat.ltb (PrimFloat.sub now ts) window) timestamps.

(** [check_rate_limit()], given [time.time()] and the ledger file:
    [ledger] is the list of timestamps [record_request] wrote, [None] when the
    file is missing or does not parse. *)
Definition check_rate_limit (now : float) (ledger : option (list float))
  : list event * outcome :=
  let window := 3600%float in
  let timestamps := match ledger with Some ts => ts | None => [] end in
  let timestamps := prune now window timestamps in
  let trace :=
    match timestamps with
    | t :: ts =>
        let elapsed := PrimFloat.sub now (py_max t ts) in
        if PrimFloat.ltb elapsed MIN_INTERVAL_SECONDS then
          let wait := PrimFloat.sub MIN_INTERVAL_SECONDS elapsed in
          [Print (MsgWaiting wait); Sleep wait]
        else []
    | [] => []
    end in
  if MAX_REQUESTS_PER_HOUR <=? Z.of_nat (List.length timestamps) then
    match timestamps with
    | t :: ts =>
        let oldest := py_min t ts in
        let retry_after := PrimFloat.sub window (PrimFloat.sub now oldest) in
        (append trace
           (PrintErr (MsgLimitReached MAX_REQUESTS_PER_HOUR
                        (PrimFloat.div retry_after 60%float))),
         SystemExit 1)
    | [] => (trace, Returned) (* not reached: the limit is positive *)
    end
  else (trace, Returned).

(* --------------------------------------------------------------------- *)
(** *** [_get] and [_post] *)

(** What the program reads of a [requests.Response]. *)
Record response : Type := {
  ok : bool;
  status_code : Z;
  json : result value
}.

(** What an attempt of the retry loop meets.  The call
    [requests.get(..., proxies=_get_proxy())] first evaluates its arguments,
    [_get_proxy()] among them, inside the [try]: when that raises, no
    request is made.  Otherwise the request is made, and it raises (a
    transport error) or returns a response. *)
Inductive exchange : Type :=
| Unsent (e : exn)                    (* _get_proxy() raised                 *)
| Sent (r : result response).         (* requests.get / requests.post ran    *)

(** The network, seen from the retry loop: what attempt [i] meets. *)
Definition network : Type := Z -> exchange.

(** The request of an attempt, when it makes one. *)
Definition request (net : network) (attempt : Z) : list event :=
  match net attempt with
  | Sent _ => [Request attempt]
  | Unsent _ => []
  end.

(** What one pass through the loop body decides. *)
Inductive control : Type :=
| Return (v : value)
| Continue.

(** The [try] block of the loop body. *)
Definition try_block (net : network) (retries attempt : Z)
  : result (list event * control) :=
  resp <- (match net attempt with
           | Unsent e => Raise e
           | Sent r => r
           end) ;;
  if ok resp then
    v <- json resp ;; Ok ([], Return v)
  else if (status_code resp =? 429) && (attempt <? retries) then
    Ok ([SleepUniform 3 8], Continue)
  else Ok ([], Return VNone).

(** The loop body: the [try] block under its [except Exception] handler. *)
Definition loop_body (net : network) (retries attempt : Z)
  : list event * control :=
  match try_block net retries attempt with
  | Ok r => r
  | Raise _ =>
      if attempt <? retries then ([Sleep 2], Continue) else ([], Continue)
  end.

(** [for attempt in range(retries + 1): ...], then [return None]. *)
Fixpoint retry_loop (net : network) (retries : Z) (attempts : list Z)
  : list event * result value :=
  match attempts with
  | [] => ([], Ok VNone)
  | attempt :: rest =>
      let '(slept, c) := loop_body net retries attempt in
      match c with
      | Return v => ((request net attempt ++ slept)%list, Ok v)
      | Continue =>
          let '(trace, r) := retry_loop net retries rest in
          ((request net attempt ++ slept) ++ trace, r)%list
      end
  end.

(** [range(n)] *)
Definition range (n : Z) : list Z := map Z.of_nat (seq 0 (Z.to_nat n)).

Definition _get (net : network) (retries : Z) : list event * result value :=
  retry_loop net retries (range (retries + 1)).

Definition _post (net : network) (retries : Z) : list event * result value :=
  retry_loop net retries (range (retries + 1)).

(* --------------------------------------------------------------------- *)
(** *** [extract_doi] *)

Definition known_extensions : list string := [".pdf"; ".html"; ".full"; ".xml"].

(** [for ext in [...]: if doi.lower().endswith(ext): doi = doi[: -len(ext)]] *)
Fixpoint strip_extensions (exts : list string) (doi : string) : string :=
  match exts with
  | [] => doi
  | ext :: rest =>
      strip_extensions rest
        (if PyStr.endswith (PyStr.lower doi) ext
         then PyStr.drop_last (String.length ext) doi
         else doi)
  end.

Definition extract_doi (text : string) : option string :=
  match doi_search text with
  | Some m => Some (strip_extensions known_extensions (PyStr.rstrip ".,;:" m))
  | None => None
  end.

(* --------------------------------------------------------------------- *)
(** *** The two substitutions of [to_markdown] *)

(** [re.sub(r"<[^>]+>", "", s)]: at a [<] followed by one or more characters
    other than [>] and then a [>], everything up to that [>] goes; [skip]
    counts the characters of a match still to drop. *)
Fixpoint strip_tags_from (skip : nat) (s : string) : string :=
  match s with
  | EmptyString => EmptyString
  | String c r =>
      match skip with
      | S k => strip_tags_from k r
      | O =>
          if Ascii.eqb c "<" then
            let inside := PyStr.take_while (fun x => negb (Ascii.eqb x ">")) r in
            match inside, PyStr.drop_while (fun x => negb (Ascii.eqb x ">")) r with
            | String _ _, String _ _ =>
                strip_tags_from (String.length inside + 1) r
            | _, _ => String c (strip_tags_from O r)
            end
          else String c (strip_tags_from O r)
      end
  end.

Definition strip_tags (s : string) : string := strip_tags_from O s.

(** [re.sub(r"\s+", " ", s)]: every maximal run of white space becomes one
    space; [in_run] says that the previous character was white space. *)
Fixpoint collapse_from (in_run : bool) (s : string) : string :=
  match s with
  | EmptyString => EmptyString
  | String c r =>
      if PyStr.is_space c then
        if in_run then collapse_from true r
        else String " " (collapse_from true r)
      else String c (collapse_from false r)
  end.

Definition collapse_spaces (s : string) : string := collapse_from false s.

(** The line separator of ["\n".join(lines)]. *)
Definition newline : string := String (PyStr.chr 10) "".

(** The em dash (U+2014) of three output lines lies outside the range of
    [ascii]; it stands here as its UTF-8 bytes.  No function of the program
    inspects it. *)
Definition em_dash : string := "—".

(** A comprehension [[f(a) for a in items if f(a)]]-style loop: [f] says, for
    each item in turn, whether it is kept and as what; the first exception
    ends the loop. *)
Fixpoint collect {A : Type} (f : value -> result (option A)) (items : list value)
  : result (list A) :=
  match items with
  | [] => Ok []
  | a :: rest =>
      o <- f a ;;
      r <- collect f rest ;;
      Ok (match o with Some x => x :: r | None => r end)
  end.

Section Program.

(** The interpreter's formatting of floats and quoting of strings. *)
Variable rt : runtime.

(** [list(set(xs))]: the distinct elements of [xs], in the order in which the
    interpreter's hash table happens to hold them. *)
Variable list_of_set : list string -> list string.

(* --------------------------------------------------------------------- *)
(** *** [_extract_authors] *)

(** The loop over CrossRef's [author] list. *)
Fixpoint crossref_names (authors : list value) (names : list value)
  : result (list value) :=
  match authors with
  | [] => Ok names
  | a :: rest =>
      given <- get a "given" (VStr "") ;;
      family <- get a "family" (VStr "") ;;
      let name := PyStr.strip (str rt given ++ " " ++ str rt family) in
      crossref_names rest
        (if truthy (VStr name) then append names (VStr name) else names)
  end.

Definition openalex_name (a : value) : result (option value) :=
  au <- get a "author" (VDict []) ;;
  dn <- get au "display_name" VNone ;;
  if truthy dn then
    au' <- get a "author" (VDict []) ;;
    dn' <- get au' "display_name" (VStr "") ;;
    Ok (Some dn')
  else Ok None.

Definition semantic_name (a : value) : result (option value) :=
  n <- get a "name" VNone ;;
  if truthy n then n' <- get a "name" (VStr "") ;; Ok (Some n') else Ok None.

Definition authors_from_openalex (oa ss epmc : value) : result (list value) :=
  authorships <- get oa "authorships" (VList []) ;;
  if truthy authorships then
    items <- iter authorships ;; collect openalex_name items
  else
    ss_authors <- get ss "authors" (VList []) ;;
    if truthy ss_authors then
      items <- iter ss_authors ;; collect semantic_name items
    else
      author_str <- get epmc "authorString" (VStr "") ;;
      if truthy author_str then Ok [author_str] else Ok [].

Definition _extract_authors (cr oa ss epmc : value) : result (list value) :=
  authors <- get cr "author" (VList []) ;;
  if truthy authors then
    items <- iter authors ;;
    names <- crossref_names items [] ;;
    match names with
    | _ :: _ => Ok names
    | [] => authors_from_openalex oa ss epmc
    end
  else authors_from_openalex oa ss epmc.

(* --------------------------------------------------------------------- *)
(** *** [_extract_journal] *)

Definition _extract_journal (cr ss epmc : value) : result value :=
  ct <- get cr "container-title" (VList []) ;;
  if truthy ct then
    journal <- (if is_list ct then first ct else Ok ct) ;;
    vol <- get cr "volume" (VStr "") ;;
    issue <- get cr "issue" (VStr "") ;;
    page <- get cr "page" (VStr "") ;;
    let parts := [journal] in
    let parts := if truthy vol then append parts (VStr ("vol. " ++ str rt vol)) else parts in
    let parts := if truthy issue then append parts (VStr ("no. " ++ str rt issue)) else parts in
    let parts := if truthy page then append parts (VStr ("pp. " ++ str rt page)) else parts in
    s <- join ", " parts ;; Ok (VStr s)
  else
    ss_journal <- get ss "journal" (VDict []) ;;
    name <- (if is_dict ss_journal then get ss_journal "name" VNone else Ok VNone) ;;
    if is_dict ss_journal && truthy name then getitem ss_journal "name"
    else get epmc "journalTitle" VNone.

(* --------------------------------------------------------------------- *)
(** *** [_extract_date] *)

Definition date_keys : list string :=
  ["published-print"; "published-online"; "issued"; "created"].

(** [cr.get(key, {}).get("date-parts", [[]])] *)
Definition date_parts (cr : value) (key : string) : result value :=
  d <- get cr key (VDict []) ;; get d "date-parts" (VList [VList []]).

(** The loop over the four date keys; [None] when it ends without a
    [return]. *)
Fixpoint date_from_crossref (cr : value) (keys : list string)
  : result (option value) :=
  match keys with
  | [] => Ok None
  | key :: rest =>
      dp <- date_parts cr key ;;
      dp0 <- (if truthy dp then first dp else Ok dp) ;;
      if truthy dp && truthy dp0 then
        parts <- first dp ;;
        n <- len parts ;;
        if 3 <=? n then
          p0 <- item parts 0 ;;
          p1 <- item parts 1 ;;
          s1 <- format_02d p1 ;;
          p2 <- item parts 2 ;;
          s2 <- format_02d p2 ;;
          Ok (Some (VStr (str rt p0 ++ "-" ++ s1 ++ "-" ++ s2)))
        else if 1 <=? n then
          p0 <- item parts 0 ;;
          Ok (Some (VStr (str rt p0)))
        else date_from_crossref cr rest
      else date_from_crossref cr rest
  end.

Definition _extract_date (cr ss oa epmc : value) : result value :=
  r <- date_from_crossref cr date_keys ;;
  match r with
  | Some d => Ok d
  | None =>
      pd <- get ss "publicationDate" VNone ;;
      if truthy pd then getitem ss "publicationDate"
      else
        py <- get oa "publication_year" VNone ;;
        if truthy py then
          y <- getitem oa "publication_year" ;; Ok (VStr (str rt y))
        else get epmc "pubYear" VNone
  end.

(* --------------------------------------------------------------------- *)
(** *** [_extract_oa_links] *)

(** A link is the tuple [(label, url)]; the URL is whatever the source
    holds. *)
Definition link : Type := (string * value)%type.

(** The loop over Europe PMC's full-text URLs, up to its [break]. *)
Fixpoint epmc_pdf_loop (urls : list value) (links : list link)
  : result (list link) :=
  match urls with
  | [] => Ok links
  | u :: rest =>
      style <- get u "documentStyle" VNone ;;
      if eq_str style "pdf" then
        url <- getitem u "url" ;;
        Ok (append links ("Europe PMC PDF", url))
      else epmc_pdf_loop rest links
  end.

(** The loop over CrossRef's licenses, up to its [break]. *)
Fixpoint license_loop (licenses : list value) (links : list link)
  : result (list link) :=
  match licenses with
  | [] => Ok links
  | lic :: rest =>
      url <- get lic "URL" (VStr "") ;;
      cc <- str_in "creativecommons.org" url ;;
      if cc then Ok (append links ("License", url))
      else license_loop rest links
  end.

Definition _extract_oa_links (cr oa ss epmc report : value)
  : result (list link) :=
  let links : list link := [] in
  (* PMC *)
  pmc <- get report "pmc_id" VNone ;;
  let links :=
    if truthy pmc then
      append links
        ("PubMed Central",
         VStr ("https://www.ncbi.nlm.nih.gov/pmc/articles/PMC"
               ++ str rt pmc ++ "/"))
    else links in
  (* Semantic Scholar OA PDF *)
  ss_pdf <- get ss "openAccessPdf" (VDict []) ;;
  ss_url <- (if is_dict ss_pdf then get ss_pdf "url" VNone else Ok VNone) ;;
  links <- (if is_dict ss_pdf && truthy ss_url then
              url <- getitem ss_pdf "url" ;;
              Ok (append links ("Semantic Scholar PDF", url))
            else Ok links) ;;
  (* OpenAlex OA *)
  oa_access <- get oa "open_access" (VDict []) ;;
  oa_url <- (if is_dict oa_access then get oa_access "oa_url" VNone else Ok VNone) ;;
  links <- (if is_dict oa_access && truthy oa_url then
              status <- get oa_access "oa_status" (VStr "open") ;;
              url <- getitem oa_access "oa_url" ;;
              Ok (append links ("OpenAlex (" ++ str rt status ++ ")", url))
            else Ok links) ;;
  (* Europe PMC *)
  flag <- get epmc "isOpenAccess" VNone ;;
  links <- (if eq_str flag "Y" then
              url_list <- get epmc "fullTextUrlList" (VDict []) ;;
              epmc_urls <- get url_list "fullTextUrl" (VList []) ;;
              items <- iter epmc_urls ;;
              epmc_pdf_loop items links
            else Ok links) ;;
  (* CrossRef license *)
  licenses <- get cr "license" (VList []) ;;
  items <- iter licenses ;;
  license_loop items links.

(* --------------------------------------------------------------------- *)
(** *** [_extract_notices] *)

(** [cr.get("update-to", []) + cr.get("updated-by", [])], as the loop goes
    through it. *)
Definition update_history (cr : value) : result (list value) :=
  update_to <- get cr "update-to" (VList []) ;;
  updated_by <- get cr "updated-by" (VList []) ;;
  iter_sum update_to updated_by.

(** [update.get("label", "").lower()] *)
Definition update_label (update : value) : result string :=
  l <- get update "label" (VStr "") ;; lower l.

(** The loop over the update history. *)
Fixpoint update_loop (updates : list value) (notices : list string)
  : result (list string) :=
  match updates with
  | [] => Ok notices
  | update :: rest =>
      label <- update_label update ;;
      if PyStr.contains label "retract" then
        update_loop rest (append notices "RETRACTED")
      else if PyStr.contains label "correction" || PyStr.contains label "erratum" then
        update_loop rest (append notices "Has correction/erratum")
      else if PyStr.contains label "concern" then
        update_loop rest (append notices "Expression of concern")
      else update_loop rest notices
  end.

Definition _extract_notices (cr : value) : result (list string) :=
  let notices : list string := [] in
  relation <- get cr "relation" (VDict []) ;;
  retracted <- get relation "is-retracted-by" VNone ;;
  let notices :=
    if truthy retracted then append notices "RETRACTED" else notices in
  concern <- get relation "has-expression-of-concern" VNone ;;
  let notices :=
    if truthy concern then append notices "Expression of concern"
    else notices in
  updates <- update_history cr ;;
  notices <- update_loop updates notices ;;
  Ok (list_of_set notices).

(* --------------------------------------------------------------------- *)
(** *** [to_markdown] *)

(** The sources of a report: each [report["sources"].get(name, {})]. *)
Definition source (report : value) (name : string) : result value :=
  sources <- getitem report "sources" ;; get sources name (VDict []).

(** Title *)
Definition reconciled_title (doi cr ss oa epmc : value) : result value :=
  t <- get cr "title" (VList [VNone]) ;;
  let title := if truthy t then t else VList [VNone] in
  title <- (if is_list title
            then (if truthy title then first title else Ok VNone)
            else Ok title) ;;
  or_else title (
    t <- get ss "title" VNone ;;
    or_else t (
      t <- get oa "title" VNone ;;
      or_else t (
        t <- get epmc "title" VNone ;;
        or_else t (Ok doi)))).

Definition md_title (doi cr ss oa epmc : value) (lines : list string)
  : result (list string) :=
  title <- reconciled_title doi cr ss oa epmc ;;
  let lines := append lines ("# " ++ str rt title) in
  Ok (append lines "").

(** Metadata *)
Definition md_doi (doi : value) (lines : list string) : list string :=
  append lines
    ("**DOI:** [" ++ str rt doi ++ "](https://doi.org/" ++ str rt doi ++ ")").

(** Authors *)
Definition md_authors (cr oa ss epmc : value) (lines : list string)
  : result (list string) :=
  authors <- _extract_authors cr oa ss epmc ;;
  match authors with
  | _ :: _ =>
      display <- join ", " (firstn 10 authors) ;;
      let display :=
        if 10 <? Z.of_nat (List.length authors)
        then display ++ " *et al.*" else display in
      Ok (append lines ("**Authors:** " ++ display))
  | [] => Ok lines
  end.

(** Journal *)
Definition md_journal (cr ss epmc : value) (lines : list string)
  : result (list string) :=
  journal <- _extract_journal cr ss epmc ;;
  Ok (if truthy journal
      then append lines ("**Journal:** " ++ str rt journal) else lines).

(** Date *)
Definition md_date (cr ss oa epmc : value) (lines : list string)
  : result (list string) :=
  date <- _extract_date cr ss oa epmc ;;
  Ok (if truthy date
      then append lines ("**Published:** " ++ str rt date) else lines).

(** Type *)
Definition md_type (cr ss : value) (lines : list string)
  : result (list string) :=
  t <- get cr "type" VNone ;;
  pub_type <- or_else t (
    types <- get ss "publicationTypes" VNone ;;
    first (if truthy types then types else VList [VNone])) ;;
  Ok (if truthy pub_type
      then append lines ("**Type:** " ++ str rt pub_type) else lines).

(** PubMed *)
Definition md_pubmed (report : value) (lines : list string)
  : result (list string) :=
  pmid <- get report "pmid" VNone ;;
  let lines :=
    if truthy pmid then
      append lines ("**PubMed:** [" ++ str rt pmid
                    ++ "](https://pubmed.ncbi.nlm.nih.gov/" ++ str rt pmid ++ "/)")
    else lines in
  pmc <- get report "pmc_id" VNone ;;
  Ok (if truthy pmc then
        append lines ("**PMC:** [PMC" ++ str rt pmc
                      ++ "](https://www.ncbi.nlm.nih.gov/pmc/articles/PMC"
                      ++ str rt pmc ++ "/)")
      else lines).

Definition md_separator (lines : list string) : list string :=
  append (append (append lines "") "---") "".

(** TLDR (Semantic Scholar) *)
Definition md_tldr (ss : value) (lines : list string) : result (list string) :=
  tldr <- get ss "tldr" (VDict []) ;;
  text <- (if is_dict tldr then get tldr "text" VNone else Ok VNone) ;;
  if is_dict tldr && truthy text then
    let lines := append (append lines "## TL;DR") "" in
    text <- getitem tldr "text" ;;
    Ok (append (append lines ("*" ++ str rt text ++ "*")) "")
  else Ok lines.

(** Abstract *)
Definition md_abstract (cr epmc : value) (lines : list string)
  : result (list string) :=
  a <- get cr "abstract" VNone ;;
  abstract <- or_else a (get epmc "abstractText" VNone) ;;
  if truthy abstract then
    match abstract with
    | VStr text =>
        let text := strip_tags text in
        let text := PyStr.strip (collapse_spaces text) in
        Ok (append (append (append (append lines "## Abstract") "") text) "")
    | _ => Raise TypeError
    end
  else Ok lines.

(** Citation counts from multiple sources *)
Definition md_citations (cr oa ss epmc : value) (lines : list string)
  : result (list string) :=
  let lines := append lines "## Citation Counts" in
  let lines := append lines "" in
  let lines := append lines "| Source | Citations | Notes |" in
  let lines := append lines "|--------|-----------|-------|" in
  cr_count <- get cr "is-referenced-by-count" VNone ;;
  lines <- (match cr_count with
            | VNone => Ok lines
            | _ => n <- format_grouped rt cr_count ;;
                   Ok (append lines ("| CrossRef | " ++ n ++ " | - |"))
            end) ;;
  oa_count <- get oa "cited_by_count" VNone ;;
  lines <- (match oa_count with
            | VNone => Ok lines
            | _ =>
                year <- get oa "cited_by_percentile_year" (VDict []) ;;
                percentile <- get year "min" VNone ;;
                let note := match percentile with
                            | VNone => "-"
                            | _ => str rt percentile ++ "th percentile for year"
                            end in
                n <- format_grouped rt oa_count ;;
                Ok (append lines ("| OpenAlex | " ++ n ++ " | " ++ note ++ " |"))
            end) ;;
  ss_count <- get ss "citationCount" VNone ;;
  lines <- (match ss_count with
            | VNone => Ok lines
            | _ =>
                influential <- get ss "influentialCitationCount" (VInt 0) ;;
                let note := if truthy influential
                            then str rt influential ++ " influential" else "-" in
                n <- format_grouped rt ss_count ;;
                Ok (append lines
                      ("| Semantic Scholar | " ++ n ++ " | " ++ note ++ " |"))
            end) ;;
  epmc_count <- get epmc "citedByCount" VNone ;;
  lines <- (match epmc_count with
            | VNone => Ok lines
            | _ => n <- format_grouped rt epmc_count ;;
                   Ok (append lines ("| Europe PMC | " ++ n ++ " | - |"))
            end) ;;
  Ok (append lines "").

(** Open Access *)
Definition md_open_access (cr oa ss epmc report : value) (lines : list string)
  : result (list string) :=
  oa_urls <- _extract_oa_links cr oa ss epmc report ;;
  match oa_urls with
  | _ :: _ =>
      let lines := append (append lines "## Open Access") "" in
      let lines :=
        fold_left
          (fun lines l => append lines
             ("- [" ++ fst l ++ "](" ++ str rt (snd l) ++ ")"))
          oa_urls lines in
      Ok (append lines "")
  | [] => Ok lines
  end.

(** Editorial notices / retractions *)
Definition md_notices (cr : value) (lines : list string)
  : result (list string) :=
  notices <- _extract_notices cr ;;
  match notices with
  | _ :: _ =>
      let lines := append (append lines "## Editorial Notices") "" in
      let lines :=
        fold_left (fun lines notice => append lines ("- **" ++ notice ++ "**"))
          notices lines in
      Ok (append lines "")
  | [] => Ok lines
  end.

(** PubPeer *)
Definition md_pubpeer (doi pp : value) (lines : list string)
  : result (list string) :=
  if truthy pp then
    comments <- get pp "total_comments" (VInt 0) ;;
    positive <- gt_zero comments ;;
    if positive then
      let lines := append (append lines "## PubPeer") "" in
      users <- get pp "users" (VStr "") ;;
      user_str <-
        (match users with
         | VInt _ | VBool _ | VFloat _ =>
             n <- (match users with
                   | VInt n => Ok n
                   | VBool b => Ok (if b then 1 else 0)
                   | VFloat f => int_of_float f
                   | _ => Ok 0
                   end) ;;
             Ok (PyStr.of_Z n ++ " user" ++ (if ne_one users then "s" else ""))
         | VStr u => Ok (if truthy users then u ++ " users" else "")
         | _ => Ok ""
         end) ;;
      url <- get pp "url" (VStr ("https://pubpeer.com/search?q=" ++ str rt doi)) ;;
      let comment_text :=
        "**" ++ str rt comments ++ " comment"
        ++ (if ne_one comments then "s" else "") ++ "**" in
      let comment_text :=
        if truthy (VStr user_str)
        then comment_text ++ " from " ++ user_str else comment_text in
      let lines :=
        append lines (comment_text ++ " " ++ em_dash ++ " [View on PubPeer]("
                      ++ str rt url ++ ")") in
      Ok (append lines "")
    else Ok lines
  else Ok lines.

(** Hypothesis *)
Definition md_hypothesis (doi report : value) (lines : list string)
  : result (list string) :=
  hyp_count <- get report "hypothesis_annotations" (VInt 0) ;;
  positive <- gt_zero hyp_count ;;
  if positive then
    let lines := append (append lines "## Hypothesis Annotations") "" in
    let lines :=
      append lines
        ("**" ++ str rt hyp_count ++ " annotation"
         ++ (if ne_one hyp_count then "s" else "") ++ "** " ++ em_dash
         ++ " [View](https://hypothes.is/search?q=doi%3A" ++ str rt doi ++ ")") in
    Ok (append lines "")
  else Ok lines.

(** Topics/concepts from OpenAlex *)
Definition relevant_concept (c : value) : result (option value) :=
  score <- get c "score" (VInt 0) ;;
  above <- gt_0_3 score ;;
  Ok (if above then Some c else None).

Fixpoint topic_lines (top : list value) (lines : list string)
  : result (list string) :=
  match top with
  | [] => Ok lines
  | c :: rest =>
      score <- get c "score" (VInt 0) ;;
      name <- get c "display_name" (VStr "?") ;;
      pct <- format_percent0 rt score ;;
      topic_lines rest (append lines ("- " ++ str rt name ++ " (" ++ pct ++ ")"))
  end.

Definition md_topics (oa : value) (lines : list string) : result (list string) :=
  concepts <- get oa "concepts" (VList []) ;;
  if truthy concepts then
    items <- iter concepts ;;
    relevant <- collect relevant_concept items ;;
    let top := firstn 8 relevant in
    match top with
    | _ :: _ =>
        let lines := append (append lines "## Topics") "" in
        lines <- topic_lines top lines ;;
        Ok (append lines "")
    | [] => Ok lines
    end
  else Ok lines.

(** Funders *)
Fixpoint funder_lines (funders : list value) (lines : list string)
  : result (list string) :=
  match funders with
  | [] => Ok lines
  | f :: rest =>
      name <- get f "name" (VStr "Unknown") ;;
      awards <- get f "award" (VList []) ;;
      if truthy awards then
        items <- iter awards ;;
        grants <- join ", " items ;;
        funder_lines rest
          (append lines ("- " ++ str rt name ++ " (grants: " ++ grants ++ ")"))
      else funder_lines rest (append lines ("- " ++ str rt name))
  end.

Definition md_funding (cr : value) (lines : list string) : result (list string) :=
  funders <- get cr "funder" (VList []) ;;
  if truthy funders then
    let lines := append (append lines "## Funding") "" in
    items <- iter funders ;;
    lines <- funder_lines items lines ;;
    Ok (append lines "")
  else Ok lines.

(** References count *)
Definition has_doi (r : value) : result (option unit) :=
  d <- get r "DOI" VNone ;; Ok (if truthy d then Some tt else None).

Definition md_references (cr : value) (lines : list string)
  : result (list string) :=
  refs <- get cr "reference" (VList []) ;;
  if truthy refs then
    items <- iter refs ;;
    with_doi <- collect has_doi items ;;
    let ref_with_doi := Z.of_nat (List.length with_doi) in
    let lines := append (append lines "## References") "" in
    n <- len refs ;;
    let lines :=
      append lines ("**" ++ PyStr.of_Z n ++ " references** ("
                    ++ PyStr.of_Z ref_with_doi ++ " with DOI)") in
    Ok (append lines "")
  else Ok lines.

(** Recommendations *)

(** [recs[:5]] and the loop over it: a [dict] cannot be sliced ([TypeError]
    up to Python 3.11, [KeyError] from 3.12 on). *)
Definition first_five (recs : value) : result (list value) :=
  match recs with
  | VList l => Ok (firstn 5 l)
  | VStr s => Ok (chars (PyStr.take 5 s))
  | _ => Raise TypeError
  end.

(** [author_str += " et al."] *)
Definition add_et_al (author_str : value) : result value :=
  match author_str with
  | VStr s => Ok (VStr (s ++ " et al."))
  | VList l => Ok (VList (l ++ chars " et al."))
  | _ => Raise TypeError
  end.

Fixpoint recommendation_lines (recs : list value) (lines : list string)
  : result (list string) :=
  match recs with
  | [] => Ok lines
  | r :: rest =>
      r_title <- get r "title" (VStr "Untitled") ;;
      r_authors <- get r "authors" (VList []) ;;
      r_year <- get r "year" (VStr "") ;;
      r_cite <- get r "citationCount" (VInt 0) ;;
      author_str <-
        (if truthy r_authors then
           a <- first r_authors ;;
           author_str <- get a "name" (VStr "") ;;
           n <- len r_authors ;;
           if 1 <? n then add_et_al author_str else Ok author_str
         else Ok (VStr "")) ;;
      let parts := [r_title] in
      let parts := if truthy author_str then append parts author_str else parts in
      let parts := if truthy r_year then append parts (VStr (str rt r_year)) else parts in
      parts <- (if truthy r_cite then
                  n <- format_grouped rt r_cite ;;
                  Ok (append parts (VStr (n ++ " citations")))
                else Ok parts) ;;
      joined <- join (" " ++ em_dash ++ " ") parts ;;
      recommendation_lines rest (append lines ("- " ++ joined))
  end.

Definition md_recommendations (report : value) (lines : list string)
  : result (list string) :=
  recs <- get report "recommendations" (VList []) ;;
  if truthy recs then
    let lines := append (append lines "## Recommended Papers") "" in
    five <- first_five recs ;;
    lines <- recommendation_lines five lines ;;
    Ok (append lines "")
  else Ok lines.

(** The footer: [today] is [datetime.now().strftime('%Y-%m-%d')]. *)
Definition md_footer (today : string) (lines : list string) : list string :=
  append (append lines "---")
    ("*Generated by Lazy Scholar CLI on " ++ today ++ "*").

(** The lines of the document, in the order the function appends them. *)
Definition markdown_lines (today : string) (report : value)
  : result (list string) :=
  let lines : list string := [] in
  doi <- getitem report "doi" ;;
  cr <- source report "crossref" ;;
  oa <- source report "openalex" ;;
  ss <- source report "semantic_scholar" ;;
  epmc <- source report "europepmc" ;;
  sources <- getitem report "sources" ;;
  pp <- get sources "pubpeer" VNone ;;
  lines <- md_title doi cr ss oa epmc lines ;;
  let lines := md_doi doi lines in
  lines <- md_authors cr oa ss epmc lines ;;
  lines <- md_journal cr ss epmc lines ;;
  lines <- md_date cr ss oa epmc lines ;;
  lines <- md_type cr ss lines ;;
  lines <- md_pubmed report lines ;;
  let lines := md_separator lines in
  lines <- md_tldr ss lines ;;
  lines <- md_abstract cr epmc lines ;;
  lines <- md_citations cr oa ss epmc lines ;;
  lines <- md_open_access cr oa ss epmc report lines ;;
  lines <- md_notices cr lines ;;
  lines <- md_pubpeer doi pp lines ;;
  lines <- md_hypothesis doi report lines ;;
  lines <- md_topics oa lines ;;
  lines <- md_funding cr lines ;;
  lines <- md_references cr lines ;;
  lines <- md_recommendations report lines ;;
  Ok (md_footer today lines).

Definition to_markdown (today : string) (report : value) : result string :=
  lines <- markdown_lines today report ;; Ok (PyStr.join newline lines).

End Program.


(* --------------------------------------------------------------------- *)
(** *** [record_request] *)

(** [record_request()], given [time.time()] and the ledger file: the list
    it writes back. *)
Definition record_request (now : float) (ledger : option (list float)) : list float :=
  let window := 3600%float in
  let timestamps := match ledger with Some ts => ts | None => [] end in
  let timestamps := prune now window timestamps in
  append timestamps now.

(* --------------------------------------------------------------------- *)
(** *** Proxies *)

(** What [_load_proxy_config] returns when the file is missing or does not
    parse. *)
Definition default_proxy_config : value :=
  VDict [("enabled", VBool false); ("proxies", VList [])].

(** What reading [~/.scholar-proxies.json] comes to.  The handler of
    [_load_proxy_config] catches [FileNotFoundError], [OSError] and
    [json.JSONDecodeError] and nothing else: a file that is not valid UTF-8
    makes [read_text()] raise [UnicodeDecodeError], a [ValueError], which
    goes through it. *)
Inductive config_file : Type :=
| Absent                   (* missing, unreadable, or not JSON              *)
| Broken (e : exn)         (* read_text() or json.loads() raised something
                              the handler does not catch                    *)
| Parsed (config : value). (* json.loads(config_path.read_text())           *)

(** [_load_proxy_config()], given the configuration file. *)
Definition _load_proxy_config (file : config_file) : result value :=
  match file with
  | Parsed config => Ok config
  | Absent => Ok default_proxy_config
  | Broken e => Raise e
  end.

(** [_get_proxy()], given [_PROXY_FORCE], the configuration file and the
    generator behind [random.choice]: [draw n] is the index it draws below
    [n]. *)
Definition _get_proxy (force : option bool) (file : config_file) (draw : Z -> nat)
  : result value :=
  config <- _load_proxy_config file ;;
  enabled <- (match force with
              | Some b => Ok (VBool b)
              | None => get config "enabled" (VBool false)
              end) ;;
  if negb (truthy enabled) then Ok VNone
  else
    proxies <- get config "proxies" (VList []) ;;
    if negb (truthy proxies) then Ok VNone
    else
      n <- len proxies ;;
      url <- item proxies (draw n) ;;
      Ok (VDict [("http", url); ("https", url)]).

(* --------------------------------------------------------------------- *)
(** *** Effects and values together *)

(** What the callers of the transport do: the events of the transport and
    of the pauses, and the progress they print. *)
Inductive action : Type :=
| Did (e : event)
| Say (text : string).                (* print(text, ...) *)

(** A call that talks to the outside world: what it did, and what it
    returned or raised. *)
Definition io (A : Type) : Type := (list action * result A)%type.

Definition io_bind {A B : Type} (m : io A) (k : A -> io B) : io B :=
  match m with
  | (trace, Ok a) => let '(trace', r) := k a in ((trace ++ trace')%list, r)
  | (trace, Raise e) => (trace, Raise e)
  end.

Notation "x <~ m ;; k" := (io_bind m (fun x => k))
  (at level 61, m at next level, right associativity) : py_scope.

(** A computation without effect. *)
Definition pure {A : Type} (r : result A) : io A := ([], r).

Definition say (text : string) : io unit := ([Say text], Ok tt).

(** A call of [_get] or [_post]. *)
Definition call {A : Type} (m : list event * result A) : io A :=
  (map Did (fst m), snd m).

Definition API_CALL_DELAY_MIN : float := 0.5%float.
Definition API_CALL_DELAY_MAX : float := 2%float.

Definition _polite_delay : io unit :=
  ([Did (SleepUniform API_CALL_DELAY_MIN API_CALL_DELAY_MAX)], Ok tt).

(* --------------------------------------------------------------------- *)
(** *** The fetchers *)

(** Each fetcher is given the network as its one request sees it; the URL,
    the parameters and the headers it builds decide which network that is,
    and nothing else. *)

Definition fetch_crossref (net : network) : io value :=
  data <~ call (_get net 2) ;;
  pure (if truthy data then
          has <- str_in "message" data ;;
          if has then getitem data "message" else Ok VNone
        else Ok VNone).

Definition search_crossref (net : network) : io value :=
  data <~ call (_get net 2) ;;
  pure (if truthy data then
          has <- str_in "message" data ;;
          if has then
            message <- getitem data "message" ;; get message "items" (VList [])
          else Ok (VList [])
        else Ok (VList [])).

Definition fetch_openalex (net : network) : io value := call (_get net 2).

(** [re.match(r"10\.48550/arXiv\.(.+)", doi, re.IGNORECASE)]: group 1, the
    text after the prefix up to the first line feed, when it is not empty. *)
Definition arxiv_id (doi : string) : option string :=
  if String.eqb (PyStr.lower (PyStr.take 15 doi)) "10.48550/arxiv." then
    match PyStr.take_while (fun c => negb (Ascii.eqb c (PyStr.chr 10)))
                           (String.substring 15 (String.length doi - 15) doi) with
    | EmptyString => None
    | token => Some token
    end
  else None.

(** [by_doi] answers the lookup by DOI, [by_arxiv] the one by arXiv id. *)
Definition fetch_semantic_scholar (by_doi : network) (by_arxiv : string -> network)
    (doi : string) : io value :=
  data <~ call (_get by_doi 2) ;;
  if negb (truthy data) then
    match arxiv_id doi with
    | Some token => call (_get (by_arxiv token) 2)
    | None => pure (Ok data)
    end
  else pure (Ok data).

Definition fetch_recommendations (net : network) : io value :=
  data <~ call (_get net 2) ;;
  pure (if truthy data then get data "recommendedPapers" (VList [])
        else Ok (VList [])).

Definition fetch_pubmed_id (net : network) : io value :=
  data <~ call (_get net 2) ;;
  pure (if truthy data then
          result <- get data "esearchresult" (VDict []) ;;
          ids <- get result "idlist" (VList []) ;;
          if truthy ids then first ids else Ok VNone
        else Ok VNone).

(** The inner loop of [fetch_pubmed_pmc], over the link databases of one
    link set; [None] when it ends without a [return]. *)
Fixpoint pmc_db_loop (dbs : list value) : result (option value) :=
  match dbs with
  | [] => Ok None
  | db :: rest =>
      dbto <- get db "dbto" VNone ;;
      if eq_str dbto "pmc" then
        links <- get db "links" (VList []) ;;
        if truthy links then l <- first links ;; Ok (Some l)
        else pmc_db_loop rest
      else pmc_db_loop rest
  end.

(** The outer loop, over the link sets. *)
Fixpoint pmc_linkset_loop (linksets : list value) : result (option value) :=
  match linksets with
  | [] => Ok None
  | linkset :: rest =>
      dbs <- get linkset "linksetdbs" (VList []) ;;
      items <- iter dbs ;;
      found <- pmc_db_loop items ;;
      match found with
      | Some l => Ok (Some l)
      | None => pmc_linkset_loop rest
      end
  end.

Definition fetch_pubmed_pmc (net : network) : io value :=
  data <~ call (_get net 2) ;;
  pure (if truthy data then
          linksets <- get data "linksets" (VList []) ;;
          items <- iter linksets ;;
          found <- pmc_linkset_loop items ;;
          Ok (match found with Some l => l | None => VNone end)
        else Ok VNone).

(** The loop of [fetch_pubpeer] over the feedbacks. *)
Fixpoint pubpeer_loop (doi : string) (feedbacks : list value) : result value :=
  match feedbacks with
  | [] => Ok VNone
  | fb :: rest =>
      id <- get fb "id" (VStr "") ;;
      id <- lower id ;;
      if String.eqb id (PyStr.lower doi) then Ok fb else pubpeer_loop doi rest
  end.

Definition fetch_pubpeer (net : network) (doi : string) : io value :=
  data <~ call (_post net 2) ;;
  pure (if truthy data then
          feedbacks <- get data "feedbacks" VNone ;;
          if truthy feedbacks then
            feedbacks <- getitem data "feedbacks" ;;
            items <- iter feedbacks ;;
            pubpeer_loop doi items
          else Ok VNone
        else Ok VNone).

Definition fetch_europepmc (net : network) : io value :=
  data <~ call (_get net 2) ;;
  pure (if truthy data then
          result_list <- get data "resultList" (VDict []) ;;
          results <- get result_list "result" (VList []) ;;
          if truthy results then first results else Ok VNone
        else Ok VNone).

Definition fetch_hypothesis_count (net : network) : io value :=
  data <~ call (_get net 2) ;;
  pure (if truthy data then get data "total" (VInt 0) else Ok (VInt 0)).

(* --------------------------------------------------------------------- *)
(** *** [aggregate_paper_data] *)

(** The remote services: for each request the program can make, the
    network that request sees. *)
Record world : Type := {
  crossref : string -> network;               (* by DOI        *)
  openalex : string -> network;               (* by DOI        *)
  semantic_scholar : string -> network;       (* by DOI        *)
  semantic_scholar_arxiv : string -> network; (* by arXiv id   *)
  recommendations : value -> network;         (* by paper id   *)
  pubmed : string -> network;                 (* by DOI        *)
  pubmed_central : value -> network;          (* by PubMed id  *)
  europepmc : string -> network;              (* by DOI        *)
  pubpeer : string -> network;                (* by DOI        *)
  hypothesis : string -> network              (* by DOI        *)
}.

(** [d[k] = v] on a [dict]: the value of an existing key is replaced where
    it stands, a new key goes last. *)
Fixpoint set_key (k : string) (v : value) (d : list (string * value))
  : list (string * value) :=
  match d with
  | [] => [(k, v)]
  | (k', x) :: rest =>
      if String.eqb k k' then (k', v) :: rest else (k', x) :: set_key k v rest
  end.

(** [report["sources"][name] = record]; the report holds its [sources]
    dictionary from its creation on. *)
Definition set_source (name : string) (record : value)
    (report : list (string * value)) : list (string * value) :=
  match lookup "sources" report with
  | Some (VDict sources) =>
      set_key "sources" (VDict (set_key name record sources)) report
  | _ => report
  end.

Definition aggregate_paper_data (w : world) (doi : string) : io value :=
  let report := [("doi", VStr doi); ("sources", VDict [])] in
  _ <~ say "  CrossRef..." ;;
  cr <~ fetch_crossref (crossref w doi) ;;
  let report := if truthy cr then set_source "crossref" cr report else report in
  _ <~ say " done" ;;
  _ <~ _polite_delay ;;
  _ <~ say "  OpenAlex..." ;;
  oa <~ fetch_openalex (openalex w doi) ;;
  let report := if truthy oa then set_source "openalex" oa report else report in
  _ <~ say " done" ;;
  _ <~ _polite_delay ;;
  _ <~ say "  Semantic Scholar..." ;;
  ss <~ fetch_semantic_scholar (semantic_scholar w doi) (semantic_scholar_arxiv w) doi ;;
  let report :=
    if truthy ss then set_source "semantic_scholar" ss report else report in
  _ <~ say " done" ;;
  _ <~ _polite_delay ;;
  _ <~ say "  PubMed..." ;;
  pmid <~ fetch_pubmed_id (pubmed w doi) ;;
  report <~ (if truthy pmid then
               let report := set_key "pmid" pmid report in
               pmc <~ fetch_pubmed_pmc (pubmed_central w pmid) ;;
               pure (Ok (if truthy pmc then set_key "pmc_id" pmc report
                         else report))
             else pure (Ok report)) ;;
  _ <~ say " done" ;;
  _ <~ _polite_delay ;;
  _ <~ say "  Europe PMC..." ;;
  epmc <~ fetch_europepmc (europepmc w doi) ;;
  let report := if truthy epmc then set_source "europepmc" epmc report else report in
  _ <~ say " done" ;;
  _ <~ _polite_delay ;;
  _ <~ say "  PubPeer..." ;;
  pp <~ fetch_pubpeer (pubpeer w doi) doi ;;
  let report := if truthy pp then set_source "pubpeer" pp report else report in
  _ <~ say " done" ;;
  _ <~ _polite_delay ;;
  _ <~ say "  Hypothesis..." ;;
  hyp_count <~ fetch_hypothesis_count (hypothesis w doi) ;;
  let report := set_key "hypothesis_annotations" hyp_count report in
  _ <~ say " done" ;;
  (* Recommendations from Semantic Scholar (if we got a paper ID) *)
  paper_id <~ pure (if truthy ss then get ss "paperId" VNone else Ok VNone) ;;
  report <~ (if truthy ss && truthy paper_id then
               _ <~ _polite_delay ;;
               _ <~ say "  Recommendations..." ;;
               paper_id <~ pure (getitem ss "paperId") ;;
               recs <~ fetch_recommendations (recommendations w paper_id) ;;
               let report := if truthy recs then set_key "recommendations" recs report
                             else report in
               _ <~ say " done" ;;
               pure (Ok report)
             else pure (Ok report)) ;;
  pure (Ok (VDict report)).

(* --------------------------------------------------------------------- *)
(** *** [slugify] *)

(** [[a-z0-9]] *)
Definition is_slug_char (c : ascii) : bool :=
  let n := PyStr.code c in
  ((97 <=? n) && (n <=? 122)) || PyStr.is_digit c.

(** [re.sub(r"[^a-z0-9]+", "-", s)]: [in_run] says that the character before
    was replaced already. *)
Fixpoint hyphenate_from (in_run : bool) (s : string) : string :=
  match s with
  | EmptyString => EmptyString
  | String c r =>
      if is_slug_char c then String c (hyphenate_from false r)
      else if in_run then hyphenate_from true r
      else String "-" (hyphenate_from true r)
  end.

Definition hyphenate (s : string) : string := hyphenate_from false s.

(** [s.strip(chars)] *)
Definition strip_chars (chars s : string) : string :=
  PyStr.rstrip chars (PyStr.drop_while (fun c => PyStr.mem_char c chars) s).

Definition slugify (text : string) : string :=
  let slug := PyStr.lower text in
  let slug := hyphenate slug in
  let slug := strip_chars "-" slug in
  if truthy (VStr slug) then PyStr.take 80 slug else "report".

(* --------------------------------------------------------------------- *)
(** *** [main]: the DOIs, each once *)

(** [d in seen] for the set [seen], held as the list of its members. *)
Definition in_set (d : string) (seen : list string) : bool :=
  existsb (String.eqb d) seen.

(** The loop [for d in dois: if d not in seen: seen.add(d); unique.append(d)]. *)
Fixpoint dedup_loop (dois seen unique : list string) : list string :=
  match dois with
  | [] => unique
  | d :: rest =>
      if in_set d seen then dedup_loop rest seen unique
      else dedup_loop rest (d :: seen) (append unique d)
  end.

(** [seen = set(); unique = []; for d in dois: ...; dois = unique] *)
Definition deduplicate (dois : list string) : list string :=
  dedup_loop dois [] [].

(* --------------------------------------------------------------------- *)
(** *** [resolve_arxiv_doi] *)

(** The arrow (U+2192) of the two messages below lies outside the range of
    [ascii]; it stands here as its UTF-8 bytes. *)
Definition arrow : string := "→".

(** The two requests of [resolve_arxiv_doi] are made once, outside the
    retry loop: they are attempts 0, and like those of the transport they
    go out only when [_get_proxy()] did not raise. *)
Definition sent (answer : exchange) : list action :=
  match answer with Sent _ => [Did (Request 0)] | Unsent _ => [] end.

(** The body of the first [try] block, given what
    [requests.get(..., proxies=_get_proxy())] did: the DOI it returns, if
    it returns, and the title it leaves behind. *)
Definition published_lookup (doi : string) (answer : exchange)
  : result (option value * value) :=
  resp <- (match answer with Unsent e => Raise e | Sent r => r end) ;;
  if ok resp then
    data <- json resp ;;
    ext <- get data "externalIds" VNone ;;
    ext <- or_else ext (Ok (VDict [])) ;;
    published_doi <- get ext "DOI" (VStr "") ;;
    differs <- (if truthy published_doi then
                  l <- lower published_doi ;;
                  Ok (negb (String.eqb l (PyStr.lower doi)))
                else Ok false) ;;
    if differs then Ok (Some published_doi, VNone)
    else title <- get data "title" VNone ;; Ok (None, title)
  else Ok (None, VNone).

(** The loop over the items of the title search, up to its [return]. *)
Fixpoint title_match_loop (doi : string) (title : value) (items : list value)
  : result (option value) :=
  match items with
  | [] => Ok None
  | item :: rest =>
      cr_doi <- get item "DOI" (VStr "") ;;
      t <- get item "title" VNone ;;
      t <- or_else t (Ok (VList [VStr ""])) ;;
      t0 <- first t ;;
      cr_title <- lower t0 ;;
      hit <- (if truthy cr_doi then
                l <- lower cr_doi ;;
                if negb (String.eqb l (PyStr.lower doi)) then
                  wanted <- lower title ;; Ok (PyStr.contains cr_title wanted)
                else Ok false
              else Ok false) ;;
      if hit then Ok (Some cr_doi) else title_match_loop doi title rest
  end.

(** The body of the second [try] block. *)
Definition title_search (doi : string) (title : value) (answer : exchange)
  : result (option value) :=
  resp <- (match answer with Unsent e => Raise e | Sent r => r end) ;;
  if ok resp then
    data <- json resp ;;
    message <- get data "message" (VDict []) ;;
    items <- get message "items" (VList []) ;;
    items <- iter items ;;
    title_match_loop doi title items
  else Ok None.

(** [resolve_arxiv_doi(doi)]: [by_arxiv] is what the request to Semantic
    Scholar does for an arXiv id, [by_title] what the title search of
    CrossRef does for a title. *)
Definition resolve_arxiv_doi (rt : runtime)
    (by_arxiv : string -> exchange) (by_title : value -> exchange)
    (doi : string) : list action * value :=
  match arxiv_id doi with
  | None => ([], VStr doi)
  | Some id =>
      let '(found, title) :=
        match published_lookup doi (by_arxiv id) with
        | Ok r => r
        | Raise _ => (None, VNone)
        end in
      match found with
      | Some published_doi =>
          ((sent (by_arxiv id)
            ++ [Say ("  Resolved arXiv DOI " ++ arrow ++ " " ++ str rt published_doi)])%list,
           published_doi)
      | None =>
          if truthy title then
            match title_search doi title (by_title title) with
            | Ok (Some cr_doi) =>
                ((sent (by_arxiv id) ++ sent (by_title title)
                  ++ [Say ("  Resolved arXiv DOI " ++ arrow ++ " " ++ str rt cr_doi
                           ++ " (via CrossRef title match)")])%list,
                 cr_doi)
            | _ => ((sent (by_arxiv id) ++ sent (by_title title))%list, VStr doi)
            end
          else (sent (by_arxiv id), VStr doi)
      end
  end.

(* --------------------------------------------------------------------- *)
(** *** [extract_doi_from_url] *)

(** [s[len(p):]] when [s] starts with [p]. *)
Fixpoint strip_prefix (p s : string) : option string :=
  match p, s with
  | EmptyString, _ => Some s
  | String a p', String b s' => if Ascii.eqb a b then strip_prefix p' s' else None
  | String _ _, EmptyString => None
  end.

(** [s.split(sep, 1)[1]]: the text after the first [sep]; [None] stands for
    the [IndexError] of a text without [sep]. *)
Fixpoint after_first (sep s : string) : option string :=
  match strip_prefix sep s with
  | Some rest => Some rest
  | None =>
      match s with
      | EmptyString => None
      | String _ r => after_first sep r
      end
  end.

Section Url.

(** [urllib.parse.unquote] is left to the library. *)
Variable unquote : string -> string.

Definition extract_doi_from_url (url : string) : result (option string) :=
  let url := unquote url in
  if PyStr.contains url "doi.org/" then
    match after_first "doi.org/" url with
    | Some rest => Ok (extract_doi rest)
    | None => Raise IndexError
    end
  else Ok (extract_doi url).

End Url.

(* --------------------------------------------------------------------- *)
(** *** [main]: the paper a title search settles on *)

(** [any(author_lower in (a.get("family", "") or "").lower() for a in
    authors)] *)
Fixpoint any_family (author_lower : string) (authors : list value) : result bool :=
  match authors with
  | [] => Ok false
  | a :: rest =>
      family <- get a "family" (VStr "") ;;
      family <- or_else family (Ok (VStr "")) ;;
      family <- lower family ;;
      if PyStr.contains family author_lower then Ok true
      else any_family author_lower rest
  end.

(** The filter of the comprehension over the results. *)
Definition by_author (author_lower : string) (r : value) : result (option value) :=
  authors <- get r "author" (VList []) ;;
  items <- iter authors ;;
  hit <- any_family author_lower items ;;
  Ok (if hit then Some r else None).

(** [best], from [args.author] and the results of the search, which are
    not empty at that point. *)
Definition best_result (author results : value) : result value :=
  results <- (if truthy author then
                author_lower <- lower author ;;
                items <- iter results ;;
                filtered <- collect (by_author author_lower) items ;;
                Ok (match filtered with
                    | _ :: _ => VList filtered
                    | [] => results
                    end)
              else Ok results) ;;
  first results.

(* --------------------------------------------------------------------- *)
(** *** [main]: the name of the output file *)

(** The file name [main] derives from the reports when [--output] is not
    given: [f"{slugify(name)}.md"]. *)
Definition output_name (reports : list value) : result string :=
  name <- (match reports with
           | [report] =>
               sources <- getitem report "sources" ;;
               cr <- get sources "crossref" (VDict []) ;;
               title_field <- get cr "title" (VList [VStr "report"]) ;;
               title <- (if is_list title_field then first title_field
                         else Ok title_field) ;;
               or_else title (Ok (VStr "report"))
           | _ =>
               Ok (VStr ("scholar-report-"
                         ++ PyStr.of_Z (Z.of_nat (List.length reports))
                         ++ "-papers"))
           end) ;;
  match name with
  | VStr text => Ok (slugify text ++ ".md")
  | _ => Raise AttributeError
  end.

End Scholar.

(* ===================================================================== *)
(** ** The vocabulary of the properties *)
(* ===================================================================== *)

(** What the statements below say about reports, records, ledgers and
    networks, and the concrete data their examples run on. *)

Module Spec.

Import Py Scholar.
Local Open Scope py_scope.

(** *** Identifiers *)

(** [removed] is [known], some of its items left out. *)
Inductive subsequence {A : Type} : list A -> list A -> Prop :=
| subsequence_nil : subsequence [] []
| subsequence_skip x xs ys : subsequence xs ys -> subsequence xs (x :: ys)
| subsequence_take x xs ys : subsequence xs ys -> subsequence (x :: xs) (x :: ys).

(** The text after the first slash of an identifier. *)
Definition doi_suffix (d : string) : string :=
  match PyStr.drop_while (fun c => negb (Ascii.eqb c "/")) d with
  | String _ t => t
  | EmptyString => EmptyString
  end.

(** The last character is one of [.,;:]. *)
Definition ends_with_punctuation (d : string) : bool :=
  match PyStr.rev d with
  | String c _ => PyStr.mem_char c ".,;:"
  | EmptyString => false
  end.

(** The identifier ends, whatever the case, in one of the known
    extensions. *)
Definition has_known_extension (d : string) : bool :=
  existsb (PyStr.endswith (PyStr.lower d)) known_extensions.

(** One pass through the extensions [exts] takes the text [d] to [d'], the
    extensions of [removed] going, in that order: each extension in its
    turn goes when the text, as it is by then, ends in it whatever the
    case, and stays otherwise. *)
Inductive pass : list string -> string -> string -> list string -> Prop :=
| pass_end d : pass [] d d []
| pass_strip ext rest d x d' removed :
    PyStr.lower x = ext -> pass rest d d' removed ->
    pass (ext :: rest) (d ++ x) d' (ext :: removed)
| pass_keep ext rest d d' removed :
    PyStr.endswith (PyStr.lower d) ext = false -> pass rest d d' removed ->
    pass (ext :: rest) d d' removed.

Fixpoint all_chars (p : ascii -> bool) (s : string) : bool :=
  match s with
  | EmptyString => true
  | String c r => p c && all_chars p r
  end.

(** *** The rate limiter *)

(** The ledger after the pruning step of [check_rate_limit]. *)
Definition pruned_ledger (now : float) (ledger : option (list float)) : list float :=
  prune now 3600 (match ledger with Some ts => ts | None => [] end).

(** The quota message, with the minutes until [oldest] leaves the window. *)
Definition quota_error (now oldest : float) : event :=
  PrintErr (MsgLimitReached MAX_REQUESTS_PER_HOUR
              (PrimFloat.div (PrimFloat.sub 3600 (PrimFloat.sub now oldest)) 60)).

(** *** The transport wrapper *)

(** What an attempt comes to, as the loop body tells the cases apart. *)
Inductive kind : Type :=
| Success (v : value)   (* resp.ok, and resp.json() parsed           *)
| GiveUp                (* not resp.ok, and the status is not 429    *)
| Throttled             (* not resp.ok, status 429                   *)
| Failed.               (* _get_proxy(), the request or resp.json()
                           raised                                    *)

Definition classify (net : network) (attempt : Z) : kind :=
  match net attempt with
  | Unsent _ | Sent (Raise _) => Failed
  | Sent (Ok resp) =>
      if ok resp then
        match json resp with Ok v => Success v | Raise _ => Failed end
      else if status_code resp =? 429 then Throttled else GiveUp
  end.

Definition retried (k : kind) : bool :=
  match k with Throttled | Failed => true | _ => false end.

(** The sleep before the next attempt. *)
Definition pause (k : kind) : list event :=
  match k with
  | Throttled => [SleepUniform 3 8]
  | Failed => [Sleep 2]
  | _ => []
  end.

Definition answer (k : kind) : value :=
  match k with Success v => v | _ => VNone end.

(** The attempts [first .. first + n - 1]: the request of each, when it
    makes one, followed by its pause. *)
Definition retries_before (net : network) (first n : nat) : list event :=
  flat_map (fun i => request net (Z.of_nat i) ++ pause (classify net (Z.of_nat i)))%list
           (seq first n).

Definition is_request (e : event) : bool :=
  match e with Request _ => true | _ => false end.

(** A network on which every attempt makes its request, with the same
    outcome. *)
Definition always (r : result response) : network := fun _ => Sent r.

(** Every attempt makes its request: [_get_proxy()] does not raise. *)
Definition sends (net : network) : Prop :=
  forall attempt, exists r, net attempt = Sent r.

(** No attempt makes its request: [_get_proxy()] raises [e] every time. *)
Definition proxy_raises (e : exn) (net : network) : Prop :=
  forall attempt, net attempt = Unsent e.

(** *** Titles *)

Definition title_of (d : list (string * value)) : value :=
  match lookup "title" d with Some t => t | None => VNone end.

(** CrossRef holds its title in a list, of which the first item counts. *)
Definition crossref_title (d : list (string * value)) : value :=
  match lookup "title" d with
  | Some (VList (t :: _)) => t
  | Some (VList []) => VNone
  | Some t => t
  | None => VNone
  end.

(** The record supplies the non-empty title [t]. *)
Definition supplies (src t : value) : Prop :=
  exists d, src = VDict d /\ title_of d = t /\ truthy t = true.

Definition lacks (src : value) : Prop :=
  exists d, src = VDict d /\ truthy (title_of d) = false.

Definition crossref_supplies (cr t : value) : Prop :=
  exists d, cr = VDict d /\ crossref_title d = t /\ truthy t = true.

Definition crossref_lacks (cr : value) : Prop :=
  exists d, cr = VDict d /\ truthy (crossref_title d) = false.

(** *** Dates *)

(** The key holds no date: [dp and dp[0]] is falsy. *)
Definition no_date (cr : value) (key : string) : Prop :=
  exists dp, date_parts cr key = Ok dp /\
    (truthy dp = false \/ exists p, first dp = Ok p /\ truthy p = false).

(** The first entry of the key's date parts is the non-empty [parts]. *)
Definition has_date (cr : value) (key : string) (parts : value) : Prop :=
  exists dp, date_parts cr key = Ok dp /\ truthy dp = true /\
    first dp = Ok parts /\ truthy parts = true.

(** *** Open-access links *)

Definition opt {A : Type} (o : option A) : list A :=
  match o with Some x => [x] | None => [] end.

Section Links.

Variable rt : runtime.

(** The link each source contributes, if any. *)
Definition pmc_link (report : value) : result (option link) :=
  pmc <- get report "pmc_id" VNone ;;
  Ok (if truthy pmc
      then Some ("PubMed Central",
                 VStr ("https://www.ncbi.nlm.nih.gov/pmc/articles/PMC"
                       ++ str rt pmc ++ "/"))
      else None).

Definition semantic_of (pdf : value) : result (option link) :=
  match pdf with
  | VDict d =>
      match lookup "url" d with
      | Some url => Ok (if truthy url then Some ("Semantic Scholar PDF", url) else None)
      | None => Ok None
      end
  | _ => Ok None
  end.

Definition semantic_link (ss : value) : result (option link) :=
  pdf <- get ss "openAccessPdf" (VDict []) ;; semantic_of pdf.

Definition openalex_of (access : value) : result (option link) :=
  match access with
  | VDict d =>
      match lookup "oa_url" d with
      | Some url =>
          let status := match lookup "oa_status" d with
                        | Some s => s
                        | None => VStr "open"
                        end in
          Ok (if truthy url
              then Some ("OpenAlex (" ++ str rt status ++ ")", url) else None)
      | None => Ok None
      end
  | _ => Ok None
  end.

Definition openalex_link (oa : value) : result (option link) :=
  access <- get oa "open_access" (VDict []) ;; openalex_of access.

(** The URL of the first full-text entry whose style is [pdf]. *)
Fixpoint first_pdf (urls : list value) : result (option value) :=
  match urls with
  | [] => Ok None
  | u :: rest =>
      style <- get u "documentStyle" VNone ;;
      if eq_str style "pdf" then url <- getitem u "url" ;; Ok (Some url)
      else first_pdf rest
  end.

Definition europepmc_link (epmc : value) : result (option link) :=
  flag <- get epmc "isOpenAccess" VNone ;;
  if eq_str flag "Y" then
    url_list <- get epmc "fullTextUrlList" (VDict []) ;;
    urls <- get url_list "fullTextUrl" (VList []) ;;
    items <- iter urls ;;
    o <- first_pdf items ;;
    Ok (option_map (fun url => ("Europe PMC PDF", url)) o)
  else Ok None.

(** The URL of the first license that names the Creative Commons domain. *)
Fixpoint first_cc_license (licenses : list value) : result (option value) :=
  match licenses with
  | [] => Ok None
  | lic :: rest =>
      url <- get lic "URL" (VStr "") ;;
      cc <- str_in "creativecommons.org" url ;;
      if cc then Ok (Some url) else first_cc_license rest
  end.

Definition license_link (cr : value) : result (option link) :=
  licenses <- get cr "license" (VList []) ;;
  items <- iter licenses ;;
  o <- first_cc_license items ;;
  Ok (option_map (fun url => ("License", url)) o).

(** The five contributions, in the fixed order. *)
Definition accumulated_links (cr oa ss epmc report : value) : result (list link) :=
  a <- pmc_link report ;;
  b <- semantic_link ss ;;
  c <- openalex_link oa ;;
  d <- europepmc_link epmc ;;
  e <- license_link cr ;;
  Ok (opt a ++ opt b ++ opt c ++ opt d ++ opt e)%list.

(** The call of [to_markdown]: the four records read from the report's
    [sources] mapping, and the report itself. *)
Definition report_links (report : value) : result (list link) :=
  cr <- source report "crossref" ;;
  oa <- source report "openalex" ;;
  ss <- source report "semantic_scholar" ;;
  epmc <- source report "europepmc" ;;
  _extract_oa_links rt cr oa ss epmc report.

End Links.

(** *** Notices *)

Definition erratum_notice : string := "Has correction/erratum".

(** *** Reports that hold a title and nothing else *)

Inductive title_source : Type :=
| NoSource
| CrossRef (title : string)
| SemanticScholar (title : string)
| OpenAlex (title : string)
| EuropePMC (title : string).

Definition title_only_sources (src : title_source) : list (string * value) :=
  match src with
  | NoSource => []
  | CrossRef t => [("crossref", VDict [("title", VList [VStr t])])]
  | SemanticScholar t => [("semantic_scholar", VDict [("title", VStr t)])]
  | OpenAlex t => [("openalex", VDict [("title", VStr t)])]
  | EuropePMC t => [("europepmc", VDict [("title", VStr t)])]
  end.

(** The report [aggregate_paper_data] builds when no source answers, but for
    the one title. *)
Definition title_only_report (doi : string) (src : title_source) : value :=
  VDict [("doi", VStr doi);
         ("sources", VDict (title_only_sources src));
         ("hypothesis_annotations", VInt 0)].

Definition shown_title (doi : string) (src : title_source) : string :=
  match src with
  | NoSource => doi
  | CrossRef t | SemanticScholar t | OpenAlex t | EuropePMC t =>
      if String.eqb t "" then doi else t
  end.

Definition is_section_header (line : string) : bool :=
  PyStr.startswith line "## ".

(** *** Data of the examples *)

(** An interpreter for the examples, none of which formats a float or
    quotes a string. *)
Definition demo_runtime : runtime :=
  {| float_repr := fun _ => "0.0";
     float_grouped := fun _ => "0.0";
     float_percent0 := fun _ => "0%";
     str_repr := fun s => "'" ++ s ++ "'" |}.

(** One possible [list(set(xs))]: the distinct items, each where it occurs
    last. *)
Definition distinct_items : list string -> list string := nodup string_dec.

Definition two_errata : value :=
  VDict [("update-to",
          VList [VDict [("label", VStr "Erratum")];
                 VDict [("label", VStr "Publisher ERRATUM")]])].

Definition retracted_erratum : value :=
  VDict [("update-to", VList [VDict [("label", VStr "Retraction of erratum")]])].

Definition nameless_openalex : value :=
  VDict [("authorships", VList [VDict [("author", VDict [("id", VStr "A1")])]])].

Definition named_semantic : value :=
  VDict [("authors", VList [VDict [("name", VStr "Ada Lovelace")]])].

Definition busy_ledger : list float :=
  [900; 901; 902; 903; 904; 905; 906; 907; 908; 998]%float.

Definition server_error : response :=
  {| ok := false; status_code := 500; json := Raise ValueError |}.

Definition too_many_requests : response :=
  {| ok := false; status_code := 429; json := Raise ValueError |}.

Definition issued_year_month : value :=
  VDict [("issued", VDict [("date-parts", VList [VList [VInt 2020; VInt 5]])])].

Definition issued_year : value :=
  VDict [("issued", VDict [("date-parts", VList [VList [VInt 2020]])])].

Definition titled (t : string) : value := VDict [("title", VStr t)].

Definition crossref_titled (t : string) : value :=
  VDict [("title", VList [VStr t])].

Definition open_access_sources : list (string * value) :=
  [("europepmc",
    VDict [("isOpenAccess", VStr "Y");
           ("fullTextUrlList",
            VDict [("fullTextUrl",
                    VList [VDict [("documentStyle", VStr "html"); ("url", VStr "h")];
                           VDict [("documentStyle", VStr "pdf"); ("url", VStr "p")]])])]);
   ("crossref",
    VDict [("license",
            VList [VDict [("URL", VStr "https://example.org/tdm")];
                   VDict [("URL", VStr "https://creativecommons.org/licenses/by/4.0/")]])])].


(** *** Slugs *)

(** The characters of a file name made by [slugify]. *)
Definition slug_safe (c : ascii) : bool := is_slug_char c || Ascii.eqb c "-".

Fixpoint no_double_hyphen (s : string) : bool :=
  match s with
  | String a ((String b _) as r) =>
      negb (Ascii.eqb a "-" && Ascii.eqb b "-") && no_double_hyphen r
  | _ => true
  end.

Definition starts_with_hyphen (s : string) : bool :=
  match s with String c _ => Ascii.eqb c "-" | EmptyString => false end.

(** *** DOIs *)

Definition not_slash (c : ascii) : bool := negb (Ascii.eqb c "/").

(** *** Documents *)

(** [out] is [lines] with at most [n] lines more at its end. *)
Definition grows (n : nat) (lines out : list string) : Prop :=
  exists added, out = (lines ++ added)%list /\ (List.length added <= n)%nat.

(** [out] is [lines] with more lines at its end. *)
Definition extends (lines out : list string) : Prop :=
  exists added, out = (lines ++ added)%list.

(** The lines every document holds. *)
Definition title_block (title link : string) : list string :=
  ["# " ++ title; "";
   "**DOI:** [" ++ link ++ "](https://doi.org/" ++ link ++ ")"].

Definition separator : list string := [""; "---"; ""].

Definition citation_header : list string :=
  ["## Citation Counts"; "";
   "| Source | Citations | Notes |";
   "|--------|-----------|-------|"].

Definition footer (today : string) : list string :=
  ["---"; "*Generated by Lazy Scholar CLI on " ++ today ++ "*"].

(** *** Abstracts *)





(** *** Journals *)

(** A part of the journal line: [label] and the value, when there is one. *)
Definition journal_part (rt : runtime) (label : string) (v : value) : list string :=
  if truthy v then [label ++ str rt v] else [].

(** [d.get(k, default)] on the items of a [dict]. *)
Definition field (d : list (string * value)) (k : string) (default : value) : value :=
  match lookup k d with Some x => x | None => default end.

(** *** Counting events *)

Definition is_sleep (e : event) : bool :=
  match e with Sleep _ | SleepUniform _ _ => true | _ => false end.

Definition count (p : event -> bool) (trace : list event) : Z :=
  Z.of_nat (List.length (filter p trace)).

Definition is_call (a : action) : bool :=
  match a with Did (Request _) => true | _ => false end.

Definition is_say (a : action) : bool :=
  match a with Say _ => true | _ => false end.

(** A pause of [_polite_delay]. *)
Definition is_polite (a : action) : bool :=
  match a with
  | Did (SleepUniform lo hi) =>
      PrimFloat.eqb lo API_CALL_DELAY_MIN && PrimFloat.eqb hi API_CALL_DELAY_MAX
  | _ => false
  end.

Definition tally (p : action -> bool) (trace : list action) : Z :=
  Z.of_nat (List.length (filter p trace)).

Definition returns {A : Type} (m : io A) : Prop := exists a, snd m = Ok a.

(** The call [m] does at most [hi] actions of the kind [p], and at least
    [lo] of them when it returns. *)
Definition costs {A : Type} (p : action -> bool) (lo hi : Z) (m : io A) : Prop :=
  tally p (fst m) <= hi /\ (returns m -> lo <= tally p (fst m)).

(** *** Answers of the services *)

(** A network that never gives an OK response: each attempt raises, before
    or in its request, or comes back with an error status. *)
Definition fails (net : network) : Prop :=
  forall attempt,
    match net attempt with
    | Sent (Ok resp) => ok resp = false
    | _ => True
    end.

(** No service can be reached: none of those a lookup asks before it has an
    answer of Semantic Scholar or of PubMed to go on with. *)
Definition unreachable (w : world) : Prop :=
  (forall doi, fails (crossref w doi)) /\
  (forall doi, fails (openalex w doi)) /\
  (forall doi, fails (semantic_scholar w doi)) /\
  (forall id, fails (semantic_scholar_arxiv w id)) /\
  (forall doi, fails (pubmed w doi)) /\
  (forall doi, fails (europepmc w doi)) /\
  (forall doi, fails (pubpeer w doi)) /\
  (forall doi, fails (hypothesis w doi)).

(** The requests to the seven services that every lookup asks go out. *)
Definition requests_go_out (w : world) : Prop :=
  (forall doi, sends (crossref w doi)) /\
  (forall doi, sends (openalex w doi)) /\
  (forall doi, sends (semantic_scholar w doi)) /\
  (forall doi, sends (pubmed w doi)) /\
  (forall doi, sends (europepmc w doi)) /\
  (forall doi, sends (pubpeer w doi)) /\
  (forall doi, sends (hypothesis w doi)).

(** No request goes out, to any service: [_get_proxy()] raises [e] every
    time. *)
Definition proxy_broken (e : exn) (w : world) : Prop :=
  (forall doi, proxy_raises e (crossref w doi)) /\
  (forall doi, proxy_raises e (openalex w doi)) /\
  (forall doi, proxy_raises e (semantic_scholar w doi)) /\
  (forall id, proxy_raises e (semantic_scholar_arxiv w id)) /\
  (forall id, proxy_raises e (recommendations w id)) /\
  (forall doi, proxy_raises e (pubmed w doi)) /\
  (forall id, proxy_raises e (pubmed_central w id)) /\
  (forall doi, proxy_raises e (europepmc w doi)) /\
  (forall doi, proxy_raises e (pubpeer w doi)) /\
  (forall doi, proxy_raises e (hypothesis w doi)).

(** The feedback's [id] is the DOI, whatever the case of either. *)
Definition feedback_for (doi : string) (fb : value) : Prop :=
  exists id, get fb "id" (VStr "") = Ok (VStr id) /\ PyStr.lower id = PyStr.lower doi.

(** [db] is a link database towards PubMed Central whose first link is [l]. *)
Definition pmc_db (db l : value) : Prop :=
  exists dbto links,
    get db "dbto" VNone = Ok dbto /\ eq_str dbto "pmc" = true /\
    get db "links" (VList []) = Ok links /\ first links = Ok l.

(** *** Reports of the aggregator *)

Definition source_names : list string :=
  ["crossref"; "openalex"; "semantic_scholar"; "europepmc"; "pubpeer"].

Definition field_names : list string :=
  ["pmid"; "pmc_id"; "hypothesis_annotations"; "recommendations"].

Definition keys (d : list (string * value)) : list string := map fst d.

Definition truthy_item (kv : string * value) : Prop := truthy (snd kv) = true.

Definition field_item (kv : string * value) : Prop :=
  fst kv = "hypothesis_annotations" \/ truthy (snd kv) = true.

(** What every report of the aggregator looks like: the DOI first, then the
    sources that answered, then the other fields, each group in the order
    of the calls; no empty source or field but for the annotation count,
    which is always there; and a PubMed Central id only beside a PubMed
    id. *)
Definition well_formed_report (doi : string) (report : value) : Prop :=
  exists sources fields,
    report = VDict (("doi", VStr doi) :: ("sources", VDict sources) :: fields) /\
    subsequence (keys sources) source_names /\
    Forall truthy_item sources /\
    subsequence (keys fields) field_names /\
    In "hypothesis_annotations" (keys fields) /\
    (In "pmc_id" (keys fields) -> In "pmid" (keys fields)) /\
    Forall field_item fields.

(** The report in the making: its sources are among [sn], its other fields
    among [fn]. *)
Definition staged (doi : string) (sn fn : list string)
    (report : list (string * value)) : Prop :=
  exists sources fields,
    report = ("doi", VStr doi) :: ("sources", VDict sources) :: fields /\
    subsequence (keys sources) sn /\ Forall truthy_item sources /\
    subsequence (keys fields) fn /\ Forall field_item fields /\
    (In "pmc_id" (keys fields) -> In "pmid" (keys fields)).

(** *** More data of the examples *)

Definition answering (v : value) : network :=
  always (Ok {| ok := true; status_code := 200; json := Ok v |}).

Definition pubpeer_answer : value :=
  VDict [("feedbacks",
          VList [VDict [("id", VStr "10.9999/other"); ("total_comments", VInt 7)];
                 VDict [("id", VStr "10.1234/ABC"); ("total_comments", VInt 2)]])].

Definition elink_answer : value :=
  VDict [("linksets",
          VList [VDict [("linksetdbs",
                         VList [VDict [("dbto", VStr "pubmed");
                                       ("links", VList [VStr "111"])];
                                VDict [("dbto", VStr "pmc");
                                       ("links", VList [VStr "7654321"; VStr "222"])]])]])].

Definition esearch_answer : value :=
  VDict [("esearchresult", VDict [("idlist", VList [VStr "31452104"])])].

Definition semantic_answer : value :=
  VDict [("paperId", VStr "649def34"); ("title", VStr "A title")].

Definition recommended : value :=
  VDict [("recommendedPapers", VList [VDict [("title", VStr "Another title")]])].

(** CrossRef is down; Semantic Scholar and PubMed answer. *)
Definition sample_world : world :=
  {| crossref := fun _ => always (Ok server_error);
     openalex := fun _ => always (Raise ValueError);
     semantic_scholar := fun _ => answering semantic_answer;
     semantic_scholar_arxiv := fun _ => always (Ok server_error);
     recommendations := fun _ => answering recommended;
     pubmed := fun _ => answering esearch_answer;
     pubmed_central := fun _ => answering elink_answer;
     europepmc := fun _ => always (Ok too_many_requests);
     pubpeer := fun _ => answering pubpeer_answer;
     hypothesis := fun _ => always (Ok server_error) |}.

Definition sample_report : value :=
  VDict [("doi", VStr "10.1234/abc");
         ("sources",
          VDict [("semantic_scholar", semantic_answer);
                 ("pubpeer",
                  VDict [("id", VStr "10.1234/ABC"); ("total_comments", VInt 2)])]);
         ("pmid", VStr "31452104");
         ("pmc_id", VStr "7654321");
         ("hypothesis_annotations", VInt 0);
         ("recommendations", VList [VDict [("title", VStr "Another title")]])].

(** The document of [sample_report]. *)
Definition sample_document : list string :=
  ["# A title"; "";
   "**DOI:** [10.1234/abc](https://doi.org/10.1234/abc)";
   "**PubMed:** [31452104](https://pubmed.ncbi.nlm.nih.gov/31452104/)";
   "**PMC:** [PMC7654321](https://www.ncbi.nlm.nih.gov/pmc/articles/PMC7654321/)";
   ""; "---"; "";
   "## Citation Counts"; "";
   "| Source | Citations | Notes |";
   "|--------|-----------|-------|";
   "";
   "## Open Access"; "";
   "- [PubMed Central](https://www.ncbi.nlm.nih.gov/pmc/articles/PMC7654321/)";
   "";
   "## PubPeer"; "";
   "**2 comments** " ++ em_dash
   ++ " [View on PubPeer](https://pubpeer.com/search?q=10.1234/abc)";
   "";
   "## Recommended Papers"; ""; "- Another title"; "";
   "---";
   "*Generated by Lazy Scholar CLI on 2024-05-17*"].

(** Two results of a title search. *)
Definition smith_paper : value :=
  VDict [("DOI", VStr "10.1/a"); ("author", VList [VDict [("family", VStr "Smith")]])].

Definition mcdonald_paper : value :=
  VDict [("DOI", VStr "10.1/b");
         ("author", VList [VDict [("family", VNone)];
                           VDict [("family", VStr "McDonald")]])].

(** A report whose CrossRef record holds an empty list of titles. *)
Definition untitled_report : list (string * value) :=
  [("doi", VStr "10.1234/abc");
   ("sources", VDict [("crossref", VDict [("title", VList []); ("type", VStr "dataset")])]);
   ("hypothesis_annotations", VInt 0)].

(** Every service is down. *)
Definition dead_world : world :=
  {| crossref := fun _ => always (Ok server_error);
     openalex := fun _ => always (Ok server_error);
     semantic_scholar := fun _ => always (Ok too_many_requests);
     semantic_scholar_arxiv := fun _ => always (Ok server_error);
     recommendations := fun _ => always (Ok server_error);
     pubmed := fun _ => always (Raise ValueError);
     pubmed_central := fun _ => always (Ok server_error);
     europepmc := fun _ => always (Ok server_error);
     pubpeer := fun _ => always (Ok server_error);
     hypothesis := fun _ => always (Ok server_error) |}.

End Spec.

(* ===================================================================== *)
(** ** Facts about strings *)
(* ===================================================================== *)

Module StrFacts.

Import PyStr Spec.

Lemma append_nil_r (s : string) : s ++ "" = s.
Proof. induction s; cbn; congruence. Qed.

Lemma append_assoc (a b c : string) : (a ++ b) ++ c = a ++ b ++ c.
Proof. induction a; cbn; congruence. Qed.

Lemma length_append (a b : string) :
  String.length (a ++ b) = (String.length a + String.length b)%nat.
Proof. induction a; cbn; congruence. Qed.

(** Two ways of splitting one string: one prefix extends the other. *)
Lemma append_eq_append (a b c d : string) :
  a ++ b = c ++ d ->
  (exists x, a = c ++ x /\ d = x ++ b) \/ (exists x, c = a ++ x /\ b = x ++ d).
Proof.
  revert c. induction a as [|ch a IH]; intros c H; cbn in H.
  - right. exists c. auto.
  - destruct c as [|ch' c]; cbn in H.
    + left. exists (String ch a). auto.
    + injection H as -> H. destruct (IH c H) as [(x & -> & ->)|(x & -> & ->)];
        [left | right]; exists x; auto.
Qed.

Lemma rev_onto_append (s acc : string) : rev_onto s acc = rev s ++ acc.
Proof.
  unfold rev. revert acc. induction s as [|c s IH]; intros acc; cbn; [reflexivity|].
  rewrite IH, (IH (String c "")), append_assoc. reflexivity.
Qed.

Lemma rev_cons (c : ascii) (s : string) : rev (String c s) = rev s ++ String c "".
Proof. unfold rev at 1. cbn. apply rev_onto_append. Qed.

Lemma rev_append (a b : string) : rev (a ++ b) = rev b ++ rev a.
Proof.
  induction a as [|c a IH]; cbn [String.append].
  - cbn. now rewrite append_nil_r.
  - now rewrite !rev_cons, IH, append_assoc.
Qed.

Lemma rev_involutive (s : string) : rev (rev s) = s.
Proof.
  induction s as [|c s IH]; [reflexivity|].
  rewrite rev_cons, rev_append, IH. reflexivity.
Qed.

Lemma rev_eq_nil (s : string) : rev s = "" -> s = "".
Proof. intros H. rewrite <- (rev_involutive s), H. reflexivity. Qed.

Lemma length_rev (s : string) : String.length (rev s) = String.length s.
Proof.
  induction s as [|c s IH]; [reflexivity|].
  rewrite rev_cons, length_append, IH. cbn. lia.
Qed.

Lemma startswith_append (p r : string) : startswith (p ++ r) p = true.
Proof.
  induction p as [|c p IH]; cbn; [now destruct r|]. now rewrite Ascii.eqb_refl.
Qed.

Lemma startswith_split (s p : string) :
  startswith s p = true -> exists r, s = p ++ r.
Proof.
  revert s. induction p as [|c p IH]; intros s H.
  - now exists s.
  - destruct s as [|c' s]; cbn in H; [discriminate|].
    apply andb_prop in H as [Hc Hs]. apply Ascii.eqb_eq in Hc as ->.
    destruct (IH s Hs) as (r & ->). now exists r.
Qed.

Lemma endswith_append (a p : string) : endswith (a ++ p) p = true.
Proof. unfold endswith. rewrite rev_append. apply startswith_append. Qed.

Lemma endswith_split (s p : string) :
  endswith s p = true -> exists a, s = a ++ p.
Proof.
  unfold endswith. intros H. apply startswith_split in H as (r & Hr).
  exists (rev r). rewrite <- (rev_involutive s), Hr, rev_append, rev_involutive.
  reflexivity.
Qed.

Lemma take_append (a b : string) : take (String.length a) (a ++ b) = a.
Proof. induction a as [|c a IH]; cbn; [now destruct b|]. now rewrite IH. Qed.

Lemma drop_last_append (a x : string) (n : nat) :
  String.length x = n -> drop_last n (a ++ x) = a.
Proof.
  intros <-. unfold drop_last. rewrite length_append.
  replace (String.length a + String.length x - String.length x)%nat
    with (String.length a) by lia.
  apply take_append.
Qed.

Lemma lower_append (a b : string) : lower (a ++ b) = lower a ++ lower b.
Proof. induction a; cbn; congruence. Qed.

Lemma length_lower (s : string) : String.length (lower s) = String.length s.
Proof. induction s; cbn; congruence. Qed.

Lemma lower_split (s b e : string) :
  lower s = b ++ e -> exists a x, s = a ++ x /\ lower a = b /\ lower x = e.
Proof.
  revert s. induction b as [|c b IH]; intros s H; cbn in H.
  - exists "", s. auto.
  - destruct s as [|c' s]; cbn in H; [discriminate|].
    injection H as Hc H. destruct (IH s H) as (a & x & -> & Ha & Hx).
    exists (String c' a), x. cbn. rewrite Ha, Hc. auto.
Qed.

Lemma take_drop_while (p : ascii -> bool) (s : string) :
  take_while p s ++ drop_while p s = s.
Proof.
  induction s as [|c s IH]; cbn; [reflexivity|]. destruct (p c); cbn; congruence.
Qed.

Lemma all_chars_append (p : ascii -> bool) (a b : string) :
  all_chars p (a ++ b) = all_chars p a && all_chars p b.
Proof. induction a as [|c a IH]; cbn; [reflexivity|]. now rewrite IH, andb_assoc. Qed.

Lemma all_chars_take_while (p : ascii -> bool) (s : string) :
  all_chars p (take_while p s) = true.
Proof.
  induction s as [|c s IH]; cbn; [reflexivity|].
  destruct (p c) eqn:E; cbn; [now rewrite E|reflexivity].
Qed.

Lemma take_while_all (p : ascii -> bool) (a b : string) :
  all_chars p a = true ->
  take_while p (a ++ b) = a ++ take_while p b /\
  drop_while p (a ++ b) = drop_while p b.
Proof.
  induction a as [|c a IH]; cbn; intros H; [auto|].
  apply andb_prop in H as [Hc Ha]. rewrite Hc. destruct (IH Ha) as [-> ->]. auto.
Qed.

Lemma take_while_whole (p : ascii -> bool) (a : string) :
  all_chars p a = true -> take_while p a = a.
Proof.
  intros H. destruct (take_while_all p a "" H) as [Ht _].
  rewrite append_nil_r in Ht. rewrite Ht. cbn. apply append_nil_r.
Qed.

(** [rstrip] removes a suffix. *)
Lemma rstrip_prefix (chars s : string) : exists e, s = rstrip chars s ++ e.
Proof.
  unfold rstrip. exists (rev (take_while (fun c => mem_char c chars) (rev s))).
  rewrite <- rev_append, take_drop_while, rev_involutive. reflexivity.
Qed.

Lemma rstrip_unchanged (chars s : string) :
  match rev s with String c _ => mem_char c chars | EmptyString => false end = false ->
  rstrip chars s = s.
Proof.
  unfold rstrip. intros H. destruct (rev s) as [|c r] eqn:E.
  - cbn. symmetry. now apply rev_eq_nil.
  - cbn. rewrite H. rewrite <- E. apply rev_involutive.
Qed.

Lemma concat_snoc (l : list string) (x : string) :
  String.concat "" (l ++ [x]) = String.concat "" l ++ x.
Proof.
  induction l as [|r l IH]; [reflexivity|].
  cbn [List.app]. destruct l as [|r' l].
  - cbn. reflexivity.
  - cbn [List.app] in *. cbn [String.concat] in *. rewrite IH.
    cbn [String.append]. now rewrite append_assoc.
Qed.

End StrFacts.

(* ===================================================================== *)
(** ** Facts about dictionaries *)
(* ===================================================================== *)

Module DictFacts.

Import Py.

Lemma lookup_app_cons_neq (k key : string) (pre post : list (string * value))
    (v v' : value) :
  k <> key ->
  lookup k (pre ++ (key, v) :: post) = lookup k (pre ++ (key, v') :: post).
Proof.
  intros Hne. induction pre as [|[k' x] pre IH]; cbn [app lookup].
  - destruct (String.eqb_spec k key); [contradiction|reflexivity].
  - destruct (String.eqb k k'); [reflexivity|exact IH].
Qed.

Lemma lookup_In (k : string) (d : list (string * value)) (v : value) :
  NoDup (map fst d) -> In (k, v) d -> lookup k d = Some v.
Proof.
  induction d as [|[k' x] d IH]; cbn [map fst lookup]; [contradiction|].
  intros Hnd [[= -> ->]|Hin].
  - now rewrite String.eqb_refl.
  - inversion Hnd as [|? ? Hnotin Hnd']; subst.
    destruct (String.eqb_spec k k') as [->|_].
    + exfalso. apply Hnotin. apply (in_map fst) in Hin. exact Hin.
    + auto.
Qed.

Lemma lookup_None (k : string) (d : list (string * value)) :
  lookup k d = None <-> ~ In k (map fst d).
Proof.
  induction d as [|[k' x] d IH]; cbn [map fst lookup In]; [tauto|].
  destruct (String.eqb_spec k k') as [->|Hne].
  - split; [discriminate|]. intros H. exfalso. apply H. now left.
  - rewrite IH. split; [intros H [E|I]; [congruence|auto] | intros H I; apply H; now right].
Qed.

Lemma lookup_Some_In (k : string) (d : list (string * value)) (v : value) :
  lookup k d = Some v -> In (k, v) d.
Proof.
  induction d as [|[k' x] d IH]; cbn [lookup]; [discriminate|].
  destruct (String.eqb_spec k k') as [->|Hne].
  - intros [= ->]. now left.
  - intros H. right. auto.
Qed.

(** A dictionary read by key does not depend on the order of its items. *)
Lemma lookup_permutation (k : string) (d d' : list (string * value)) :
  NoDup (map fst d) -> Permutation d d' -> lookup k d = lookup k d'.
Proof.
  intros Hnd Hp.
  assert (Hnd' : NoDup (map fst d')).
  { eapply Permutation_NoDup; [apply Permutation_map; exact Hp | exact Hnd]. }
  destruct (lookup k d) as [v|] eqn:Hl.
  - symmetry. apply lookup_In; [exact Hnd'|].
    eapply Permutation_in; [exact Hp|]. now apply lookup_Some_In.
  - symmetry. apply lookup_None. apply lookup_None in Hl.
    intros Hin. apply Hl. eapply Permutation_in; [|exact Hin].
    apply Permutation_map. now apply Permutation_sym.
Qed.

End DictFacts.

(* ===================================================================== *)
(** ** Properties of the program *)
(* ===================================================================== *)

Import Py Scholar Spec StrFacts DictFacts.
Local Open Scope py_scope.

(* --------------------------------------------------------------------- *)
(** *** [extract_doi] *)

Section DoiFacts.

(** What the loop over the extensions takes off: the removed text is, in
    lower case, the removed extensions in reverse order of removal, and
    these are a subsequence of the list gone through. *)
Lemma strip_extensions_removed (exts : list string) :
  forall doi, exists removed tail,
    doi = strip_extensions exts doi ++ tail /\
    PyStr.lower tail = String.concat "" (List.rev removed) /\
    subsequence removed exts /\
    (removed = [] <->
     Forall (fun ext => PyStr.endswith (PyStr.lower doi) ext = false) exts).
Proof.
  induction exts as [|ext rest IH]; intros doi; cbn [strip_extensions].
  - exists [], "". rewrite append_nil_r. repeat split; auto. constructor.
  - destruct (PyStr.endswith (PyStr.lower doi) ext) eqn:E.
    + destruct (endswith_split _ _ E) as (b & Hb).
      destruct (lower_split _ _ _ Hb) as (a & x & -> & Ha & Hx).
      rewrite (drop_last_append a x (String.length ext))
        by (now rewrite <- Hx, length_lower).
      destruct (IH a) as (removed & tail & Hd & Ht & Hs & _).
      exists (ext :: removed), (tail ++ x). split; [|split; [|split]].
      * rewrite <- append_assoc, <- Hd. reflexivity.
      * rewrite lower_append, Ht, Hx. cbn [List.rev]. now rewrite concat_snoc.
      * now constructor.
      * split; [discriminate|]. intros HF. inversion HF; subst. congruence.
    + destruct (IH doi) as (removed & tail & Hd & Ht & Hs & Hiff).
      exists removed, tail. repeat split; auto.
      * now constructor.
      * intros H. constructor; [exact E|]. now apply Hiff.
      * intros HF. inversion HF; subst. now apply Hiff.
Qed.

Lemma strip_extensions_unchanged (exts : list string) (d : string) :
  existsb (PyStr.endswith (PyStr.lower d)) exts = false ->
  strip_extensions exts d = d.
Proof.
  induction exts as [|ext rest IH]; cbn [strip_extensions existsb]; [reflexivity|].
  intros H. apply orb_false_elim in H as [He Hr]. rewrite He. auto.
Qed.

(** The shape of a match of the DOI pattern. *)
Lemma doi_match_here_shape (s m : string) :
  doi_match_here s = Some m ->
  exists digits tail,
    m = "10." ++ digits ++ "/" ++ tail /\
    all_chars PyStr.is_digit digits = true /\
    (4 <= String.length digits <= 9)%nat /\
    tail <> "" /\ all_chars doi_tail_char tail = true.
Proof.
  unfold doi_match_here.
  destruct s as [|c1 s]; [discriminate|].
  destruct c1 as [[] [] [] [] [] [] [] []]; try discriminate.
  destruct s as [|c2 s]; [discriminate|].
  destruct c2 as [[] [] [] [] [] [] [] []]; try discriminate.
  destruct s as [|c3 r]; [discriminate|].
  destruct c3 as [[] [] [] [] [] [] [] []]; try discriminate.
  set (digits := PyStr.take_while PyStr.is_digit r).
  destruct ((4 <=? String.length digits)%nat && (String.length digits <=? 9)%nat)
    eqn:Hlen; [|discriminate].
  destruct (PyStr.drop_while PyStr.is_digit r) as [|c t]; [discriminate|].
  destruct c as [[] [] [] [] [] [] [] []]; try discriminate.
  destruct (PyStr.take_while doi_tail_char t) as [|c' tl] eqn:Htail; [discriminate|].
  intros [= <-]. exists digits, (String c' tl).
  apply andb_prop in Hlen as [H4 H9].
  apply Nat.leb_le in H4. apply Nat.leb_le in H9.
  repeat split; auto.
  - apply all_chars_take_while.
  - discriminate.
  - rewrite <- Htail. apply all_chars_take_while.
Qed.

Lemma doi_search_shape (text m : string) :
  doi_search text = Some m ->
  exists digits tail,
    m = "10." ++ digits ++ "/" ++ tail /\
    all_chars PyStr.is_digit digits = true /\
    (4 <= String.length digits <= 9)%nat /\
    tail <> "" /\ all_chars doi_tail_char tail = true.
Proof.
  induction text as [|c text IH]; cbn [doi_search].
  - destruct (doi_match_here "") eqn:E; [|discriminate].
    intros [= <-]. now apply (doi_match_here_shape "").
  - destruct (doi_match_here (String c text)) eqn:E.
    + intros [= <-]. now apply (doi_match_here_shape (String c text)).
    + exact IH.
Qed.

(** A text of that shape is matched whole. *)
Lemma doi_match_here_whole (digits tail : string) :
  all_chars PyStr.is_digit digits = true ->
  (4 <= String.length digits <= 9)%nat ->
  tail <> "" -> all_chars doi_tail_char tail = true ->
  doi_match_here ("10." ++ digits ++ "/" ++ tail)
  = Some ("10." ++ digits ++ "/" ++ tail).
Proof.
  intros Hd [H4 H9] Hne Ht. cbn [String.append doi_match_here].
  destruct (take_while_all PyStr.is_digit digits (String "/" tail) Hd) as [Htw Hdw].
  rewrite Htw, Hdw. cbn [String.append PyStr.take_while PyStr.drop_while].
  replace (PyStr.is_digit "/") with false by reflexivity.
  rewrite append_nil_r.
  apply Nat.leb_le in H4. apply Nat.leb_le in H9. rewrite H4, H9. cbn [andb].
  rewrite (take_while_whole doi_tail_char tail Ht).
  destruct tail; [contradiction|reflexivity].
Qed.

Lemma doi_search_here (s m : string) :
  doi_match_here s = Some m -> doi_search s = Some m.
Proof. intros H. destruct s; cbn [doi_search]; now rewrite H. Qed.

Lemma slash_free_digits (digits : string) :
  all_chars PyStr.is_digit digits = true ->
  all_chars (fun c => negb (Ascii.eqb c "/")) digits = true.
Proof.
  induction digits as [|c r IH]; cbn; [reflexivity|].
  intros H. apply andb_prop in H as [Hc Hr]. rewrite (IH Hr), andb_true_r.
  destruct (Ascii.eqb_spec c "/") as [->|]; [discriminate|reflexivity].
Qed.

Lemma doi_suffix_head (digits x : string) :
  all_chars PyStr.is_digit digits = true ->
  doi_suffix ("10." ++ digits ++ "/" ++ x) = x.
Proof.
  intros Hd. unfold doi_suffix. cbn [String.append PyStr.drop_while].
  replace (negb (Ascii.eqb "1" "/")) with true by reflexivity.
  replace (negb (Ascii.eqb "0" "/")) with true by reflexivity.
  replace (negb (Ascii.eqb "." "/")) with true by reflexivity.
  destruct (take_while_all _ digits (String "/" x) (slash_free_digits digits Hd))
    as [_ ->].
  reflexivity.
Qed.

Lemma doi_suffix_slash_free (d : string) :
  all_chars (fun c => negb (Ascii.eqb c "/")) d = true -> doi_suffix d = "".
Proof.
  intros H. unfold doi_suffix.
  destruct (take_while_all _ d "" H) as [_ Hdw]. rewrite append_nil_r in Hdw.
  now rewrite Hdw.
Qed.

Lemma doi_text_split (digits tail : string) :
  "10." ++ digits ++ "/" ++ tail = ("10." ++ digits) ++ String "/" tail.
Proof. reflexivity. Qed.

(** C2 (as amended).  Extraction is idempotent on the identifiers it returns
    in canonical form: when [extract_doi] succeeds on [text] with [d], and
    [d] has text after its slash and ends neither in one of [.,;:] nor,
    whatever the case, in a known extension, then [extract_doi d] returns
    [d]. *)
Theorem extract_doi_idempotent (text d : string) :
  extract_doi text = Some d ->
  doi_suffix d <> "" ->
  ends_with_punctuation d = false ->
  has_known_extension d = false ->
  extract_doi d = Some d.
Proof.
  unfold extract_doi at 1.
  destruct (doi_search text) as [m|] eqn:Hm; [|discriminate].
  remember (strip_extensions known_extensions (PyStr.rstrip ".,;:" m)) as r eqn:Hd.
  intros [= ->] Hsuffix Hpunct Hext.
  destruct (doi_search_shape text m Hm)
    as (digits & tail & Hshape & Hdig & Hlen & Hne & Htail).
  assert (Hfree : all_chars (fun c => negb (Ascii.eqb c "/")) ("10." ++ digits) = true).
  { cbn. now apply slash_free_digits. }
  (* [d] is a prefix of the match *)
  assert (Hpre : exists e, ("10." ++ digits) ++ String "/" tail = d ++ e).
  { destruct (rstrip_prefix ".,;:" m) as (e1 & He1).
    destruct (strip_extensions_removed known_extensions (PyStr.rstrip ".,;:" m))
      as (removed & e2 & He2 & _).
    rewrite <- Hd in He2. exists (e2 ++ e1).
    rewrite <- doi_text_split, <- Hshape, <- append_assoc, <- He2. exact He1. }
  destruct Hpre as (e & Hsplit).
  apply append_eq_append in Hsplit as [(x & Hhead & _)|(x & Hd' & Htl)].
  - (* [d] stops before the slash *)
    exfalso. apply Hsuffix. apply doi_suffix_slash_free.
    rewrite Hhead, all_chars_append in Hfree. now apply andb_prop in Hfree as [Ha _].
  - destruct x as [|c x].
    + exfalso. apply Hsuffix. apply doi_suffix_slash_free.
      rewrite append_nil_r in Hd'. now rewrite Hd'.
    + cbn [String.append] in Htl. injection Htl as <- Htl.
      assert (Hform : d = "10." ++ digits ++ "/" ++ x)
        by (now rewrite doi_text_split).
      assert (Hx : x <> "").
      { intros ->. apply Hsuffix. rewrite Hform. now apply doi_suffix_head. }
      assert (Hxt : all_chars doi_tail_char x = true).
      { rewrite Htl, all_chars_append in Htail.
        now apply andb_prop in Htail as [Hx' _]. }
      unfold extract_doi.
      rewrite (doi_search_here d d)
        by (rewrite Hform; now apply doi_match_here_whole).
      rewrite (rstrip_unchanged ".,;:" d Hpunct).
      now rewrite (strip_extensions_unchanged known_extensions d Hext).
Qed.

Lemma append_inj_length (a x b y : string) :
  a ++ x = b ++ y -> String.length x = String.length y -> a = b /\ x = y.
Proof.
  revert b. induction a as [|c a IH]; intros b H Hlen.
  - destruct b as [|c' b]; [auto|]. exfalso. cbn [String.append] in H.
    rewrite H in Hlen. cbn [String.length] in Hlen. rewrite length_append in Hlen. lia.
  - destruct b as [|c' b].
    + exfalso. cbn [String.append] in H. rewrite <- H in Hlen.
      cbn [String.length] in Hlen. rewrite length_append in Hlen. lia.
    + cbn [String.append] in H. injection H as <- H.
      destruct (IH b H Hlen) as [-> ->]. auto.
Qed.

(** The pass is a function of the text: the extensions in their order
    leave no choice. *)
Lemma pass_functional (exts : list string) (d d1 : string) (r1 : list string) :
  pass exts d d1 r1 ->
  forall d2 r2, pass exts d d2 r2 -> d2 = d1 /\ r2 = r1.
Proof.
  induction 1 as [d|ext rest d x d' removed Hx H IH|ext rest d d' removed He H IH];
    intros d2 r2 H2.
  - inversion H2; subst. auto.
  - remember (d ++ x) as dx eqn:Hdx. remember (ext :: rest) as exts eqn:Hexts.
    destruct H2 as [d0|ext0 rest0 d0 x0 d0' removed0 Hx0 H0
                   |ext0 rest0 d0 d0' removed0 He0 H0]; [discriminate| |];
      injection Hexts as -> ->.
    + assert (Hlen : String.length x0 = String.length x).
      { rewrite <- (length_lower x0), <- (length_lower x). now rewrite Hx0, Hx. }
      destruct (append_inj_length d0 x0 d x Hdx Hlen) as [-> ->].
      destruct (IH _ _ H0) as [-> ->]. auto.
    + exfalso. rewrite Hdx, lower_append, Hx, endswith_append in He0. discriminate.
  - remember (ext :: rest) as exts eqn:Hexts.
    destruct H2 as [d0|ext0 rest0 d0 x0 d0' removed0 Hx0 H0
                   |ext0 rest0 d0 d0' removed0 He0 H0]; [discriminate| |];
      injection Hexts as -> ->.
    + exfalso. rewrite lower_append, Hx0, endswith_append in He. discriminate.
    + apply (IH _ _ H0).
Qed.

(** The loop over the extensions is such a pass, and what it takes off is
    as [strip_extensions_removed] says. *)
Lemma strip_extensions_pass (exts : list string) :
  forall doi, exists removed tail,
    doi = strip_extensions exts doi ++ tail /\
    PyStr.lower tail = String.concat "" (List.rev removed) /\
    subsequence removed exts /\
    (removed = [] <->
     Forall (fun ext => PyStr.endswith (PyStr.lower doi) ext = false) exts) /\
    pass exts doi (strip_extensions exts doi) removed.
Proof.
  induction exts as [|ext rest IH]; intros doi; cbn [strip_extensions].
  - exists [], "". rewrite append_nil_r. repeat split; auto; constructor.
  - destruct (PyStr.endswith (PyStr.lower doi) ext) eqn:E.
    + destruct (endswith_split _ _ E) as (b & Hb).
      destruct (lower_split _ _ _ Hb) as (a & x & -> & Ha & Hx).
      rewrite (drop_last_append a x (String.length ext))
        by (now rewrite <- Hx, length_lower).
      destruct (IH a) as (removed & tail & Hd & Ht & Hs & _ & Hp).
      exists (ext :: removed), (tail ++ x). split; [|split; [|split; [|split]]].
      * rewrite <- append_assoc, <- Hd. reflexivity.
      * rewrite lower_append, Ht, Hx. cbn [List.rev]. now rewrite concat_snoc.
      * now constructor.
      * split; [discriminate|]. intros HF. inversion HF; subst. congruence.
      * now apply pass_strip.
    + destruct (IH doi) as (removed & tail & Hd & Ht & Hs & Hiff & Hp).
      exists removed, tail. split; [|split; [|split; [|split]]]; auto.
      * now constructor.
      * split.
        -- intros H. constructor; [exact E|]. now apply Hiff.
        -- intros HF. inversion HF; subst. now apply Hiff.
      * now apply pass_keep.
Qed.

(** C5 (as amended).  On a text with a match [m] of the DOI pattern,
    [extract_doi] strips the trailing [.,;:] of [m] and then goes once
    through [.pdf], [.html], [.full], [.xml] in that order, taking off each
    one that is at that point a suffix, whatever the case, and leaving the
    text alone at each one that is not: the result is the one text such a
    pass leads to.  The text taken off is the removed extensions, last
    removed first, and these are a subsequence of the four, so between none
    and four go, each at most once; none goes exactly when the stripped
    match ends in none. *)
Theorem extract_doi_strips_extensions (text m : string) :
  doi_search text = Some m ->
  exists d removed tail,
    extract_doi text = Some d /\
    PyStr.rstrip ".,;:" m = d ++ tail /\
    PyStr.lower tail = String.concat "" (List.rev removed) /\
    subsequence removed known_extensions /\
    (removed = [] <-> has_known_extension (PyStr.rstrip ".,;:" m) = false) /\
    pass known_extensions (PyStr.rstrip ".,;:" m) d removed /\
    (forall d' removed',
       pass known_extensions (PyStr.rstrip ".,;:" m) d' removed' ->
       d' = d /\ removed' = removed).
Proof.
  intros Hm. unfold extract_doi. rewrite Hm.
  destruct (strip_extensions_pass known_extensions (PyStr.rstrip ".,;:" m))
    as (removed & tail & Hd & Ht & Hs & Hiff & Hp).
  exists (strip_extensions known_extensions (PyStr.rstrip ".,;:" m)), removed, tail.
  split; [reflexivity|]. split; [exact Hd|]. split; [exact Ht|]. split; [exact Hs|].
  split; [|split; [exact Hp|exact (pass_functional _ _ _ _ Hp)]].
  split.
  - intros H. apply Hiff in H. unfold has_known_extension.
    apply not_true_is_false. intros Hex.
    apply existsb_exists in Hex as (ext & Hin & He).
    rewrite Forall_forall in H. rewrite (H ext Hin) in He. discriminate.
  - intros H. apply Hiff. apply Forall_forall. intros ext Hin.
    apply not_true_is_false. intros He. unfold has_known_extension in H.
    assert (existsb (PyStr.endswith (PyStr.lower (PyStr.rstrip ".,;:" m)))
              known_extensions = true)
      by (apply existsb_exists; eauto).
    congruence.
Qed.

End DoiFacts.

Lemma extract_doi_idempotent_witness :
  extract_doi "10.1234/abc" = Some "10.1234/abc".
Proof.
  apply (extract_doi_idempotent "see https://doi.org/10.1234/abc.pdf, and"
           "10.1234/abc").
  - reflexivity.
  - discriminate.
  - reflexivity.
  - reflexivity.
Defined.

(** C2, as stated, fails: a second extraction strips what the first one
    left, or finds nothing. *)
Lemma extract_doi_not_idempotent :
  extract_doi "10.1234/abc.pdf.xml" = Some "10.1234/abc.pdf" /\
  extract_doi "10.1234/abc.pdf" = Some "10.1234/abc" /\
  extract_doi "10.1234/.pdf" = Some "10.1234/" /\
  extract_doi "10.1234/" = None.
Proof. repeat split. Qed.

Lemma extract_doi_strips_extensions_witness :
  exists d removed tail,
    extract_doi "see 10.1234/abc.Full.PDF;" = Some d /\
    PyStr.rstrip ".,;:" "10.1234/abc.Full.PDF;" = d ++ tail /\
    PyStr.lower tail = String.concat "" (List.rev removed) /\
    subsequence removed known_extensions /\
    (removed = [] <->
     has_known_extension (PyStr.rstrip ".,;:" "10.1234/abc.Full.PDF;") = false) /\
    pass known_extensions (PyStr.rstrip ".,;:" "10.1234/abc.Full.PDF;") d removed /\
    (forall d' removed',
       pass known_extensions (PyStr.rstrip ".,;:" "10.1234/abc.Full.PDF;") d' removed' ->
       d' = d /\ removed' = removed).
Proof.
  apply (extract_doi_strips_extensions "see 10.1234/abc.Full.PDF;"
           "10.1234/abc.Full.PDF;").
  reflexivity.
Defined.

(** C5, as stated, fails: two extensions go from one match. *)
Lemma extract_doi_strips_two_extensions :
  doi_search "10.1234/abc.full.pdf" = Some "10.1234/abc.full.pdf" /\
  extract_doi "10.1234/abc.full.pdf" = Some "10.1234/abc" /\
  extract_doi "10.1234/abc.pdf" = Some "10.1234/abc".
Proof. repeat split. Qed.

(* --------------------------------------------------------------------- *)
(** *** [check_rate_limit] *)

(** C3 (as amended).  With a non-empty pruned ledger: at or above the hourly
    ceiling the gate ends the invocation with the quota error, without
    sleeping when the most recent timestamp is at least the minimum interval
    old, and after sleeping the remaining time when it is younger; below the
    ceiling and with a younger timestamp it sleeps exactly the remaining
    time and returns. *)
Theorem rate_limit_gate (now : float) (ledger : option (list float))
    (t : float) (ts : list float) :
  pruned_ledger now ledger = t :: ts ->
  let elapsed := PrimFloat.sub now (py_max t ts) in
  let wait := PrimFloat.sub MIN_INTERVAL_SECONDS elapsed in
  let count := Z.of_nat (List.length (t :: ts)) in
  (MAX_REQUESTS_PER_HOUR <= count ->
   PrimFloat.ltb elapsed MIN_INTERVAL_SECONDS = false ->
   check_rate_limit now ledger
   = ([quota_error now (py_min t ts)], SystemExit 1)) /\
  (MAX_REQUESTS_PER_HOUR <= count ->
   PrimFloat.ltb elapsed MIN_INTERVAL_SECONDS = true ->
   check_rate_limit now ledger
   = ([Print (MsgWaiting wait); Sleep wait; quota_error now (py_min t ts)],
      SystemExit 1)) /\
  (count < MAX_REQUESTS_PER_HOUR ->
   PrimFloat.ltb elapsed MIN_INTERVAL_SECONDS = true ->
   check_rate_limit now ledger = ([Print (MsgWaiting wait); Sleep wait], Returned)).
Proof.
  intros Hp elapsed wait count. unfold check_rate_limit.
  unfold pruned_ledger in Hp. rewrite Hp. fold elapsed. fold wait. fold count.
  repeat split; intros Hc Hl; rewrite Hl.
  - apply Z.leb_le in Hc. rewrite Hc. reflexivity.
  - apply Z.leb_le in Hc. rewrite Hc. reflexivity.
  - apply Z.leb_gt in Hc. rewrite Hc. reflexivity.
Qed.

Lemma rate_limit_gate_witness :
  check_rate_limit 1000 (Some [998%float])
  = ([Print (MsgWaiting 3); Sleep 3], Returned).
Proof.
  refine (proj2 (proj2 (rate_limit_gate 1000 (Some [998%float]) 998 [] eq_refl)) _ _).
  - reflexivity.
  - reflexivity.
Defined.

(** C3, as stated, fails: with ten timestamps in the window, the newest two
    seconds old, the gate sleeps three seconds before it ends the
    invocation. *)
Lemma quota_reached_after_sleep :
  pruned_ledger 1000 (Some busy_ledger) = busy_ledger /\
  MAX_REQUESTS_PER_HOUR <= Z.of_nat (List.length busy_ledger) /\
  check_rate_limit 1000 (Some busy_ledger)
  = ([Print (MsgWaiting 3); Sleep 3; quota_error 1000 900], SystemExit 1).
Proof.
  split; [reflexivity|]. split; [|reflexivity].
  now vm_compute.
Qed.

(* --------------------------------------------------------------------- *)
(** *** [_get] and [_post] *)

Section TransportFacts.

Lemma loop_body_classify (net : network) (retries attempt : Z) :
  loop_body net retries attempt =
  match classify net attempt with
  | Success v => ([], Return v)
  | GiveUp => ([], Return VNone)
  | Throttled =>
      if attempt <? retries then ([SleepUniform 3 8], Continue)
      else ([], Return VNone)
  | Failed => if attempt <? retries then ([Sleep 2], Continue) else ([], Continue)
  end.
Proof.
  unfold loop_body, try_block, classify.
  destruct (net attempt) as [e|[resp|e]]; cbn [bind]; [reflexivity| |reflexivity].
  destruct (ok resp).
  - destruct (json resp); reflexivity.
  - destruct (status_code resp =? 429); cbn [andb]; [|reflexivity].
    destruct (attempt <? retries); reflexivity.
Qed.

Lemma retry_loop_never_raises (net : network) (retries : Z) (attempts : list Z) :
  exists v, snd (retry_loop net retries attempts) = Ok v.
Proof.
  induction attempts as [|a rest IH]; cbn [retry_loop]; [now exists VNone|].
  destruct (loop_body net retries a) as [slept [v|]].
  - now exists v.
  - destruct (retry_loop net retries rest) as [trace r]. exact IH.
Qed.

Lemma retry_loop_run (net : network) (retries : nat) :
  forall (n first : nat),
    (first + n <= retries)%nat ->
    (forall i, (first <= i < first + n)%nat ->
       retried (classify net (Z.of_nat i)) = true) ->
    ((first + n)%nat = retries \/
     retried (classify net (Z.of_nat (first + n))) = false) ->
    retry_loop net (Z.of_nat retries)
      (map Z.of_nat (seq first (S retries - first)))
    = ((retries_before net first n ++ request net (Z.of_nat (first + n)%nat))%list,
       Ok (answer (classify net (Z.of_nat (first + n))))).
Proof.
  induction n as [|n IH]; intros first Hle Hretry Hend.
  - rewrite Nat.add_0_r in *. clear Hretry.
    replace (S retries - first)%nat with (S (retries - first)) by lia.
    cbn [seq map retry_loop retries_before flat_map app].
    rewrite loop_body_classify.
    destruct (classify net (Z.of_nat first)) eqn:Hk; cbn [retried] in Hend.
    + now rewrite app_nil_r.
    + now rewrite app_nil_r.
    + destruct Hend as [->|?]; [|discriminate]. rewrite Z.ltb_irrefl.
      now rewrite app_nil_r.
    + destruct Hend as [->|?]; [|discriminate]. rewrite Z.ltb_irrefl.
      replace (retries - retries)%nat with 0%nat by lia.
      cbn [seq map retry_loop]. now rewrite !app_nil_r.
  - replace (S retries - first)%nat with (S (S retries - S first)) by lia.
    cbn [seq map retry_loop].
    rewrite loop_body_classify.
    assert (Hlt : (Z.of_nat first <? Z.of_nat retries) = true)
      by (apply Z.ltb_lt; lia).
    rewrite Hlt.
    assert (Hr : retried (classify net (Z.of_nat first)) = true)
      by (apply Hretry; lia).
    replace (first + S n)%nat with (S first + n)%nat in * by lia.
    rewrite (IH (S first)); [| lia | intros i Hi; apply Hretry; lia | exact Hend].
    unfold retries_before. cbn [seq flat_map].
    destruct (classify net (Z.of_nat first)); cbn [retried] in Hr;
      try discriminate; cbn [pause]; now rewrite <- !app_assoc.
Qed.

Lemma range_seq (n : nat) :
  range (Z.of_nat n + 1) = map Z.of_nat (seq 0 (S n - 0)).
Proof.
  unfold range. replace (Z.to_nat (Z.of_nat n + 1)) with (S n - 0)%nat by lia.
  reflexivity.
Qed.

(** C4 (as amended).  For every network and retry budget, [_get] and [_post]
    return a value and never raise.  An attempt is retried when its response
    has status 429 (after a sleep drawn from 3 to 8 seconds) or when
    [_get_proxy()], the request or the parsing raised (after a sleep of 2
    seconds), as long as the budget lasts; the call ends at the first
    attempt [n] that is not retried, or at the last one of the budget, with
    the parsed body on success and [None] otherwise, and without a sleep
    after that attempt.  Every attempt up to [n] makes one request, but for
    those at which [_get_proxy()] raised, which make none.  In particular a
    response that is neither OK nor 429 ends the call at once with
    [None]. *)
Theorem transport_retry (net : network) (retries : nat) :
  (exists v, snd (_get net (Z.of_nat retries)) = Ok v) /\
  (exists v, snd (_post net (Z.of_nat retries)) = Ok v) /\
  (forall n : nat,
     (n <= retries)%nat ->
     (forall i, (i < n)%nat -> retried (classify net (Z.of_nat i)) = true) ->
     (n = retries \/ retried (classify net (Z.of_nat n)) = false) ->
     let run := ((retries_before net 0 n ++ request net (Z.of_nat n))%list,
                 Ok (answer (classify net (Z.of_nat n)))) in
     _get net (Z.of_nat retries) = run /\ _post net (Z.of_nat retries) = run).
Proof.
  split; [apply retry_loop_never_raises|].
  split; [apply retry_loop_never_raises|].
  intros n Hle Hretry Hend run. unfold _get, _post. rewrite range_seq.
  split; apply (retry_loop_run net retries n 0); auto;
    intros i Hi; apply Hretry; lia.
Qed.

End TransportFacts.

Lemma transport_retry_witness :
  _get (always (Ok too_many_requests)) 2
  = ([Request 0; SleepUniform 3 8; Request 1; SleepUniform 3 8; Request 2],
     Ok VNone).
Proof.
  refine (proj1 (proj2 (proj2 (transport_retry (always (Ok too_many_requests)) 2%nat))
                   2%nat _ _ _)).
  - lia.
  - intros i Hi. reflexivity.
  - now left.
Defined.

(** C4, as stated, fails: a server error is not retried at all, and an
    exception is retried twice, the whole budget, not once. *)
Lemma other_errors_not_retried_once :
  _get (always (Ok server_error)) 2 = ([Request 0], Ok VNone) /\
  _post (always (Ok server_error)) 2 = ([Request 0], Ok VNone) /\
  _get (always (Raise ValueError)) 2
  = ([Request 0; Sleep 2; Request 1; Sleep 2; Request 2], Ok VNone).
Proof. repeat split. Qed.

(* --------------------------------------------------------------------- *)
(** *** [_extract_authors] *)

(** C6: the code departs from the claim.  OpenAlex lists an authorship
    without a display name and Semantic Scholar names the author: the
    OpenAlex branch returns its empty list and ends the fallback, where the
    CrossRef branch, on a list without a non-empty name, goes on to the next
    source. *)
Lemma authors_openalex_stops_fallback :
  _extract_authors demo_runtime (VDict []) nameless_openalex named_semantic (VDict [])
  = Ok [] /\
  _extract_authors demo_runtime (VDict []) (VDict []) named_semantic (VDict [])
  = Ok [VStr "Ada Lovelace"] /\
  _extract_authors demo_runtime
    (VDict [("author", VList [VDict [("given", VStr " ")]])])
    (VDict []) named_semantic (VDict [])
  = Ok [VStr "Ada Lovelace"].
Proof. repeat split. Qed.

(* --------------------------------------------------------------------- *)
(** *** The title of [to_markdown] *)

Section TitleFacts.

Variable rt : runtime.

Lemma get_title (d : list (string * value)) :
  get (VDict d) "title" VNone = Ok (title_of d).
Proof. reflexivity. Qed.

(** The first three lines of the title block leave CrossRef's title, or a
    falsy value when it has none. *)
Lemma crossref_title_read (d : list (string * value)) :
  exists t,
    (truthy t = truthy (crossref_title d)) /\
    (truthy t = true -> t = crossref_title d) /\
    forall doi ss oa epmc,
      reconciled_title doi (VDict d) ss oa epmc =
      or_else t (
        t <- get ss "title" VNone ;;
        or_else t (
          t <- get oa "title" VNone ;;
          or_else t (
            t <- get epmc "title" VNone ;;
            or_else t (Ok doi)))).
Proof.
  unfold reconciled_title, crossref_title. cbn [get bind].
  destruct (lookup "title" d) as [t|] eqn:Ht.
  - destruct (truthy t) eqn:Htt.
    + destruct t; cbn in Htt; try discriminate.
      all: try (eexists; split; [|split; [|intros; cbn; reflexivity]];
                cbn; try rewrite Htt; reflexivity).
      destruct l as [|x l]; [discriminate|].
      exists x. split; [reflexivity|]. split; [reflexivity|]. intros. reflexivity.
    + exists VNone. split.
      * destruct t; cbn in Htt |- *; try discriminate; try reflexivity;
          try (now rewrite Htt).
        destruct l; [reflexivity|discriminate].
      * split; [discriminate|]. intros. reflexivity.
  - exists VNone. split; [reflexivity|]. split; [discriminate|]. intros. reflexivity.
Qed.

(** C7.  The title follows the priority CrossRef, Semantic Scholar,
    OpenAlex, Europe PMC, identifier: it is the non-empty title of the first
    of the four sources, in that order, that supplies one, whatever the
    sources after it hold (so CrossRef's also when Semantic Scholar supplies
    one, and Semantic Scholar's when only it does), and the identifier when
    no source supplies one.  The reconciled title is what the header line of
    the document shows. *)
Theorem title_priority (doi cr ss oa epmc : value) :
  (forall t, crossref_supplies cr t ->
     reconciled_title doi cr ss oa epmc = Ok t) /\
  (forall t, crossref_lacks cr -> supplies ss t ->
     reconciled_title doi cr ss oa epmc = Ok t) /\
  (forall t, crossref_lacks cr -> lacks ss -> supplies oa t ->
     reconciled_title doi cr ss oa epmc = Ok t) /\
  (forall t, crossref_lacks cr -> lacks ss -> lacks oa -> supplies epmc t ->
     reconciled_title doi cr ss oa epmc = Ok t) /\
  (crossref_lacks cr -> lacks ss -> lacks oa -> lacks epmc ->
     reconciled_title doi cr ss oa epmc = Ok doi) /\
  (forall title lines, reconciled_title doi cr ss oa epmc = Ok title ->
     md_title rt doi cr ss oa epmc lines
     = Ok (app lines ["# " ++ str rt title; ""])).
Proof.
  split; [|split; [|split; [|split; [|split]]]].
  - intros t (d & -> & Ht & Htt).
    destruct (crossref_title_read d) as (t' & Hb & Hv & Heq).
    rewrite Heq. rewrite Ht, Htt in Hb. unfold or_else at 1. rewrite Hb.
    rewrite (Hv Hb). now rewrite Ht.
  - intros t (d & -> & Hf) (ds & -> & Ht & Htt).
    destruct (crossref_title_read d) as (t' & Hb & _ & Heq).
    rewrite Heq. rewrite Hf in Hb. unfold or_else at 1. rewrite Hb.
    rewrite get_title. cbn [bind]. unfold or_else at 1. rewrite Ht, Htt. reflexivity.
  - intros t (d & -> & Hf) (ds & -> & Hs) (do & -> & Ht & Htt).
    destruct (crossref_title_read d) as (t' & Hb & _ & Heq).
    rewrite Heq. rewrite Hf in Hb. unfold or_else at 1. rewrite Hb.
    rewrite !get_title. cbn [bind]. unfold or_else at 1. rewrite Hs.
    unfold or_else at 1. rewrite Ht, Htt. reflexivity.
  - intros t (d & -> & Hf) (ds & -> & Hs) (do & -> & Ho) (de & -> & Ht & Htt).
    destruct (crossref_title_read d) as (t' & Hb & _ & Heq).
    rewrite Heq. rewrite Hf in Hb. unfold or_else at 1. rewrite Hb.
    rewrite !get_title. cbn [bind]. unfold or_else. rewrite Hs, Ho, Ht, Htt.
    reflexivity.
  - intros (d & -> & Hf) (ds & -> & Hs) (do & -> & Ho) (de & -> & He).
    destruct (crossref_title_read d) as (t' & Hb & _ & Heq).
    rewrite Heq. rewrite Hf in Hb. unfold or_else at 1. rewrite Hb.
    rewrite !get_title. cbn [bind]. unfold or_else. rewrite Hs, Ho, He. reflexivity.
  - intros title lines Ht. unfold md_title. rewrite Ht. cbn [bind].
    unfold append. rewrite <- app_assoc. reflexivity.
Qed.

End TitleFacts.

Lemma title_priority_witness :
  reconciled_title (VStr "10.1234/abc") (crossref_titled "From CrossRef")
    (titled "From Semantic Scholar") (VDict []) (VDict [])
  = Ok (VStr "From CrossRef") /\
  reconciled_title (VStr "10.1234/abc") (VDict [])
    (titled "From Semantic Scholar") (VDict []) (VDict [])
  = Ok (VStr "From Semantic Scholar") /\
  reconciled_title (VStr "10.1234/abc") (VDict []) (titled "")
    (titled "From OpenAlex") (titled "From Europe PMC")
  = Ok (VStr "From OpenAlex") /\
  reconciled_title (VStr "10.1234/abc") (crossref_titled "") (VDict []) (VDict [])
    (titled "From Europe PMC")
  = Ok (VStr "From Europe PMC") /\
  reconciled_title (VStr "10.1234/abc") (VDict []) (VDict []) (VDict []) (VDict [])
  = Ok (VStr "10.1234/abc").
Proof.
  split; [|split; [|split; [|split]]].
  - apply (proj1 (title_priority demo_runtime (VStr "10.1234/abc")
                    (crossref_titled "From CrossRef")
                    (titled "From Semantic Scholar") (VDict []) (VDict []))).
    exists [("title", VList [VStr "From CrossRef"])]. repeat split.
  - apply (proj1 (proj2 (title_priority demo_runtime (VStr "10.1234/abc")
                           (VDict []) (titled "From Semantic Scholar")
                           (VDict []) (VDict [])))).
    + exists []. repeat split.
    + exists [("title", VStr "From Semantic Scholar")]. repeat split.
  - apply (proj1 (proj2 (proj2 (title_priority demo_runtime (VStr "10.1234/abc")
                                  (VDict []) (titled "") (titled "From OpenAlex")
                                  (titled "From Europe PMC"))))).
    + exists []. repeat split.
    + exists [("title", VStr "")]. repeat split.
    + exists [("title", VStr "From OpenAlex")]. repeat split.
  - apply (proj1 (proj2 (proj2 (proj2
             (title_priority demo_runtime (VStr "10.1234/abc") (crossref_titled "")
                (VDict []) (VDict []) (titled "From Europe PMC")))))).
    + exists [("title", VList [VStr ""])]. repeat split.
    + exists []. repeat split.
    + exists []. repeat split.
    + exists [("title", VStr "From Europe PMC")]. repeat split.
  - apply (proj1 (proj2 (proj2 (proj2 (proj2
             (title_priority demo_runtime (VStr "10.1234/abc")
                (VDict []) (VDict []) (VDict []) (VDict [])))))));
      exists []; repeat split.
Defined.

(* --------------------------------------------------------------------- *)
(** *** [_extract_date] *)

Section DateFacts.

Variable rt : runtime.

Lemma date_loop_skip (cr : value) (before rest : list string) :
  (forall k, In k before -> no_date cr k) ->
  date_from_crossref rt cr (before ++ rest) = date_from_crossref rt cr rest.
Proof.
  induction before as [|k before IH]; intros Hno; [reflexivity|].
  destruct (Hno k (or_introl eq_refl)) as (dp & Hdp & Hfalsy).
  cbn [app date_from_crossref]. rewrite Hdp. cbn [bind].
  destruct Hfalsy as [Hdp0 | (p & Hp & Hp0)].
  - rewrite Hdp0. cbn. apply IH. intros k' Hk'. apply Hno. now right.
  - destruct (truthy dp); cbn [bind andb].
    + rewrite Hp. cbn [bind]. rewrite Hp0. apply IH. intros k' Hk'. apply Hno.
      now right.
    + apply IH. intros k' Hk'. apply Hno. now right.
Qed.

Lemma date_loop_year (cr : value) (key : string) (rest : list string)
    (year : value) (more : list value) :
  (List.length more <= 1)%nat ->
  has_date cr key (VList (year :: more)) ->
  date_from_crossref rt cr (key :: rest) = Ok (Some (VStr (str rt year))).
Proof.
  intros Hlen (dp & Hdp & Hdp1 & Hfirst & Hparts).
  cbn [date_from_crossref]. rewrite Hdp. cbn [bind]. rewrite Hdp1, Hfirst.
  cbn [bind andb]. rewrite Hparts. cbn [bind len].
  destruct more as [|m [|m' more]]; cbn in Hlen; try lia; reflexivity.
Qed.

(** C10.  When the first date key of a CrossRef record that holds a date
    (in the order published-print, published-online, issued, created) holds
    a year and a month, the date is the year alone, as a string: the month
    is dropped, the result is the one a year-only entry gives, and the
    other three sources are not consulted, whatever they hold. *)
Theorem extract_date_year_month
    (cr ss oa epmc : value) (before after : list string) (key : string)
    (year month : value) :
  date_keys = (before ++ key :: after)%list ->
  (forall k, In k before -> no_date cr k) ->
  has_date cr key (VList [year; month]) ->
  _extract_date rt cr ss oa epmc = Ok (VStr (str rt year)) /\
  (forall cr',
     (forall k, In k before -> no_date cr' k) ->
     has_date cr' key (VList [year]) ->
     _extract_date rt cr' ss oa epmc = _extract_date rt cr ss oa epmc).
Proof.
  intros Hkeys Hno Hhas.
  assert (Hgen : forall c more, (List.length more <= 1)%nat ->
            (forall k, In k before -> no_date c k) ->
            has_date c key (VList (year :: more)) ->
            _extract_date rt c ss oa epmc = Ok (VStr (str rt year))).
  { intros c more Hlen Hc Hd. unfold _extract_date. rewrite Hkeys.
    rewrite (date_loop_skip c before (key :: after) Hc).
    rewrite (date_loop_year c key after year more Hlen Hd). reflexivity. }
  split.
  - apply (Hgen cr [month]); [cbn; lia | assumption | assumption].
  - intros cr' Hno' Hhas'.
    rewrite (Hgen cr' []); [|cbn; lia|assumption|assumption].
    symmetry. apply (Hgen cr [month]); [cbn; lia | assumption | assumption].
Qed.

End DateFacts.

Lemma issued_no_earlier_date (cr : value) (d : value) :
  cr = VDict [("issued", d)] ->
  forall k, In k ["published-print"; "published-online"] -> no_date cr k.
Proof.
  intros -> k [<-|[<-|[]]]; exists (VList [VList []]);
    (split; [reflexivity|]); right; exists (VList []); split; reflexivity.
Qed.

Lemma extract_date_year_month_witness :
  _extract_date demo_runtime issued_year_month VNone VNone VNone
  = Ok (VStr "2020") /\
  _extract_date demo_runtime issued_year VNone VNone VNone
  = _extract_date demo_runtime issued_year_month VNone VNone VNone.
Proof.
  destruct (extract_date_year_month demo_runtime issued_year_month VNone VNone VNone
              ["published-print"; "published-online"] ["created"] "issued"
              (VInt 2020) (VInt 5) eq_refl
              (issued_no_earlier_date _ _ eq_refl)) as [Hyear Hsame].
  - exists (VList [VList [VInt 2020; VInt 5]]). repeat split.
  - split; [exact Hyear|].
    apply Hsame.
    + exact (issued_no_earlier_date _ _ eq_refl).
    + exists (VList [VList [VInt 2020]]). repeat split.
Defined.

(* --------------------------------------------------------------------- *)
(** *** [_extract_oa_links] *)

Section LinkFacts.

Variable rt : runtime.

Lemma epmc_pdf_loop_first (urls : list value) (links : list link) :
  epmc_pdf_loop urls links =
  (o <- first_pdf urls ;;
   Ok (links ++ opt (option_map (fun url => ("Europe PMC PDF", url)) o))%list).
Proof.
  induction urls as [|u urls IH]; cbn [epmc_pdf_loop first_pdf bind].
  - cbn. now rewrite app_nil_r.
  - destruct (get u "documentStyle" VNone) as [style|e]; cbn [bind]; [|reflexivity].
    destruct (eq_str style "pdf"); [|exact IH].
    destruct (getitem u "url"); reflexivity.
Qed.

Lemma license_loop_first (licenses : list value) (links : list link) :
  license_loop licenses links =
  (o <- first_cc_license licenses ;;
   Ok (links ++ opt (option_map (fun url => ("License", url)) o))%list).
Proof.
  induction licenses as [|lic rest IH]; cbn [license_loop first_cc_license bind].
  - cbn. now rewrite app_nil_r.
  - destruct (get lic "URL" (VStr "")) as [url|e]; cbn [bind]; [|reflexivity].
    destruct (str_in "creativecommons.org" url) as [[|]|e]; cbn [bind];
      [reflexivity | exact IH | reflexivity].
Qed.

(** Each block of the function adds its source's link to the list and hands
    the list on to the rest, [K]. *)
Lemma ss_stage (pdf : value) (links : list link)
    (K : list link -> result (list link)) :
  (ss_url <- (if is_dict pdf then get pdf "url" VNone else Ok VNone) ;;
   links' <- (if is_dict pdf && truthy ss_url then
                url <- getitem pdf "url" ;;
                Ok (append links ("Semantic Scholar PDF", url))
              else Ok links) ;;
   K links')
  = (b <- semantic_of pdf ;; K (links ++ opt b)%list).
Proof.
  destruct pdf; cbn; rewrite ?app_nil_r; try reflexivity.
  destruct (lookup "url" d) as [url|]; cbn; rewrite ?app_nil_r; try reflexivity.
  destruct (truthy url); cbn; rewrite ?app_nil_r; reflexivity.
Qed.

Lemma oa_stage (access : value) (links : list link)
    (K : list link -> result (list link)) :
  (oa_url <- (if is_dict access then get access "oa_url" VNone else Ok VNone) ;;
   links' <- (if is_dict access && truthy oa_url then
                status <- get access "oa_status" (VStr "open") ;;
                url <- getitem access "oa_url" ;;
                Ok (append links ("OpenAlex (" ++ str rt status ++ ")", url))
              else Ok links) ;;
   K links')
  = (c <- openalex_of rt access ;; K (links ++ opt c)%list).
Proof.
  destruct access; cbn; rewrite ?app_nil_r; try reflexivity.
  destruct (lookup "oa_url" d) as [url|]; cbn; rewrite ?app_nil_r; try reflexivity.
  destruct (truthy url); cbn; rewrite ?app_nil_r; reflexivity.
Qed.

Lemma epmc_stage (epmc : value) (links : list link)
    (K : list link -> result (list link)) :
  (flag <- get epmc "isOpenAccess" VNone ;;
   links' <- (if eq_str flag "Y" then
                url_list <- get epmc "fullTextUrlList" (VDict []) ;;
                epmc_urls <- get url_list "fullTextUrl" (VList []) ;;
                items <- iter epmc_urls ;;
                epmc_pdf_loop items links
              else Ok links) ;;
   K links')
  = (d <- europepmc_link epmc ;; K (links ++ opt d)%list).
Proof.
  unfold europepmc_link.
  destruct (get epmc "isOpenAccess" VNone) as [flag|]; cbn [bind]; [|reflexivity].
  destruct (eq_str flag "Y"); cbn [bind opt]; [|now rewrite app_nil_r].
  destruct (get epmc "fullTextUrlList" (VDict [])) as [ul|]; cbn [bind];
    [|reflexivity].
  destruct (get ul "fullTextUrl" (VList [])) as [us|]; cbn [bind]; [|reflexivity].
  destruct (iter us) as [items|]; cbn [bind]; [|reflexivity].
  rewrite epmc_pdf_loop_first.
  destruct (first_pdf items); reflexivity.
Qed.

Lemma license_stage (cr : value) (links : list link) :
  (licenses <- get cr "license" (VList []) ;;
   items <- iter licenses ;; license_loop items links)
  = (e <- license_link cr ;; Ok (links ++ opt e)%list).
Proof.
  unfold license_link.
  destruct (get cr "license" (VList [])) as [ls|]; cbn [bind]; [|reflexivity].
  destruct (iter ls) as [items|]; cbn [bind]; [|reflexivity].
  rewrite license_loop_first. destruct (first_cc_license items); reflexivity.
Qed.

Lemma extract_oa_links_accumulates (cr oa ss epmc report : value) :
  _extract_oa_links rt cr oa ss epmc report
  = accumulated_links rt cr oa ss epmc report.
Proof.
  unfold _extract_oa_links, accumulated_links, pmc_link, semantic_link,
    openalex_link.
  destruct (get report "pmc_id" VNone) as [pmc|]; cbn [bind]; [|reflexivity].
  destruct (get ss "openAccessPdf" (VDict [])) as [pdf|]; cbn [bind];
    [|reflexivity].
  rewrite ss_stage.
  destruct (semantic_of pdf) as [b|]; cbn [bind]; [|reflexivity].
  destruct (get oa "open_access" (VDict [])) as [access|]; cbn [bind];
    [|reflexivity].
  rewrite oa_stage.
  destruct (openalex_of rt access) as [c|]; cbn [bind]; [|reflexivity].
  rewrite epmc_stage.
  destruct (europepmc_link epmc) as [d|]; cbn [bind]; [|reflexivity].
  rewrite license_stage.
  destruct (license_link cr) as [e|]; cbn [bind]; [|reflexivity].
  f_equal. rewrite <- !app_assoc. f_equal.
  destruct (truthy pmc); reflexivity.
Qed.

Lemma first_cc_license_first (licenses : list value) (url : value) :
  first_cc_license licenses = Ok (Some url) ->
  exists before lic after,
    licenses = (before ++ lic :: after)%list /\
    get lic "URL" (VStr "") = Ok url /\
    str_in "creativecommons.org" url = Ok true /\
    Forall (fun l => exists u, get l "URL" (VStr "") = Ok u /\
                               str_in "creativecommons.org" u = Ok false) before.
Proof.
  induction licenses as [|lic rest IH]; cbn [first_cc_license]; [discriminate|].
  destruct (get lic "URL" (VStr "")) as [u|] eqn:Hu; cbn [bind]; [|discriminate].
  destruct (str_in "creativecommons.org" u) as [[|]|] eqn:Hcc; cbn [bind];
    [| |discriminate].
  - intros [= <-]. exists [], lic, rest. repeat split; auto.
  - intros H. destruct (IH H) as (before & l & after & -> & Hl & Hc & Hall).
    exists (lic :: before), l, after. repeat split; auto.
    constructor; [exists u; auto | assumption].
Qed.

Lemma lookup_sources (pre post : list (string * value))
    (s s' : list (string * value)) :
  (lookup "sources" (pre ++ ("sources", VDict s) :: post) = Some (VDict s) /\
   lookup "sources" (pre ++ ("sources", VDict s') :: post) = Some (VDict s')) \/
  (lookup "sources" (pre ++ ("sources", VDict s) :: post) =
   lookup "sources" (pre ++ ("sources", VDict s') :: post)).
Proof.
  induction pre as [|[k x] pre IH]; cbn [app lookup].
  - left. cbn. auto.
  - destruct (String.eqb_spec "sources" k) as [<-|Hne].
    + right. reflexivity.
    + exact IH.
Qed.

Lemma source_permutation (pre post s s' : list (string * value)) (name : string) :
  NoDup (map fst s) -> Permutation s s' ->
  source (VDict (pre ++ ("sources", VDict s) :: post)) name =
  source (VDict (pre ++ ("sources", VDict s') :: post)) name.
Proof.
  intros Hnd Hp. unfold source. cbn [getitem].
  destruct (lookup_sources pre post s s') as [[H1 H2]|H].
  - rewrite H1, H2. cbn [bind get].
    now rewrite (lookup_permutation name s s' Hnd Hp).
  - now rewrite H.
Qed.

(** C8.  The open-access links are the contributions of PubMed Central,
    Semantic Scholar, OpenAlex, Europe PMC and the CrossRef license, in that
    order, each source giving one link or none; this holds for every
    combination of records, the ones on which the function raises
    included.  Europe PMC gives none unless its open-access flag is exactly
    [Y]; the license link is the URL of the first license that names the
    Creative Commons domain; and the links of a report do not depend on the
    order of the items of its sources mapping. *)
Theorem oa_links_fixed_order (cr oa ss epmc report : value) :
  _extract_oa_links rt cr oa ss epmc report
  = accumulated_links rt cr oa ss epmc report /\
  (forall flag, get epmc "isOpenAccess" VNone = Ok flag ->
     eq_str flag "Y" = false -> europepmc_link epmc = Ok None) /\
  (forall licenses url,
     get cr "license" (VList []) = Ok (VList licenses) ->
     license_link cr = Ok (Some ("License", url)) ->
     exists before lic after,
       licenses = (before ++ lic :: after)%list /\
       get lic "URL" (VStr "") = Ok url /\
       str_in "creativecommons.org" url = Ok true /\
       Forall (fun l => exists u, get l "URL" (VStr "") = Ok u /\
                                  str_in "creativecommons.org" u = Ok false)
              before) /\
  (forall pre post s s',
     NoDup (map fst s) -> Permutation s s' ->
     report_links rt (VDict (pre ++ ("sources", VDict s) :: post)) =
     report_links rt (VDict (pre ++ ("sources", VDict s') :: post))).
Proof.
  split; [apply extract_oa_links_accumulates|]. split; [|split].
  - intros flag Hf Hn. unfold europepmc_link. rewrite Hf. cbn [bind]. now rewrite Hn.
  - intros licenses url Hl. unfold license_link. rewrite Hl. cbn [bind iter].
    destruct (first_cc_license licenses) as [[u|]|] eqn:Hfirst; cbn;
      try discriminate.
    intros [= <-]. now apply first_cc_license_first.
  - intros pre post s s' Hnd Hp. unfold report_links.
    rewrite !(source_permutation pre post s s' _ Hnd Hp).
    destruct (source _ "crossref") as [c|]; cbn [bind]; [|reflexivity].
    destruct (source _ "openalex") as [o|]; cbn [bind]; [|reflexivity].
    destruct (source _ "semantic_scholar") as [s0|]; cbn [bind]; [|reflexivity].
    destruct (source _ "europepmc") as [e0|]; cbn [bind]; [|reflexivity].
    rewrite !extract_oa_links_accumulates. unfold accumulated_links, pmc_link.
    cbn [get].
    rewrite (lookup_app_cons_neq "pmc_id" "sources" pre post (VDict s) (VDict s'));
      [reflexivity | discriminate].
Qed.

End LinkFacts.

Lemma oa_links_fixed_order_witness :
  report_links demo_runtime
    (VDict [("doi", VStr "10.1234/abc");
            ("sources", VDict open_access_sources);
            ("pmc_id", VStr "77")])
  = Ok [("PubMed Central", VStr "https://www.ncbi.nlm.nih.gov/pmc/articles/PMC77/");
        ("Europe PMC PDF", VStr "p");
        ("License", VStr "https://creativecommons.org/licenses/by/4.0/")] /\
  report_links demo_runtime
    (VDict [("doi", VStr "10.1234/abc");
            ("sources", VDict open_access_sources);
            ("pmc_id", VStr "77")])
  = report_links demo_runtime
      (VDict [("doi", VStr "10.1234/abc");
              ("sources", VDict (List.rev open_access_sources));
              ("pmc_id", VStr "77")]).
Proof.
  split; [reflexivity|].
  apply (proj2 (proj2 (proj2 (oa_links_fixed_order demo_runtime VNone VNone VNone
                                VNone VNone)))
           [("doi", VStr "10.1234/abc")] [("pmc_id", VStr "77")]
           open_access_sources (List.rev open_access_sources)).
  - cbn. repeat constructor; cbn; intuition discriminate.
  - apply Permutation_rev.
Defined.

(* --------------------------------------------------------------------- *)
(** *** [_extract_notices] *)

Section NoticeFacts.

Variable list_of_set : list string -> list string.

Hypothesis list_of_set_perm :
  forall xs, Permutation (list_of_set xs) (nodup string_dec xs).

Lemma update_loop_keeps (updates : list value) :
  forall notices result,
    update_loop updates notices = Ok result ->
    forall x, In x notices -> In x result.
Proof.
  induction updates as [|u rest IH]; cbn [update_loop]; intros notices result.
  - intros [= <-]. auto.
  - destruct (update_label u) as [label|]; cbn [bind]; [|discriminate].
    intros H x Hx.
    destruct (PyStr.contains label "retract");
      [|destruct (PyStr.contains label "correction"
                  || PyStr.contains label "erratum");
        [|destruct (PyStr.contains label "concern")]];
      apply (IH _ _ H); unfold append; try apply in_or_app; auto.
Qed.

Lemma update_loop_erratum (updates : list value) :
  forall notices result u label,
    update_loop updates notices = Ok result ->
    In u updates -> update_label u = Ok label ->
    PyStr.contains label "erratum" = true ->
    PyStr.contains label "retract" = false ->
    In erratum_notice result.
Proof.
  induction updates as [|u' rest IH]; cbn [update_loop In];
    intros notices result u label H Hin Hl He Hr.
  - contradiction.
  - destruct Hin as [->|Hin].
    + rewrite Hl in H. cbn [bind] in H. rewrite Hr, He, orb_true_r in H.
      apply (update_loop_keeps _ _ _ H). unfold append. apply in_or_app.
      right. now left.
    + destruct (update_label u') as [label'|]; cbn [bind] in H; [|discriminate].
      destruct (PyStr.contains label' "retract");
        [|destruct (PyStr.contains label' "correction"
                    || PyStr.contains label' "erratum");
          [|destruct (PyStr.contains label' "concern")]];
        eapply IH; eauto.
Qed.

Lemma update_loop_retracted (updates : list value) :
  forall notices result u label,
    update_loop updates notices = Ok result ->
    In u updates -> update_label u = Ok label ->
    PyStr.contains label "retract" = true ->
    In "RETRACTED" result.
Proof.
  induction updates as [|u' rest IH]; cbn [update_loop In];
    intros notices result u label H Hin Hl Hr.
  - contradiction.
  - destruct Hin as [->|Hin].
    + rewrite Hl in H. cbn [bind] in H. rewrite Hr in H.
      apply (update_loop_keeps _ _ _ H). unfold append. apply in_or_app.
      right. now left.
    + destruct (update_label u') as [label'|]; cbn [bind] in H; [|discriminate].
      destruct (PyStr.contains label' "retract");
        [|destruct (PyStr.contains label' "correction"
                    || PyStr.contains label' "erratum");
          [|destruct (PyStr.contains label' "concern")]];
        eapply IH; eauto.
Qed.

(** The erratum notice comes from the labels that the first test lets
    through, and from nowhere else. *)
Lemma update_loop_erratum_only (updates : list value) :
  forall notices result,
    update_loop updates notices = Ok result ->
    In erratum_notice result ->
    In erratum_notice notices \/
    exists u label,
      In u updates /\ update_label u = Ok label /\
      PyStr.contains label "retract" = false /\
      (PyStr.contains label "correction" || PyStr.contains label "erratum") = true.
Proof.
  induction updates as [|u rest IH]; cbn [update_loop]; intros notices result.
  - intros [= <-]. now left.
  - destruct (update_label u) as [label|] eqn:Hl; cbn [bind]; [|discriminate].
    assert (Hrest : forall n,
              update_loop rest n = Ok result -> In erratum_notice result ->
              (In erratum_notice n -> In erratum_notice notices \/
                 exists u0 label0,
                   In u0 (u :: rest) /\ update_label u0 = Ok label0 /\
                   PyStr.contains label0 "retract" = false /\
                   (PyStr.contains label0 "correction"
                    || PyStr.contains label0 "erratum") = true) ->
              In erratum_notice notices \/
              exists u0 label0,
                In u0 (u :: rest) /\ update_label u0 = Ok label0 /\
                PyStr.contains label0 "retract" = false /\
                (PyStr.contains label0 "correction"
                 || PyStr.contains label0 "erratum") = true).
    { intros n Hn Hin Hfrom. destruct (IH n result Hn Hin) as [H|(u0 & l0 & H0 & H1)].
      - now apply Hfrom.
      - right. exists u0, l0. split; [now right|exact H1]. }
    destruct (PyStr.contains label "retract") eqn:Hr.
    + intros H Hin. apply (Hrest _ H Hin). unfold append. intros Hn.
      apply in_app_or in Hn as [Hn|[Hn|[]]]; [now left|discriminate].
    + destruct (PyStr.contains label "correction" || PyStr.contains label "erratum")
        eqn:He.
      * intros H Hin. right. exists u, label. split; [now left|]. auto.
      * destruct (PyStr.contains label "concern").
        -- intros H Hin. apply (Hrest _ H Hin). unfold append. intros Hn.
           apply in_app_or in Hn as [Hn|[Hn|[]]]; [now left|discriminate].
        -- intros H Hin. apply (Hrest _ H Hin). now left.
Qed.

(** C9 (as amended).  The list of editorial notices holds no duplicate; and
    when the update history holds one or more updates whose label contains
    [erratum] and not [retract], whatever the case, exactly one
    [Has correction/erratum] notice is in it, however many such updates
    there are.  A label that contains [retract] yields the [RETRACTED]
    notice, once, also when it contains [erratum]; and it yields that
    notice instead of the other: when every label that contains
    [correction] or [erratum] contains [retract] too, the list holds no
    [Has correction/erratum] notice. *)
Theorem notices_distinct (cr : value) (notices : list string) :
  _extract_notices list_of_set cr = Ok notices ->
  NoDup notices /\
  (forall updates u label,
     update_history cr = Ok updates -> In u updates ->
     update_label u = Ok label ->
     PyStr.contains label "erratum" = true ->
     PyStr.contains label "retract" = false ->
     count_occ string_dec notices erratum_notice = 1%nat) /\
  (forall updates u label,
     update_history cr = Ok updates -> In u updates ->
     update_label u = Ok label ->
     PyStr.contains label "retract" = true ->
     count_occ string_dec notices "RETRACTED" = 1%nat) /\
  (forall updates,
     update_history cr = Ok updates ->
     (forall u label,
        In u updates -> update_label u = Ok label ->
        (PyStr.contains label "correction" || PyStr.contains label "erratum") = true ->
        PyStr.contains label "retract" = true) ->
     count_occ string_dec notices erratum_notice = 0%nat).
Proof.
  unfold _extract_notices.
  destruct (get cr "relation" (VDict [])) as [relation|]; cbn [bind];
    [|discriminate].
  destruct (get relation "is-retracted-by" VNone) as [r|]; cbn [bind];
    [|discriminate].
  destruct (get relation "has-expression-of-concern" VNone) as [c|]; cbn [bind];
    [|discriminate].
  destruct (update_history cr) as [updates|]; cbn [bind]; [|discriminate].
  match goal with |- context [update_loop updates ?n] => set (n0 := n) end.
  destruct (update_loop updates n0) as [all|] eqn:Hloop; cbn [bind];
    [|discriminate].
  intros [= <-].
  assert (Hnd : NoDup (list_of_set all)).
  { eapply Permutation_NoDup; [apply Permutation_sym, list_of_set_perm|].
    apply NoDup_nodup. }
  assert (Hmem : forall x, In x (list_of_set all) <-> In x all).
  { intros x. rewrite <- (nodup_In string_dec all x). split; apply Permutation_in;
      [apply list_of_set_perm | apply Permutation_sym, list_of_set_perm]. }
  split; [exact Hnd|]. split; [|split].
  - intros updates' u label [= <-] Hin Hl He Hr.
    apply NoDup_count_occ'; [exact Hnd|]. apply Hmem.
    eapply update_loop_erratum; eauto.
  - intros updates' u label [= <-] Hin Hl Hr.
    apply NoDup_count_occ'; [exact Hnd|]. apply Hmem.
    eapply update_loop_retracted; eauto.
  - intros updates' [= <-] Hall. apply count_occ_not_In. rewrite Hmem. intros Hin.
    destruct (update_loop_erratum_only updates n0 all Hloop Hin)
      as [H0|(u & label & Hu & Hl & Hr & He)].
    + subst n0. unfold append in H0.
      destruct (truthy r), (truthy c); cbn in H0;
        repeat (destruct H0 as [H0|H0]; try discriminate); exact H0.
    + rewrite (Hall u label Hu Hl He) in Hr. discriminate.
Qed.

End NoticeFacts.

Lemma distinct_items_perm (xs : list string) :
  Permutation (distinct_items xs) (nodup string_dec xs).
Proof. apply Permutation_refl. Qed.

Lemma notices_distinct_witness :
  NoDup [erratum_notice] /\
  count_occ string_dec [erratum_notice] erratum_notice = 1%nat.
Proof.
  pose proof (notices_distinct distinct_items distinct_items_perm two_errata
                [erratum_notice] eq_refl) as [Hnd [Hc _]].
  split; [exact Hnd|].
  apply (Hc _ (VDict [("label", VStr "Erratum")]) "erratum" eq_refl);
    [now left | reflexivity | reflexivity | reflexivity].
Defined.

(** C9, as stated, fails: a label that contains [erratum] and [retract]
    yields the retraction notice and no erratum notice. *)
Lemma erratum_label_yields_retracted :
  update_history retracted_erratum
  = Ok [VDict [("label", VStr "Retraction of erratum")]] /\
  update_label (VDict [("label", VStr "Retraction of erratum")])
  = Ok "retraction of erratum" /\
  PyStr.contains "retraction of erratum" "erratum" = true /\
  _extract_notices distinct_items retracted_erratum = Ok ["RETRACTED"] /\
  count_occ string_dec ["RETRACTED"] erratum_notice = 0%nat.
Proof. repeat split. Qed.

(* --------------------------------------------------------------------- *)
(** *** [to_markdown] *)

Section RenderFacts.

Variable rt : runtime.
Variable list_of_set : list string -> list string.

Hypothesis list_of_set_perm :
  forall xs, Permutation (list_of_set xs) (nodup string_dec xs).

Lemma list_of_set_nil : list_of_set [] = [].
Proof.
  apply Permutation_nil. apply Permutation_sym. exact (list_of_set_perm []).
Qed.

(** C1 (as amended).  For every report that holds the identifier and at most
    one title and nothing else, the document is the header line with the
    title (the identifier when there is none), the DOI link line, the
    separator, the Citation Counts header with its empty table, which is
    always there, a second separator and the footer: thirteen lines in all,
    with no other section header. *)
Theorem title_only_document (today doi : string) (src : title_source) :
  markdown_lines rt list_of_set today (title_only_report doi src)
  = Ok ["# " ++ shown_title doi src; "";
        "**DOI:** [" ++ doi ++ "](https://doi.org/" ++ doi ++ ")";
        ""; "---"; "";
        "## Citation Counts"; "";
        "| Source | Citations | Notes |";
        "|--------|-----------|-------|";
        "";
        "---";
        "*Generated by Lazy Scholar CLI on " ++ today ++ "*"].
Proof.
  unfold markdown_lines, title_only_report.
  destruct src as [|t|t|t|t]; cbn -[String.append];
    try (destruct t; cbn -[String.append]);
    unfold md_notices, _extract_notices; cbn -[String.append];
    rewrite list_of_set_nil; reflexivity.
Qed.

End RenderFacts.

Lemma title_only_document_witness :
  markdown_lines demo_runtime distinct_items "2024-05-17"
    (title_only_report "10.1234/abc" (CrossRef "A title"))
  = Ok ["# A title"; "";
        "**DOI:** [10.1234/abc](https://doi.org/10.1234/abc)";
        ""; "---"; "";
        "## Citation Counts"; "";
        "| Source | Citations | Notes |";
        "|--------|-----------|-------|";
        "";
        "---";
        "*Generated by Lazy Scholar CLI on 2024-05-17*"].
Proof.
  exact (title_only_document demo_runtime distinct_items distinct_items_perm
           "2024-05-17" "10.1234/abc" (CrossRef "A title")).
Defined.

(** C1, as stated, fails: the document of a report with a title and nothing
    else holds a section header, the one of the citation counts. *)
Lemma citation_counts_header_always :
  exists lines,
    markdown_lines demo_runtime distinct_items "2024-05-17"
      (title_only_report "10.1234/abc" (CrossRef "A title")) = Ok lines /\
    In "## Citation Counts" lines /\
    existsb is_section_header lines = true /\
    List.length lines = 13%nat.
Proof.
  eexists. split; [reflexivity|]. split; [|split; reflexivity].
  cbn. tauto.
Qed.

(* ===================================================================== *)
(** ** Further properties of the program *)
(* ===================================================================== *)

(* --------------------------------------------------------------------- *)
(** *** [slugify] *)

Lemma hyphenate_from_safe (s : string) : forall b,
  all_chars slug_safe (hyphenate_from b s) = true.
Proof.
  induction s as [|c s IH]; intros b; cbn; [reflexivity|].
  destruct (is_slug_char c) eqn:E; cbn.
  - unfold slug_safe at 1. rewrite E. cbn. apply IH.
  - destruct b; [apply IH|]. cbn. apply IH.
Qed.

Lemma hyphenate_from_run (s : string) :
  no_double_hyphen (hyphenate_from false s) = true /\
  no_double_hyphen (hyphenate_from true s) = true /\
  starts_with_hyphen (hyphenate_from true s) = false.
Proof.
  induction s as [|c s (IH1 & IH2 & IH3)]; cbn; [auto|].
  destruct (is_slug_char c) eqn:E.
  - assert (Hc : Ascii.eqb c "-" = false).
    { destruct (Ascii.eqb_spec c "-") as [->|]; [discriminate|reflexivity]. }
    assert (H : no_double_hyphen (String c (hyphenate_from false s)) = true).
    { cbn. destruct (hyphenate_from false s); [reflexivity|].
      rewrite Hc. cbn. exact IH1. }
    repeat split; auto.
  - repeat split; auto.
    destruct (hyphenate_from true s) as [|b r] eqn:Hs; [reflexivity|].
    change (no_double_hyphen (String "-" (String b r)))
      with (negb (Ascii.eqb "-" "-" && Ascii.eqb b "-")
            && no_double_hyphen (String b r)).
    cbn in IH3. now rewrite IH3, IH2.
Qed.

Lemma no_double_hyphen_tail (c : ascii) (s : string) :
  no_double_hyphen (String c s) = true -> no_double_hyphen s = true.
Proof.
  cbn. destruct s; [reflexivity|]. intros H. now apply andb_prop in H as [_ H].
Qed.

Lemma drop_while_suffix (p : ascii -> bool) (s : string) :
  all_chars slug_safe s = true -> no_double_hyphen s = true ->
  all_chars slug_safe (PyStr.drop_while p s) = true /\
  no_double_hyphen (PyStr.drop_while p s) = true.
Proof.
  induction s as [|c s IH]; cbn [PyStr.drop_while]; [auto|].
  intros Ha Hn. destruct (p c); [|auto].
  cbn in Ha. apply andb_prop in Ha as [_ Ha].
  apply IH; [exact Ha | now apply no_double_hyphen_tail in Hn].
Qed.

Lemma no_double_hyphen_cons (c c' : ascii) (s : string) :
  no_double_hyphen (String c (String c' s))
  = negb (Ascii.eqb c "-" && Ascii.eqb c' "-") && no_double_hyphen (String c' s).
Proof. reflexivity. Qed.

Lemma prefix_safe (a b : string) :
  all_chars slug_safe (a ++ b) = true -> no_double_hyphen (a ++ b) = true ->
  all_chars slug_safe a = true /\ no_double_hyphen a = true.
Proof.
  intros Ha Hn. rewrite all_chars_append in Ha. apply andb_prop in Ha as [Ha _].
  split; [exact Ha|].
  clear Ha. revert Hn. induction a as [|c a IH]; [reflexivity|].
  destruct a as [|c' a]; [reflexivity|].
  cbn [String.append] in *. rewrite !no_double_hyphen_cons.
  intros Hn. apply andb_prop in Hn as [Hc Hn]. now rewrite Hc, IH.
Qed.

Lemma take_prefix (n : nat) (s : string) : exists e, s = PyStr.take n s ++ e.
Proof.
  revert s. induction n as [|n IH]; intros s; [now exists s|].
  destruct s as [|c s]; [now exists ""|].
  destruct (IH s) as (e & He). exists e. cbn. now rewrite <- He.
Qed.

Lemma length_take (n : nat) (s : string) : (String.length (PyStr.take n s) <= n)%nat.
Proof.
  revert s. induction n as [|n IH]; intros s; [cbn; lia|].
  destruct s as [|c s]; cbn; [lia|]. specialize (IH s). lia.
Qed.

Lemma drop_while_start (s : string) :
  starts_with_hyphen (PyStr.drop_while (fun c => PyStr.mem_char c "-") s) = false.
Proof.
  induction s as [|c s IH]; cbn; [reflexivity|].
  destruct (Ascii.eqb c "-") eqn:E; cbn; [exact IH|exact E].
Qed.

Lemma starts_prefix (a b : string) :
  starts_with_hyphen (a ++ b) = false -> a <> "" -> starts_with_hyphen a = false.
Proof. destruct a; [contradiction|auto]. Qed.

(** X1.  A slug is a usable file name whatever the title: never empty, of
    at most 80 characters, made of [a-z], [0-9] and single hyphens only, and
    never starting with a hyphen. *)
Theorem slugify_safe (text : string) :
  let slug := slugify text in
  slug <> "" /\
  (String.length slug <= 80)%nat /\
  all_chars slug_safe slug = true /\
  starts_with_hyphen slug = false /\
  no_double_hyphen slug = true.
Proof.
  unfold slugify. set (h := hyphenate (PyStr.lower text)).
  set (d := PyStr.drop_while (fun c => PyStr.mem_char c "-") h).
  assert (Hh : all_chars slug_safe h = true /\ no_double_hyphen h = true).
  { split; [apply hyphenate_from_safe | apply hyphenate_from_run]. }
  destruct Hh as [Hh1 Hh2].
  destruct (drop_while_suffix (fun c => PyStr.mem_char c "-") h Hh1 Hh2) as [Hd1 Hd2].
  fold d in Hd1, Hd2.
  unfold strip_chars. fold d. set (s := PyStr.rstrip "-" d).
  destruct (rstrip_prefix "-" d) as (e & He). fold s in He.
  rewrite He in Hd1, Hd2. destruct (prefix_safe s e Hd1 Hd2) as [Hs1 Hs2].
  cbn [truthy]. destruct (String.eqb_spec s "") as [Hs|Hs]; cbn [negb].
  - repeat split; try reflexivity; try discriminate. cbn; lia.
  - destruct (take_prefix 80 s) as (e' & He').
    rewrite He' in Hs1, Hs2. destruct (prefix_safe _ e' Hs1 Hs2) as [Ht1 Ht2].
    assert (Hne : PyStr.take 80 s <> "").
    { destruct s; [contradiction|discriminate]. }
    repeat split; auto.
    + apply length_take.
    + apply (starts_prefix _ e'); [|exact Hne]. rewrite <- He'.
      apply (starts_prefix _ e); [|exact Hs].
      rewrite <- He. apply drop_while_start.
Qed.

(* --------------------------------------------------------------------- *)
(** *** [main]: the DOIs, each once *)

Lemma in_set_In (d : string) (seen : list string) :
  in_set d seen = true <-> In d seen.
Proof.
  unfold in_set. rewrite existsb_exists. split.
  - intros (x & Hx & He). apply String.eqb_eq in He. now subst.
  - intros H. exists d. split; [exact H|apply String.eqb_refl].
Qed.

(** The loop, from a state in which [seen] holds the members of [unique]:
    it adds to [unique] the items of [dois] that are new, each once, in the
    order of their first occurrence. *)
Lemma dedup_loop_spec (dois : list string) :
  forall seen unique,
    (forall x, In x seen <-> In x unique) -> NoDup unique ->
    exists added,
      dedup_loop dois seen unique = (unique ++ added)%list /\
      NoDup (unique ++ added) /\
      subsequence added dois /\
      (forall x, In x added <-> In x dois /\ ~ In x unique) /\
      (forall a x b, dois = (a ++ x :: b)%list -> ~ In x a -> ~ In x unique ->
         exists a' b', added = (a' ++ x :: b')%list /\
                       (forall y, In y a' <-> In y a /\ ~ In y unique)).
Proof.
  induction dois as [|d rest IH]; intros seen unique Hseen Hnd; cbn [dedup_loop].
  - exists []. rewrite app_nil_r.
    split; [reflexivity|]. split; [exact Hnd|]. split; [constructor|]. split.
    + intros x. cbn. tauto.
    + intros a x b H. destruct a; discriminate.
  - destruct (in_set d seen) eqn:E.
    + apply in_set_In in E. apply Hseen in E.
      destruct (IH seen unique Hseen Hnd)
        as (added & Heq & Hnd' & Hsub & Hin & Hfirst).
      exists added.
      split; [exact Heq|]. split; [exact Hnd'|]. split; [now constructor|]. split.
      * intros x. rewrite Hin. cbn. split; [tauto|].
        intros [[<-|Hx] Hn]; [contradiction|tauto].
      * intros a x b Hl Hxa Hxu. destruct a as [|a0 a]; cbn in Hl.
        -- injection Hl as -> _. contradiction.
        -- injection Hl as -> Hl.
           destruct (Hfirst a x b Hl) as (a' & b' & -> & Ha'); auto.
           { intros H. apply Hxa. now right. }
           exists a', b'. split; [reflexivity|].
           intros y. rewrite Ha'. cbn. split; [tauto|].
           intros [[<-|Hy] Hn]; [contradiction|tauto].
    + assert (Hd : ~ In d unique).
      { intros H. apply Hseen in H. apply in_set_In in H. congruence. }
      destruct (IH (d :: seen) (append unique d))
        as (added & Heq & Hnd' & Hsub & Hin & Hfirst).
      * intros x. unfold append. rewrite in_app_iff. cbn. rewrite Hseen. tauto.
      * unfold append. apply NoDup_app; auto.
        -- repeat constructor. intros [].
        -- intros x Hx [<-|[]]. contradiction.
      * unfold append in *. rewrite <- app_assoc in Heq, Hnd'. cbn [app] in *.
        assert (Hin' : forall x, In x added <-> In x rest /\ ~ In x unique /\ x <> d).
        { intros x. rewrite Hin, in_app_iff. cbn. split.
          - intros [Hx Hn]. split; [exact Hx|]. split; [tauto|]. intros ->. tauto.
          - intros (Hx & Hn & Hne). split; [exact Hx|].
            intros [Hu|[->|[]]]; tauto. }
        exists (d :: added).
        split; [exact Heq|]. split; [exact Hnd'|]. split; [now constructor|]. split.
        -- intros x. cbn. rewrite Hin'. split.
           ++ intros [<-|(Hx & Hn & _)]; tauto.
           ++ intros [[<-|Hx] Hn]; [now left|].
              destruct (string_dec d x) as [<-|Hne]; [now left|]. right.
              repeat split; auto.
        -- intros a x b Hl Hxa Hxu. destruct a as [|a0 a]; cbn in Hl.
           ++ injection Hl as -> _. exists [], added. split; [reflexivity|].
              intros y. cbn. tauto.
           ++ injection Hl as -> Hl.
              destruct (Hfirst a x b Hl) as (a' & b' & -> & Ha').
              { intros H. apply Hxa. now right. }
              { intros Hu. apply in_app_or in Hu as [Hu|[->|[]]]; [contradiction|].
                apply Hxa. now left. }
              exists (a0 :: a'), b'. split; [reflexivity|].
              intros y. cbn. rewrite Ha'. rewrite in_app_iff. cbn. split.
              ** intros [<-|[Hy Hn]]; tauto.
              ** intros [[<-|Hy] Hn]; [now left|].
                 destruct (string_dec a0 y) as [<-|Hne]; [now left|]. right.
                 split; [exact Hy|]. intros [Hu|[->|[]]]; tauto.
Qed.

(** X2.  The DOIs [main] goes on with are the DOIs it resolved, each once, in
    the order of their first occurrence: no repeat, the same members, a
    subsequence of the list, every item standing after exactly the distinct
    items that came before its first occurrence; and a second pass changes
    nothing. *)
Theorem deduplicate_first_seen (dois : list string) :
  NoDup (deduplicate dois) /\
  (forall x, In x (deduplicate dois) <-> In x dois) /\
  subsequence (deduplicate dois) dois /\
  (forall a x b, dois = (a ++ x :: b)%list -> ~ In x a ->
     exists a' b', deduplicate dois = (a' ++ x :: b')%list /\
                   (forall y, In y a' <-> In y a)) /\
  deduplicate (deduplicate dois) = deduplicate dois.
Proof.
  unfold deduplicate.
  destruct (dedup_loop_spec dois [] []) as (added & Heq & Hnd & Hsub & Hin & Hfirst);
    [tauto | constructor |].
  cbn [app] in Heq, Hnd. rewrite Heq.
  assert (Hmem : forall x, In x added <-> In x dois).
  { intros x. rewrite Hin. cbn. tauto. }
  split; [exact Hnd|]. split; [exact Hmem|]. split; [exact Hsub|]. split.
  - intros a x b Hl Hx.
    destruct (Hfirst a x b Hl Hx) as (a' & b' & -> & Ha'); [tauto|].
    exists a', b'. split; [reflexivity|]. intros y. rewrite Ha'. cbn. tauto.
  - (* nothing goes from a list without repeats *)
    clear - Hnd.
    assert (Hgen : forall l seen unique,
              (forall x, In x seen <-> In x unique) -> NoDup (unique ++ l) ->
              dedup_loop l seen unique = (unique ++ l)%list).
    { induction l as [|d l IH]; intros seen unique Hs Hn; cbn [dedup_loop].
      - now rewrite app_nil_r.
      - destruct (in_set d seen) eqn:E.
        + exfalso. apply in_set_In in E. apply Hs in E.
          apply NoDup_remove_2 in Hn. apply Hn. apply in_or_app. now left.
        + rewrite IH.
          * unfold append. now rewrite <- app_assoc.
          * intros x. unfold append. rewrite in_app_iff. cbn. rewrite Hs. tauto.
          * unfold append. now rewrite <- app_assoc. }
    apply (Hgen added [] []); [tauto|exact Hnd].
Qed.

(* --------------------------------------------------------------------- *)
(** *** The ledger of the rate limiter *)

Lemma check_rate_limit_outcome (now : float) (ledger : option (list float)) :
  snd (check_rate_limit now ledger) =
  if MAX_REQUESTS_PER_HOUR <=? Z.of_nat (List.length (pruned_ledger now ledger))
  then SystemExit 1 else Returned.
Proof.
  unfold check_rate_limit, pruned_ledger.
  destruct (prune now 3600 _) as [|t ts] eqn:Hp; [reflexivity|].
  destruct (MAX_REQUESTS_PER_HOUR <=? _); reflexivity.
Qed.

Lemma prune_length_le (now now' : float) (ts : list float) :
  (forall t, In t ts ->
     PrimFloat.ltb (PrimFloat.sub now' t) 3600 = true ->
     PrimFloat.ltb (PrimFloat.sub now t) 3600 = true) ->
  (List.length (prune now' 3600 ts) <= List.length (prune now 3600 ts))%nat.
Proof.
  induction ts as [|t ts IH]; intros H; cbn [prune filter]; [lia|].
  assert (IH' : (List.length (prune now' 3600 ts) <= List.length (prune now 3600 ts))%nat).
  { apply IH. intros t' Ht'. apply H. now right. }
  unfold prune in *.
  destruct (PrimFloat.ltb (PrimFloat.sub now' t) 3600) eqn:E.
  - rewrite (H t (or_introl eq_refl) E). cbn. lia.
  - destruct (PrimFloat.ltb (PrimFloat.sub now t) 3600); cbn; lia.
Qed.

(** X3.  The gate ends the invocation exactly when the pruned ledger has reached
    the hourly ceiling; and a ledger written after a passed gate, at a time
    at which no entry has come back into the window, holds at most the
    ceiling of timestamps: the entries still in the window, in their order,
    and the new one last. *)
Theorem ledger_bounded (now now' : float) (ledger : option (list float)) :
  (snd (check_rate_limit now ledger) = SystemExit 1 <->
   MAX_REQUESTS_PER_HOUR <= Z.of_nat (List.length (pruned_ledger now ledger))) /\
  (snd (check_rate_limit now ledger) = Returned <->
   Z.of_nat (List.length (pruned_ledger now ledger)) < MAX_REQUESTS_PER_HOUR) /\
  record_request now' ledger = (pruned_ledger now' ledger ++ [now'])%list /\
  (snd (check_rate_limit now ledger) = Returned ->
   (forall t, In t (match ledger with Some ts => ts | None => [] end) ->
      PrimFloat.ltb (PrimFloat.sub now' t) 3600 = true ->
      PrimFloat.ltb (PrimFloat.sub now t) 3600 = true) ->
   Z.of_nat (List.length (record_request now' ledger)) <= MAX_REQUESTS_PER_HOUR).
Proof.
  rewrite check_rate_limit_outcome.
  destruct (Z.leb_spec MAX_REQUESTS_PER_HOUR
              (Z.of_nat (List.length (pruned_ledger now ledger)))) as [Hge|Hlt].
  - split; [tauto|]. split; [split; [discriminate|lia]|]. split; [reflexivity|].
    discriminate.
  - split; [split; [discriminate|lia]|]. split; [tauto|]. split; [reflexivity|].
    intros _ Hclock. unfold record_request, append. rewrite length_app. cbn [List.length].
    pose proof (prune_length_le now now' _ Hclock) as Hle.
    unfold pruned_ledger in Hlt. lia.
Qed.

Lemma ledger_bounded_witness :
  Z.of_nat (List.length (record_request 1010 (Some [100; 998]%float)))
  <= MAX_REQUESTS_PER_HOUR.
Proof.
  apply (proj2 (proj2 (proj2 (ledger_bounded 1000 1010 (Some [100; 998]%float))))).
  - reflexivity.
  - intros t [<-|[<-|[]]]; reflexivity.
Defined.

(* --------------------------------------------------------------------- *)
(** *** The cost of a call of the transport *)

Lemma retry_loop_cons (net : network) (retries a : Z) (rest : list Z) :
  retry_loop net retries (a :: rest) =
  let '(slept, c) := loop_body net retries a in
  match c with
  | Return v => ((request net a ++ slept)%list, Ok v)
  | Continue =>
      let '(trace, r) := retry_loop net retries rest in
      ((request net a ++ slept) ++ trace, r)%list
  end.
Proof. reflexivity. Qed.

Lemma count_app (p : event -> bool) (a b : list event) :
  count p (a ++ b) = count p a + count p b.
Proof. unfold count. rewrite filter_app, length_app. lia. Qed.

Lemma count_request (net : network) (a : Z) :
  0 <= count is_request (request net a) <= 1 /\
  count is_sleep (request net a) = 0 /\
  (sends net -> count is_request (request net a) = 1).
Proof.
  unfold request, sends. destruct (net a) as [e|r] eqn:E; cbn.
  - split; [lia|]. split; [reflexivity|]. intros H.
    destruct (H a) as (r & Hr). congruence.
  - split; [lia|]. auto.
Qed.

(** The attempts [first .. retries] of a call: a sleep after each but the
    last, and at most one request in each. *)
Lemma retry_loop_counts (net : network) (retries : nat) :
  forall (k first : nat),
    (first + k)%nat = retries ->
    let trace :=
      fst (retry_loop net (Z.of_nat retries) (map Z.of_nat (seq first (S k)))) in
    count is_sleep trace <= Z.of_nat k /\
    count is_request trace <= count is_sleep trace + 1 /\
    (sends net -> count is_request trace = count is_sleep trace + 1).
Proof.
  induction k as [|k IH]; intros first Hk.
  - cbn [seq map]. rewrite retry_loop_cons, loop_body_classify.
    rewrite Nat.add_0_r in Hk. subst first. rewrite Z.ltb_irrefl.
    destruct (count_request net (Z.of_nat retries)) as (Hr & Hs & Hsend).
    destruct (classify net (Z.of_nat retries)); cbn [retry_loop fst];
      rewrite ?app_nil_r; cbv zeta; rewrite Hs;
      (split; [lia|split; [lia|intros H; rewrite (Hsend H); lia]]).
  - change (seq first (S (S k))) with (first :: seq (S first) (S k)).
    rewrite map_cons, retry_loop_cons, loop_body_classify.
    assert (Hlt : (Z.of_nat first <? Z.of_nat retries) = true)
      by (apply Z.ltb_lt; lia).
    rewrite Hlt.
    specialize (IH (S first) ltac:(lia)). cbv zeta in IH.
    destruct (count_request net (Z.of_nat first)) as (Hr & Hs & Hsend).
    destruct (classify net (Z.of_nat first));
      try (cbn [fst]; cbv zeta; rewrite ?app_nil_r, Hs;
           split; [lia|split; [lia|intros H; rewrite (Hsend H); lia]]);
      destruct (retry_loop net (Z.of_nat retries) _) as [trace r];
      cbn [fst] in *; cbv zeta; rewrite !count_app, Hs;
      change (count is_sleep [SleepUniform 3 8]) with 1;
      change (count is_request [SleepUniform 3 8]) with 0;
      change (count is_sleep [Sleep 2]) with 1;
      change (count is_request [Sleep 2]) with 0;
      destruct IH as (I1 & I2 & I3);
      (split; [lia|split; [lia|intros H; rewrite (Hsend H), (I3 H); lia]]).
Qed.

(** When [_get_proxy()] raises every time, no request is made. *)
Lemma retry_loop_unsent (net : network) (e : exn) (retries : Z) (attempts : list Z) :
  proxy_raises e net ->
  count is_request (fst (retry_loop net retries attempts)) = 0.
Proof.
  intros He. induction attempts as [|a rest IH]; [reflexivity|].
  rewrite retry_loop_cons, loop_body_classify. unfold classify, request.
  rewrite (He a).
  destruct (a <? retries); destruct (retry_loop net retries rest) as [trace r];
    cbn [fst app] in *; rewrite ?count_app; exact IH.
Qed.


(* --------------------------------------------------------------------- *)
(** *** Proxies *)

(** X5.  [_get_proxy] loads the configuration first: when reading the file
    raises an exception that [_load_proxy_config] does not catch, as a file
    that is not valid UTF-8 does, [_get_proxy] raises it, whatever the
    force.  Otherwise it gives no proxy when proxies are forced off; when
    the file is missing, unreadable or not JSON, even if they are forced on;
    and, without a force, whenever the value of [enabled] in the file is
    falsy, [false] as much as a missing key.  Without a force, a file whose
    content is no JSON object makes it raise [AttributeError].  And a proxy
    it gives serves both schemes with one and the same URL, an item of the
    configured pool. *)
Theorem proxy_opt_in (force : option bool) (file : config_file) (draw : Z -> nat) :
  (forall e, file = Broken e -> _get_proxy force file draw = Raise e) /\
  (force = Some false -> (forall e, file <> Broken e) ->
     _get_proxy force file draw = Ok VNone) /\
  (file = Absent -> _get_proxy force file draw = Ok VNone) /\
  (forall d, force = None -> file = Parsed (VDict d) ->
     truthy (field d "enabled" (VBool false)) = false ->
     _get_proxy force file draw = Ok VNone) /\
  (forall config, force = None -> file = Parsed config ->
     (forall d, config <> VDict d) ->
     _get_proxy force file draw = Raise AttributeError) /\
  (forall d pool proxy,
     file = Parsed (VDict d) -> lookup "proxies" d = Some (VList pool) ->
     _get_proxy force file draw = Ok proxy ->
     proxy = VNone \/
     exists url, In url pool /\ proxy = VDict [("http", url); ("https", url)]).
Proof.
  split; [|split; [|split; [|split; [|split]]]].
  - intros e ->. reflexivity.
  - intros -> Hfile. destruct file as [|e|config]; [reflexivity| |reflexivity].
    now destruct (Hfile e).
  - intros ->. destruct force as [[|]|]; reflexivity.
  - intros d -> -> Hd. unfold _get_proxy, field in *. cbn. now rewrite Hd.
  - intros config -> -> Hconfig. unfold _get_proxy. cbn [_load_proxy_config bind].
    destruct config as [| | | | | |d]; try reflexivity.
    now destruct (Hconfig d).
  - intros d pool proxy -> Hp. unfold _get_proxy. cbn [_load_proxy_config bind].
    destruct (match force with Some b => Ok (VBool b) | None => _ end) as [enabled|];
      cbn [bind]; [|discriminate].
    destruct (truthy enabled); cbn [negb]; [|intros [= <-]; now left].
    cbn [get]. rewrite Hp. cbn [bind].
    destruct (truthy (VList pool)); cbn [negb]; [|intros [= <-]; now left].
    cbn [len bind item].
    destruct (nth_error pool (draw (Z.of_nat (List.length pool)))) as [url|] eqn:E;
      cbn [bind]; [|discriminate].
    intros [= <-]. right. exists url. split; [|reflexivity].
    eapply nth_error_In; eauto.
Qed.

Lemma proxy_opt_in_witness :
  _get_proxy None
    (Parsed (VDict [("enabled", VBool false); ("proxies", VList [VStr "http://a:8080"])]))
    (fun _ => 0%nat) = Ok VNone /\
  _get_proxy (Some true) (Broken ValueError) (fun _ => 0%nat) = Raise ValueError /\
  (VDict [("http", VStr "socks5://b:1080"); ("https", VStr "socks5://b:1080")] = VNone \/
   exists url, In url [VStr "http://a:8080"; VStr "socks5://b:1080"] /\
     VDict [("http", VStr "socks5://b:1080"); ("https", VStr "socks5://b:1080")]
     = VDict [("http", url); ("https", url)]).
Proof.
  split; [|split].
  - apply (proj1 (proj2 (proj2 (proj2 (proxy_opt_in None
             (Parsed (VDict [("enabled", VBool false);
                             ("proxies", VList [VStr "http://a:8080"])]))
             (fun _ => 0%nat)))))
           [("enabled", VBool false); ("proxies", VList [VStr "http://a:8080"])]);
      reflexivity.
  - apply (proj1 (proxy_opt_in (Some true) (Broken ValueError) (fun _ => 0%nat))
             ValueError).
    reflexivity.
  - apply (proj2 (proj2 (proj2 (proj2 (proj2 (proxy_opt_in (Some true)
             (Parsed (VDict [("proxies",
                              VList [VStr "http://a:8080"; VStr "socks5://b:1080"])]))
             (fun _ => 1%nat))))))
           [("proxies", VList [VStr "http://a:8080"; VStr "socks5://b:1080"])]
           [VStr "http://a:8080"; VStr "socks5://b:1080"]);
      reflexivity.
Defined.

(* --------------------------------------------------------------------- *)
(** *** [fetch_pubpeer] *)

Lemma pubpeer_loop_first (doi : string) (feedbacks : list value) (fb : value) :
  pubpeer_loop doi feedbacks = Ok fb ->
  (fb = VNone /\ Forall (fun x => ~ feedback_for doi x) feedbacks) \/
  (exists before after,
     feedbacks = (before ++ fb :: after)%list /\
     feedback_for doi fb /\ Forall (fun x => ~ feedback_for doi x) before).
Proof.
  induction feedbacks as [|x rest IH]; cbn [pubpeer_loop].
  - intros [= <-]. left. split; [reflexivity|constructor].
  - destruct (get x "id" (VStr "")) as [id|] eqn:Hid; cbn [bind]; [|discriminate].
    destruct id; cbn [lower bind]; try discriminate.
    destruct (String.eqb_spec (PyStr.lower s) (PyStr.lower doi)) as [He|Hne].
    + intros [= <-]. right. exists [], rest. split; [reflexivity|].
      split; [exists s; auto | constructor].
    + assert (Hx : ~ feedback_for doi x).
      { intros (id & Hg & Hl). rewrite Hid in Hg. injection Hg as ->. contradiction. }
      intros H. destruct (IH H) as [[-> Hall]|(before & after & -> & Hfb & Hall)].
      * left. split; [reflexivity|now constructor].
      * right. exists (x :: before), after. split; [reflexivity|].
        split; [exact Hfb|now constructor].
Qed.

Lemma chars_are_str (s : string) (x : value) :
  In x (chars s) -> is_dict x = false.
Proof.
  induction s as [|c s IH]; cbn; [contradiction|]. intros [<-|H]; auto.
Qed.

Lemma feedback_is_dict (doi : string) (fb : value) :
  feedback_for doi fb -> is_dict fb = true.
Proof. intros (id & Hg & _). destruct fb; try discriminate. reflexivity. Qed.

(** X6.  [fetch_pubpeer] never hands back a feedback on another paper: what it
    returns is [None], or a feedback of the response whose id is the queried
    DOI up to case, and then the first such one. *)
Theorem fetch_pubpeer_matches (net : network) (doi : string) (fb : value) :
  snd (fetch_pubpeer net doi) = Ok fb ->
  fb = VNone \/
  (feedback_for doi fb /\
   exists data before after,
     snd (_post net 2) = Ok data /\
     getitem data "feedbacks" = Ok (VList (before ++ fb :: after)) /\
     Forall (fun x => ~ feedback_for doi x) before).
Proof.
  unfold fetch_pubpeer, io_bind, call.
  destruct (_post net 2) as [trace [data|e]]; cbn [fst snd pure]; [|discriminate].
  destruct (truthy data); cbn [snd]; [|intros [= <-]; now left].
  destruct (get data "feedbacks" VNone) as [f|]; cbn [bind]; [|discriminate].
  destruct (truthy f); [|intros [= <-]; now left].
  destruct (getitem data "feedbacks") as [fbs|] eqn:Hf; cbn [bind]; [|discriminate].
  destruct (iter fbs) as [items|] eqn:Hi; cbn [bind]; [|discriminate].
  intros H. destruct (pubpeer_loop_first doi items fb H)
    as [[-> _]|(before & after & -> & Hfb & Hall)]; [now left|].
  right. split; [exact Hfb|].
  pose proof (feedback_is_dict doi fb Hfb) as Hd.
  destruct fbs; cbn in Hi; try discriminate; injection Hi as Hi.
  - exfalso. assert (Hin : In fb (chars s)) by (rewrite Hi; apply in_elt).
    apply chars_are_str in Hin. congruence.
  - exists data, before, after. split; [reflexivity|]. split; [congruence|exact Hall].
  - exfalso. assert (Hin : In fb (map (fun kv => VStr (fst kv)) d))
      by (rewrite Hi; apply in_elt).
    apply in_map_iff in Hin as (kv & <- & _). discriminate.
Qed.

Lemma fetch_pubpeer_matches_witness :
  feedback_for "10.1234/abc"
    (VDict [("id", VStr "10.1234/ABC"); ("total_comments", VInt 2)]).
Proof.
  destruct (fetch_pubpeer_matches (answering pubpeer_answer) "10.1234/abc"
              (VDict [("id", VStr "10.1234/ABC"); ("total_comments", VInt 2)])
              eq_refl) as [H|[H _]].
  - discriminate H.
  - exact H.
Defined.

(* --------------------------------------------------------------------- *)
(** *** [fetch_pubmed_pmc] *)

Lemma pmc_db_loop_found (dbs : list value) (l : value) :
  pmc_db_loop dbs = Ok (Some l) -> exists db, In db dbs /\ pmc_db db l.
Proof.
  induction dbs as [|db rest IH]; cbn [pmc_db_loop]; [discriminate|].
  destruct (get db "dbto" VNone) as [dbto|] eqn:Hto; cbn [bind]; [|discriminate].
  destruct (eq_str dbto "pmc") eqn:Hpmc.
  - destruct (get db "links" (VList [])) as [links|] eqn:Hl; cbn [bind]; [|discriminate].
    destruct (truthy links).
    + destruct (first links) as [x|] eqn:Hx; cbn [bind]; [|discriminate].
      intros [= <-]. exists db. split; [now left|]. now exists dbto, links.
    + intros H. destruct (IH H) as (db' & Hin & Hdb). exists db'. split; [now right|auto].
  - intros H. destruct (IH H) as (db' & Hin & Hdb). exists db'. split; [now right|auto].
Qed.

Lemma pmc_linkset_loop_found (linksets : list value) (l : value) :
  pmc_linkset_loop linksets = Ok (Some l) ->
  exists linkset dbs db,
    In linkset linksets /\ get linkset "linksetdbs" (VList []) = Ok dbs /\
    (exists items, iter dbs = Ok items /\ In db items) /\ pmc_db db l.
Proof.
  induction linksets as [|ls rest IH]; cbn [pmc_linkset_loop]; [discriminate|].
  destruct (get ls "linksetdbs" (VList [])) as [dbs|] eqn:Hd; cbn [bind]; [|discriminate].
  destruct (iter dbs) as [items|] eqn:Hi; cbn [bind]; [|discriminate].
  destruct (pmc_db_loop items) as [[x|]|] eqn:Hloop; cbn [bind]; [| |discriminate].
  - intros [= <-]. destruct (pmc_db_loop_found items x Hloop) as (db & Hin & Hdb).
    exists ls, dbs, db. split; [now left|]. split; [exact Hd|]. split; [eauto|exact Hdb].
  - intros H. destruct (IH H) as (ls' & dbs' & db & Hin & H1 & H2 & H3).
    exists ls', dbs', db. split; [now right|auto].
Qed.

(** X7.  A PubMed Central id that [fetch_pubmed_pmc] returns is the first link of
    a link database of the response whose target is exactly [pmc]. *)
Theorem fetch_pubmed_pmc_link (net : network) (l : value) :
  snd (fetch_pubmed_pmc net) = Ok l ->
  l = VNone \/
  exists data linksets linkset dbs db,
    snd (_get net 2) = Ok data /\
    get data "linksets" (VList []) = Ok linksets /\
    (exists items, iter linksets = Ok items /\ In linkset items) /\
    get linkset "linksetdbs" (VList []) = Ok dbs /\
    (exists items, iter dbs = Ok items /\ In db items) /\
    pmc_db db l.
Proof.
  unfold fetch_pubmed_pmc, io_bind, call.
  destruct (_get net 2) as [trace [data|e]]; cbn [fst snd pure]; [|discriminate].
  destruct (truthy data); cbn [snd]; [|intros [= <-]; now left].
  destruct (get data "linksets" (VList [])) as [linksets|] eqn:Hl; cbn [bind];
    [|discriminate].
  destruct (iter linksets) as [items|] eqn:Hi; cbn [bind]; [|discriminate].
  destruct (pmc_linkset_loop items) as [[x|]|] eqn:Hloop; cbn [bind];
    [| |discriminate]; intros [= <-]; [|now left].
  right. destruct (pmc_linkset_loop_found items x Hloop)
    as (ls & dbs & db & Hin & H1 & H2 & H3).
  exists data, linksets, ls, dbs, db.
  split; [reflexivity|]. split; [exact Hl|]. split; [eauto|]. auto.
Qed.

Lemma fetch_pubmed_pmc_link_witness :
  exists db, pmc_db db (VStr "7654321").
Proof.
  destruct (fetch_pubmed_pmc_link (answering elink_answer) (VStr "7654321") eq_refl)
    as [H|(data & linksets & linkset & dbs & db & _ & _ & _ & _ & _ & H)].
  - discriminate H.
  - exists db. exact H.
Defined.

(* --------------------------------------------------------------------- *)
(** *** [aggregate_paper_data] *)

Lemma snd_io_bind {A B : Type} (m : io A) (k : A -> io B) :
  snd (io_bind m k) = (a <- snd m ;; snd (k a)).
Proof.
  destruct m as [trace [a|e]]; cbn; [|reflexivity].
  destruct (k a). reflexivity.
Qed.

Lemma set_key_new (k : string) (v : value) (d : list (string * value)) :
  ~ In k (keys d) -> set_key k v d = (d ++ [(k, v)])%list.
Proof.
  induction d as [|[k' x] d IH]; cbn; [reflexivity|].
  intros H. destruct (String.eqb_spec k k') as [->|Hne]; [tauto|].
  rewrite IH; [reflexivity|tauto].
Qed.

Lemma set_key_In (k : string) (v : value) (d : list (string * value)) :
  In k (keys (set_key k v d)).
Proof.
  induction d as [|[k' x] d IH]; cbn; [now left|].
  destruct (String.eqb_spec k k') as [->|Hne]; cbn; auto.
Qed.

Lemma set_key_keeps (k k' : string) (v : value) (d : list (string * value)) :
  In k' (keys d) -> In k' (keys (set_key k v d)).
Proof.
  induction d as [|[k0 x] d IH]; cbn; [tauto|].
  destruct (String.eqb_spec k k0) as [->|Hne]; cbn; tauto.
Qed.

Lemma subsequence_In {A : Type} (xs ys : list A) (x : A) :
  subsequence xs ys -> In x xs -> In x ys.
Proof.
  induction 1; cbn; [tauto| |]; intros H'; [right; auto|].
  destruct H' as [->|H']; [now left|right; auto].
Qed.

Lemma subsequence_nil_l {A : Type} (ys : list A) : subsequence [] ys.
Proof. induction ys; constructor; auto. Qed.

Lemma subsequence_app {A : Type} (xs ys xs' ys' : list A) :
  subsequence xs ys -> subsequence xs' ys' -> subsequence (xs ++ xs') (ys ++ ys').
Proof.
  induction 1; cbn; intros H'; [exact H' | apply subsequence_skip | apply subsequence_take];
    auto.
Qed.

(** One stage of the pass: a stage adds at most the key [k], which comes
    after every key so far in the order [names = before ++ k :: after]. *)
Lemma stage_keeps (names before after : list string) (k : string) (v : value)
    (d : list (string * value)) (P : string * value -> Prop) :
  names = (before ++ k :: after)%list -> NoDup names ->
  subsequence (keys d) before -> Forall P d -> P (k, v) ->
  subsequence (keys (set_key k v d)) (before ++ [k]) /\ Forall P (set_key k v d).
Proof.
  intros Hn Hnd Hs HP Hk.
  assert (Hnew : ~ In k (keys d)).
  { intros H. apply (subsequence_In _ _ _ Hs) in H. subst names.
    apply NoDup_remove_2 in Hnd. apply Hnd. apply in_or_app. now left. }
  rewrite (set_key_new k v d Hnew). unfold keys. rewrite map_app. cbn [map fst].
  split.
  - apply subsequence_app; [exact Hs|]. apply subsequence_take. constructor.
  - apply Forall_app. split; [exact HP|]. now constructor.
Qed.

Lemma subsequence_extend {A : Type} (xs ys zs : list A) :
  subsequence xs ys -> subsequence xs (ys ++ zs).
Proof.
  intros H. rewrite <- (app_nil_r xs). apply subsequence_app; [exact H|].
  apply subsequence_nil_l.
Qed.

Lemma source_names_NoDup : NoDup source_names.
Proof. repeat constructor; cbn; intuition discriminate. Qed.

Lemma field_names_NoDup : NoDup field_names.
Proof. repeat constructor; cbn; intuition discriminate. Qed.

Lemma staged_source (doi : string) (sn fn after : list string) (k : string)
    (v : value) (report : list (string * value)) :
  source_names = (sn ++ k :: after)%list ->
  staged doi sn fn report ->
  staged doi (sn ++ [k]) fn (if truthy v then set_source k v report else report).
Proof.
  intros Hn (s & f & -> & Hs & Ht & Hf & Hfi & Hp).
  destruct (truthy v) eqn:Hv.
  - destruct (stage_keeps source_names sn after k v s truthy_item Hn
                source_names_NoDup Hs Ht Hv) as [Hs' Ht'].
    exists (set_key k v s), f. repeat split; auto.
  - exists s, f. repeat split; auto. now apply subsequence_extend.
Qed.

Lemma set_field (k : string) (v : value) (doi : string) (s f : list (string * value)) :
  k <> "doi" -> k <> "sources" ->
  set_key k v (("doi", VStr doi) :: ("sources", VDict s) :: f)
  = ("doi", VStr doi) :: ("sources", VDict s) :: set_key k v f.
Proof.
  intros H1 H2. cbn [set_key].
  destruct (String.eqb_spec k "doi"); [contradiction|].
  destruct (String.eqb_spec k "sources"); [contradiction|]. reflexivity.
Qed.

Lemma staged_field (doi : string) (sn fn after : list string) (k : string)
    (v : value) (report : list (string * value)) :
  field_names = (fn ++ k :: after)%list ->
  k <> "pmc_id" \/ In "pmid" (keys (set_key k v report)) ->
  field_item (k, v) ->
  staged doi sn fn report ->
  staged doi sn (fn ++ [k]) (set_key k v report).
Proof.
  intros Hn Hpmc Hv (s & f & -> & Hs & Ht & Hf & Hfi & Hp).
  assert (Hk : k <> "doi" /\ k <> "sources").
  { assert (Hin : In k field_names) by (rewrite Hn; apply in_elt).
    cbn in Hin. intuition (subst; discriminate). }
  rewrite set_field in * by tauto.
  destruct (stage_keeps field_names fn after k v f field_item Hn
              field_names_NoDup Hf Hfi Hv) as [Hf' Hfi'].
  exists s, (set_key k v f). repeat split; auto.
  assert (Hnew : ~ In k (keys f)).
  { intros H. apply (subsequence_In _ _ _ Hf) in H.
    pose proof field_names_NoDup as Hnd. rewrite Hn in Hnd.
    apply NoDup_remove_2 in Hnd. apply Hnd. apply in_or_app. now left. }
  rewrite (set_key_new k v f Hnew) in *. unfold keys in *. rewrite map_app in *.
  cbn [map fst] in *. intros Hin. apply in_or_app.
  apply in_app_or in Hin as [Hin|[Hin|[]]]; [left; auto|].
  destruct Hpmc as [Hpmc|Hpmc]; [now subst k|].
  cbn [In] in Hpmc. destruct Hpmc as [Hpmc|[Hpmc|Hpmc]]; try discriminate.
  rewrite map_app in Hpmc. apply in_app_or in Hpmc as [Hpmc|[Hpmc|[]]]; [now left|].
  cbn in Hpmc. subst k. discriminate.
Qed.

Lemma staged_wider (doi : string) (sn fn fn' : list string)
    (report : list (string * value)) :
  staged doi sn fn report -> staged doi sn (fn ++ fn') report.
Proof.
  intros (s & f & -> & Hs & Ht & Hf & Hfi & Hp).
  exists s, f. repeat split; auto. now apply subsequence_extend.
Qed.

Ltac io_step :=
  rewrite snd_io_bind; cbn [snd say _polite_delay pure bind].

Ltac io_fetch name :=
  rewrite snd_io_bind;
  match goal with
  | |- (bind ?m _ = _ -> _) => destruct m as [name|]; cbn [bind]; [|discriminate]
  end.

(** X8.  Whatever the services answer, a report that [aggregate_paper_data]
    returns starts with the DOI and the sources; the sources are those that
    answered, in the order crossref, openalex, semantic_scholar, europepmc,
    pubpeer, none of them empty; the fields after them come in the order
    pmid, pmc_id, hypothesis_annotations, recommendations; the annotation
    count is always there, the others only when they hold something, and a
    PubMed Central id only beside a PubMed id. *)
Theorem aggregate_well_formed (w : world) (doi : string) (report : value) :
  snd (aggregate_paper_data w doi) = Ok report ->
  well_formed_report doi report.
Proof.
  unfold aggregate_paper_data. cbv zeta.
  set (r0 := [("doi", VStr doi); ("sources", VDict [])]).
  assert (H0 : staged doi [] [] r0).
  { exists [], []. repeat split; try constructor. intros []. }
  clearbody r0.
  io_step. io_fetch cr.
  set (r1 := if truthy cr then _ else _).
  assert (H1 : staged doi ["crossref"] [] r1)
    by (apply (staged_source doi [] [] _ "crossref" cr r0 eq_refl H0)).
  clearbody r1. clear H0 r0.
  io_step. io_step. io_step. io_fetch oa.
  set (r2 := if truthy oa then _ else _).
  assert (H2 : staged doi ["crossref"; "openalex"] [] r2)
    by (apply (staged_source doi ["crossref"] [] _ "openalex" oa r1 eq_refl H1)).
  clearbody r2. clear H1 r1.
  io_step. io_step. io_step. io_fetch ss.
  set (r3 := if truthy ss then set_source _ _ _ else _).
  assert (H3 : staged doi ["crossref"; "openalex"; "semantic_scholar"] [] r3)
    by (apply (staged_source doi ["crossref"; "openalex"] [] _ "semantic_scholar"
                 ss r2 eq_refl H2)).
  clearbody r3. clear H2 r2.
  io_step. io_step. io_step. io_fetch pmid.
  rewrite snd_io_bind.
  match goal with
  | |- (bind ?m _ = _ -> _) => destruct m as [r4|] eqn:E4; cbn [bind]; [|discriminate]
  end.
  assert (H4 : staged doi ["crossref"; "openalex"; "semantic_scholar"]
                 ["pmid"; "pmc_id"] r4).
  { destruct (truthy pmid) eqn:Hpmid.
    - rewrite snd_io_bind in E4.
      destruct (snd (fetch_pubmed_pmc _)) as [pmc|]; cbn [bind snd pure] in E4;
        [|discriminate].
      injection E4 as <-.
      assert (Hp : staged doi ["crossref"; "openalex"; "semantic_scholar"] ["pmid"]
                     (set_key "pmid" pmid r3)).
      { apply (staged_field doi _ [] _ "pmid" pmid r3 eq_refl); auto.
        - left. discriminate.
        - right. exact Hpmid. }
      destruct (truthy pmc) eqn:Hpmc.
      + apply (staged_field doi _ ["pmid"] _ "pmc_id" pmc _ eq_refl); auto.
        * right. apply set_key_keeps, set_key_In.
        * right. exact Hpmc.
      + now apply (staged_wider doi _ ["pmid"] ["pmc_id"]).
    - cbn [snd pure] in E4. injection E4 as <-.
      now apply (staged_wider doi _ [] ["pmid"; "pmc_id"]). }
  clear H3 E4 r3.
  io_step. io_step. io_step. io_fetch epmc.
  set (r5 := if truthy epmc then _ else _).
  assert (H5 : staged doi ["crossref"; "openalex"; "semantic_scholar"; "europepmc"]
                 ["pmid"; "pmc_id"] r5)
    by (apply (staged_source doi ["crossref"; "openalex"; "semantic_scholar"] _ _
                 "europepmc" epmc r4 eq_refl H4)).
  clearbody r5. clear H4 r4.
  io_step. io_step. io_step. io_fetch pp.
  set (r6 := if truthy pp then _ else _).
  assert (H6 : staged doi source_names ["pmid"; "pmc_id"] r6)
    by (apply (staged_source doi ["crossref"; "openalex"; "semantic_scholar"; "europepmc"]
                 _ _ "pubpeer" pp r5 eq_refl H5)).
  clearbody r6. clear H5 r5.
  io_step. io_step. io_step. io_fetch hyp.
  set (r7 := set_key "hypothesis_annotations" hyp r6).
  assert (H7 : staged doi source_names ["pmid"; "pmc_id"; "hypothesis_annotations"] r7
               /\ In "hypothesis_annotations" (keys r7)).
  { split.
    - apply (staged_field doi _ ["pmid"; "pmc_id"] _ "hypothesis_annotations" hyp r6
               eq_refl); auto.
      + left. discriminate.
      + now left.
    - apply set_key_In. }
  clearbody r7. clear H6 r6. destruct H7 as [H7 Hhyp].
  io_step. io_fetch paper_id.
  rewrite snd_io_bind.
  match goal with
  | |- (bind ?m _ = _ -> _) => destruct m as [r8|] eqn:E8; cbn [bind]; [|discriminate]
  end.
  cbn [snd pure]. intros [= <-].
  assert (H8 : staged doi source_names field_names r8 /\
               In "hypothesis_annotations" (keys r8)).
  { destruct (truthy ss && truthy paper_id).
    - rewrite snd_io_bind in E8; cbn [snd say _polite_delay pure bind] in E8.
      rewrite snd_io_bind in E8; cbn [snd say _polite_delay pure bind] in E8.
      rewrite snd_io_bind in E8.
      destruct (snd (pure (getitem ss "paperId"))) as [pid|]; cbn [bind] in E8;
        [|discriminate].
      rewrite snd_io_bind in E8.
      destruct (snd (fetch_recommendations _)) as [recs|]; cbn [bind] in E8;
        [|discriminate].
      rewrite snd_io_bind in E8; cbn [snd say pure bind] in E8.
      injection E8 as <-.
      destruct (truthy recs) eqn:Hrecs.
      + split.
        * apply (staged_field doi _ ["pmid"; "pmc_id"; "hypothesis_annotations"] []
                   "recommendations" recs r7 eq_refl); auto.
          -- left. discriminate.
          -- right. exact Hrecs.
        * now apply set_key_keeps.
      + split; [|exact Hhyp].
        now apply (staged_wider doi _ ["pmid"; "pmc_id"; "hypothesis_annotations"]
                     ["recommendations"]).
    - cbn [snd pure] in E8. injection E8 as <-. split; [|exact Hhyp].
      now apply (staged_wider doi _ ["pmid"; "pmc_id"; "hypothesis_annotations"]
                   ["recommendations"]). }
  destruct H8 as [(s & f & -> & Hs & Ht & Hf & Hfi & Hp) Hh].
  exists s, f. repeat split; auto.
  cbn [keys map fst In] in Hh. destruct Hh as [Hh|[Hh|Hh]]; try discriminate. exact Hh.
Qed.

Lemma aggregate_well_formed_witness :
  well_formed_report "10.1234/abc" sample_report.
Proof.
  apply (aggregate_well_formed sample_world "10.1234/abc" sample_report).
  reflexivity.
Defined.

(* --------------------------------------------------------------------- *)
(** *** When no service answers *)

Lemma retry_loop_fails (net : network) (retries : Z) (attempts : list Z) :
  fails net -> snd (retry_loop net retries attempts) = Ok VNone.
Proof.
  intros Hnet. induction attempts as [|a rest IH]; [reflexivity|].
  rewrite retry_loop_cons. unfold loop_body, try_block.
  specialize (Hnet a). destruct (net a) as [e|[resp|e]]; cbn [bind].
  - destruct (a <? retries); destruct (retry_loop net retries rest); exact IH.
  - rewrite Hnet.
    destruct ((status_code resp =? 429) && (a <? retries)); [|reflexivity].
    destruct (retry_loop net retries rest). exact IH.
  - destruct (a <? retries); destruct (retry_loop net retries rest); exact IH.
Qed.

Lemma get_fails (net : network) :
  fails net -> snd (call (_get net 2)) = Ok VNone /\ snd (call (_post net 2)) = Ok VNone.
Proof. intros H. split; apply retry_loop_fails, H. Qed.

(** The report of a lookup that no service answers. *)
Lemma aggregate_unreachable (w : world) (doi : string) :
  unreachable w ->
  snd (aggregate_paper_data w doi)
  = Ok (VDict [("doi", VStr doi); ("sources", VDict []);
               ("hypothesis_annotations", VInt 0)]).
Proof.
  intros (Hcr & Hoa & Hss & Harxiv & Hpm & Hepmc & Hpp & Hhyp).
  unfold aggregate_paper_data. cbv zeta.
    io_step.
    unfold fetch_crossref at 1. rewrite !snd_io_bind.
    rewrite (proj1 (get_fails _ (Hcr doi))). cbn [bind snd pure truthy].
    io_step. io_step. io_step.
    unfold fetch_openalex at 1. rewrite snd_io_bind.
    rewrite (proj1 (get_fails _ (Hoa doi))). cbn [bind snd pure truthy].
    io_step. io_step. io_step.
    assert (Hs2 : snd (fetch_semantic_scholar (semantic_scholar w doi)
                         (semantic_scholar_arxiv w) doi) = Ok VNone).
    { unfold fetch_semantic_scholar. rewrite snd_io_bind.
      rewrite (proj1 (get_fails _ (Hss doi))). cbn [bind truthy negb].
      destruct (arxiv_id doi) as [token|]; [|reflexivity].
      apply (proj1 (get_fails _ (Harxiv token))). }
    rewrite snd_io_bind, Hs2. cbn [bind snd pure truthy].
    io_step. io_step. io_step.
    unfold fetch_pubmed_id at 1. rewrite !snd_io_bind.
    rewrite (proj1 (get_fails _ (Hpm doi))). cbn [bind snd pure truthy].
    io_step. io_step. io_step. io_step.
    unfold fetch_europepmc at 1. rewrite !snd_io_bind.
    rewrite (proj1 (get_fails _ (Hepmc doi))). cbn [bind snd pure truthy].
    io_step. io_step. io_step.
    unfold fetch_pubpeer at 1. rewrite !snd_io_bind.
    rewrite (proj2 (get_fails _ (Hpp doi))). cbn [bind snd pure truthy].
    io_step. io_step. io_step.
    unfold fetch_hypothesis_count at 1. rewrite !snd_io_bind.
    rewrite (proj1 (get_fails _ (Hhyp doi))). cbn [bind snd pure truthy].
    io_step. io_step. cbn [andb]. io_step. reflexivity.
Qed.

Section NothingFacts.

Variable rt : runtime.
Variable list_of_set : list string -> list string.

Hypothesis list_of_set_perm :
  forall xs, Permutation (list_of_set xs) (nodup string_dec xs).

(** X9.  When no service can be reached, be it that [_get_proxy()] or the
    requests raise or that they come back with error statuses, the lookup
    still ends well: the report holds the DOI, no source and an annotation
    count of 0, and its document is the thirteen lines of the title, which
    is the DOI itself, the DOI link, the empty citation table and the
    footer. *)
Theorem unreachable_document (w : world) (doi today : string) :
  unreachable w ->
  snd (aggregate_paper_data w doi)
  = Ok (VDict [("doi", VStr doi); ("sources", VDict []);
               ("hypothesis_annotations", VInt 0)]) /\
  (report <- snd (aggregate_paper_data w doi) ;;
   markdown_lines rt list_of_set today report)
  = Ok ["# " ++ doi; "";
        "**DOI:** [" ++ doi ++ "](https://doi.org/" ++ doi ++ ")";
        ""; "---"; "";
        "## Citation Counts"; "";
        "| Source | Citations | Notes |";
        "|--------|-----------|-------|";
        "";
        "---";
        "*Generated by Lazy Scholar CLI on " ++ today ++ "*"].
Proof.
  intros Hw. pose proof (aggregate_unreachable w doi Hw) as Hrun.
  split; [exact Hrun|]. rewrite Hrun. cbn [bind].
  unfold markdown_lines. cbn -[String.append].
  unfold md_notices, _extract_notices. cbn -[String.append].
  rewrite (list_of_set_nil list_of_set list_of_set_perm). reflexivity.
Qed.

End NothingFacts.

Lemma dead_world_unreachable : unreachable dead_world.
Proof. repeat split; intros x attempt; cbn; auto. Qed.

Lemma unreachable_document_witness :
  snd (aggregate_paper_data dead_world "10.1234/abc")
  = Ok (VDict [("doi", VStr "10.1234/abc"); ("sources", VDict []);
               ("hypothesis_annotations", VInt 0)]).
Proof.
  exact (proj1 (unreachable_document demo_runtime distinct_items distinct_items_perm
                  dead_world "10.1234/abc" "2024-05-17" dead_world_unreachable)).
Defined.

(* --------------------------------------------------------------------- *)
(** *** [resolve_arxiv_doi] *)

(** What the function takes for a published DOI: a string that is not
    empty and differs from the DOI by more than case. *)
Lemma differs_published (doi : string) (d : value) :
  (if truthy d then
     l <- lower d ;; Ok (negb (String.eqb l (PyStr.lower doi)))
   else Ok false) = Ok true ->
  exists p, d = VStr p /\ p <> "" /\ PyStr.lower p <> PyStr.lower doi.
Proof.
  destruct (truthy d) eqn:Ht; [|discriminate].
  destruct d as [| | | |p| |]; try discriminate. cbn [lower bind].
  intros [= H]. exists p. split; [reflexivity|]. split.
  - intros ->. discriminate.
  - intros E. rewrite E, String.eqb_refl in H. discriminate.
Qed.

Lemma published_lookup_found (doi : string) (answer : exchange)
    (d title : value) :
  published_lookup doi answer = Ok (Some d, title) ->
  exists p, d = VStr p /\ p <> "" /\ PyStr.lower p <> PyStr.lower doi.
Proof.
  unfold published_lookup.
  destruct answer as [e|[resp|e]]; cbn [bind]; [discriminate| |discriminate].
  destruct (ok resp); [|discriminate].
  destruct (json resp) as [data|]; cbn [bind]; [|discriminate].
  destruct (get data "externalIds" VNone) as [ext|]; cbn [bind]; [|discriminate].
  destruct (or_else ext (Ok (VDict []))) as [ext'|]; cbn [bind]; [|discriminate].
  destruct (get ext' "DOI" (VStr "")) as [pd|]; cbn [bind]; [|discriminate].
  destruct (if truthy pd then _ else _) as [[|]|] eqn:Hd; cbn [bind]; [| |discriminate].
  - intros [= <- _]. now apply differs_published.
  - destruct (get data "title" VNone); cbn [bind]; discriminate.
Qed.

Lemma title_match_loop_found (doi : string) (title : value) (items : list value)
    (d : value) :
  title_match_loop doi title items = Ok (Some d) ->
  exists p, d = VStr p /\ p <> "" /\ PyStr.lower p <> PyStr.lower doi.
Proof.
  induction items as [|item rest IH]; cbn [title_match_loop]; [discriminate|].
  destruct (get item "DOI" (VStr "")) as [cr_doi|]; cbn [bind]; [|discriminate].
  destruct (get item "title" VNone) as [t|]; cbn [bind]; [|discriminate].
  destruct (or_else t (Ok (VList [VStr ""]))) as [t'|]; cbn [bind]; [|discriminate].
  destruct (first t') as [t0|]; cbn [bind]; [|discriminate].
  destruct (lower t0) as [cr_title|]; cbn [bind]; [|discriminate].
  destruct (if truthy cr_doi then _ else _) as [[|]|] eqn:Hhit; cbn [bind];
    [| exact IH | discriminate].
  intros [= <-]. apply differs_published.
  destruct (truthy cr_doi); [|discriminate].
  destruct (lower cr_doi) as [l|]; cbn [bind] in *; [|discriminate].
  destruct (negb (String.eqb l (PyStr.lower doi))); [reflexivity|discriminate].
Qed.

Lemma title_search_found (doi : string) (title : value) (answer : exchange)
    (d : value) :
  title_search doi title answer = Ok (Some d) ->
  exists p, d = VStr p /\ p <> "" /\ PyStr.lower p <> PyStr.lower doi.
Proof.
  unfold title_search.
  destruct answer as [e|[resp|e]]; cbn [bind]; [discriminate| |discriminate].
  destruct (ok resp); [|discriminate].
  destruct (json resp) as [data|]; cbn [bind]; [|discriminate].
  destruct (get data "message" (VDict [])) as [message|]; cbn [bind]; [|discriminate].
  destruct (get message "items" (VList [])) as [items|]; cbn [bind]; [|discriminate].
  destruct (iter items) as [l|]; cbn [bind]; [|discriminate].
  apply title_match_loop_found.
Qed.

(** X10.  [resolve_arxiv_doi] always comes back with a DOI, whatever the two
    services do: a DOI that is no arXiv DOI is returned as it is, without a
    request; otherwise the result is the DOI given or a string that is not
    empty and differs from it by more than case, and in that case, and only
    then, the replacement is announced; and at most two requests are made,
    none of them repeated. *)
Theorem resolve_arxiv_doi_sound (rt : runtime)
    (by_arxiv : string -> exchange) (by_title : value -> exchange)
    (doi : string) :
  let run := resolve_arxiv_doi rt by_arxiv by_title doi in
  (arxiv_id doi = None -> run = ([], VStr doi)) /\
  (snd run = VStr doi \/
   exists p, snd run = VStr p /\ p <> "" /\ PyStr.lower p <> PyStr.lower doi) /\
  existsb is_say (fst run) = negb (eq_str (snd run) doi) /\
  (List.length (filter is_call (fst run)) <= 2)%nat.
Proof.
  cbv zeta. unfold resolve_arxiv_doi.
  assert (Hsay : forall a rest, existsb is_say (sent a ++ rest) = existsb is_say rest)
    by (intros [e|r] rest; reflexivity).
  assert (Hcall : forall a rest,
            (List.length (filter is_call (sent a ++ rest))
             <= 1 + List.length (filter is_call rest))%nat)
    by (intros [e|r] rest; cbn; lia).
  assert (Hone : forall a, (List.length (filter is_call (sent a)) <= 1)%nat)
    by (intros [e|r]; cbn; lia).
  assert (Hsame : eq_str (VStr doi) doi = true) by apply String.eqb_refl.
  assert (Hother : forall p, PyStr.lower p <> PyStr.lower doi ->
                     eq_str (VStr p) doi = false).
  { intros p Hp. cbn. apply String.eqb_neq. intros ->. now apply Hp. }
  destruct (arxiv_id doi) as [id|].
  2:{ cbn [fst snd]. split; [reflexivity|]. split; [now left|].
      split; [now rewrite Hsame|cbn; lia]. }
  split; [discriminate|].
  destruct (published_lookup doi (by_arxiv id)) as [[[d|] title]|] eqn:Hlook.
  - destruct (published_lookup_found doi _ d title Hlook) as (p & -> & Hne & Hp).
    cbn [fst snd]. split; [right; now exists p|].
    split; [now rewrite Hsay, (Hother p Hp)|].
    etransitivity; [apply Hcall|]. cbn. lia.
  - destruct (truthy title).
    + destruct (title_search doi title (by_title title)) as [[d|]|] eqn:Hsearch.
      * destruct (title_search_found doi title _ d Hsearch) as (p & -> & Hne & Hp).
        cbn [fst snd]. split; [right; now exists p|].
        split; [now rewrite !Hsay, (Hother p Hp)|].
        etransitivity; [apply Hcall|]. etransitivity; [apply le_n_S, Hcall|]. cbn. lia.
      * cbn [fst snd]. split; [now left|].
        rewrite <- (app_nil_r (sent (by_title title))).
        split; [now rewrite !Hsay, Hsame|].
        etransitivity; [apply Hcall|]. etransitivity; [apply le_n_S, Hcall|]. cbn. lia.
      * cbn [fst snd]. split; [now left|].
        rewrite <- (app_nil_r (sent (by_title title))).
        split; [now rewrite !Hsay, Hsame|].
        etransitivity; [apply Hcall|]. etransitivity; [apply le_n_S, Hcall|]. cbn. lia.
    + cbn [fst snd]. split; [now left|].
      rewrite <- (app_nil_r (sent (by_arxiv id))).
      split; [now rewrite Hsay, Hsame|].
      etransitivity; [apply Hcall|]. cbn. lia.
  - cbn [fst snd truthy]. split; [now left|].
    rewrite <- (app_nil_r (sent (by_arxiv id))).
    split; [now rewrite Hsay, Hsame|].
    etransitivity; [apply Hcall|]. cbn. lia.
Qed.

(* --------------------------------------------------------------------- *)
(** *** [extract_doi]: what it finds *)

Lemma all_chars_rev (p : ascii -> bool) (s : string) :
  all_chars p (PyStr.rev s) = all_chars p s.
Proof.
  induction s as [|c s IH]; [reflexivity|].
  rewrite rev_cons, all_chars_append, IH. cbn. now rewrite andb_true_r, andb_comm.
Qed.

(** [rstrip] removes characters of its set only. *)
Lemma rstrip_removed (chars s : string) :
  exists e, s = PyStr.rstrip chars s ++ e /\
            all_chars (fun c => PyStr.mem_char c chars) e = true.
Proof.
  unfold PyStr.rstrip.
  exists (PyStr.rev (PyStr.take_while (fun c => PyStr.mem_char c chars) (PyStr.rev s))).
  split.
  - rewrite <- rev_append, take_drop_while, rev_involutive. reflexivity.
  - rewrite all_chars_rev. apply all_chars_take_while.
Qed.

Lemma lower_not_slash (s : string) :
  all_chars not_slash (PyStr.lower s) = all_chars not_slash s.
Proof.
  induction s as [|c s IH]; [reflexivity|]. cbn [PyStr.lower all_chars]. rewrite IH.
  f_equal. destruct c as [[] [] [] [] [] [] [] []]; reflexivity.
Qed.

Lemma concat_not_slash (l : list string) :
  Forall (fun x => all_chars not_slash x = true) l ->
  all_chars not_slash (String.concat "" l) = true.
Proof.
  induction 1 as [|x l Hx Hl IH]; [reflexivity|].
  destruct l as [|y l]; [exact Hx|].
  cbn [String.concat String.append] in *. now rewrite all_chars_append, Hx, IH.
Qed.

Lemma all_chars_weaken (p q : ascii -> bool) (s : string) :
  (forall c, p c = true -> q c = true) ->
  all_chars p s = true -> all_chars q s = true.
Proof.
  intros Hpq. induction s as [|c s IH]; cbn; [reflexivity|].
  intros H. apply andb_prop in H as [Hc Hs]. now rewrite (Hpq c Hc), IH.
Qed.

(** What [extract_doi] takes off a match holds no slash. *)
Lemma extract_doi_removed (m : string) :
  exists e, m = strip_extensions known_extensions (PyStr.rstrip ".,;:" m) ++ e /\
            all_chars not_slash e = true.
Proof.
  destruct (rstrip_removed ".,;:" m) as (e1 & He1 & Hp).
  destruct (strip_extensions_removed known_extensions (PyStr.rstrip ".,;:" m))
    as (removed & e2 & He2 & Hlow & Hsub & _).
  exists (e2 ++ e1). split.
  - rewrite <- append_assoc, <- He2. exact He1.
  - rewrite all_chars_append. apply andb_true_intro. split.
    + rewrite <- lower_not_slash, Hlow. apply concat_not_slash.
      apply Forall_forall. intros x Hx. apply in_rev in Hx.
      apply (subsequence_In _ _ _ Hsub) in Hx.
      cbn in Hx. destruct Hx as [<-|[<-|[<-|[<-|[]]]]]; reflexivity.
    + revert Hp. apply all_chars_weaken. intros c Hc.
      unfold not_slash. destruct (Ascii.eqb_spec c "/") as [->|]; [discriminate|].
      reflexivity.
Qed.

Lemma doi_match_here_prefix (s m : string) :
  doi_match_here s = Some m -> exists after, s = m ++ after.
Proof.
  unfold doi_match_here.
  destruct s as [|c1 s]; [discriminate|].
  destruct c1 as [[] [] [] [] [] [] [] []]; try discriminate.
  destruct s as [|c2 s]; [discriminate|].
  destruct c2 as [[] [] [] [] [] [] [] []]; try discriminate.
  destruct s as [|c3 r]; [discriminate|].
  destruct c3 as [[] [] [] [] [] [] [] []]; try discriminate.
  destruct (_ && _); [|discriminate].
  destruct (PyStr.drop_while PyStr.is_digit r) as [|c t] eqn:Hdrop; [discriminate|].
  destruct c as [[] [] [] [] [] [] [] []]; try discriminate.
  destruct (PyStr.take_while doi_tail_char t) as [|c' tl] eqn:Htail; [discriminate|].
  intros [= <-]. exists (PyStr.drop_while doi_tail_char t).
  rewrite <- (take_drop_while PyStr.is_digit r) at 1. rewrite Hdrop.
  rewrite <- (take_drop_while doi_tail_char t) at 1. rewrite Htail.
  cbn [String.append]. rewrite !append_assoc. reflexivity.
Qed.

Lemma doi_search_occurs (text m : string) :
  doi_search text = Some m -> exists before after, text = before ++ m ++ after.
Proof.
  induction text as [|c text IH]; cbn [doi_search].
  - destruct (doi_match_here "") eqn:E; [|discriminate].
    intros [= <-]. destruct (doi_match_here_prefix _ _ E) as (after & H).
    now exists "", after.
  - destruct (doi_match_here (String c text)) eqn:E.
    + intros [= <-]. destruct (doi_match_here_prefix _ _ E) as (after & H).
      now exists "", after.
    + intros H. destruct (IH H) as (before & after & ->).
      now exists (String c before), after.
Qed.

Lemma doi_search_skip (before s : string) :
  doi_search s <> None -> doi_search (before ++ s) <> None.
Proof.
  intros H. induction before as [|c before IH]; [exact H|].
  cbn [String.append doi_search].
  destruct (doi_match_here (String c (before ++ s))); [discriminate|exact IH].
Qed.

(** X11.  A DOI that [extract_doi] returns stands in the text, and it is the
    literal [10.], four to nine digits, a slash and then characters that are
    neither white space nor quotes, angle brackets, closing brackets, braces
    or commas, of which there may be none. *)
Theorem extract_doi_sound (text d : string) :
  extract_doi text = Some d ->
  exists before after digits rest,
    text = before ++ d ++ after /\
    d = "10." ++ digits ++ "/" ++ rest /\
    all_chars PyStr.is_digit digits = true /\
    (4 <= String.length digits <= 9)%nat /\
    all_chars doi_tail_char rest = true.
Proof.
  unfold extract_doi.
  destruct (doi_search text) as [m|] eqn:Hm; [|discriminate].
  remember (strip_extensions known_extensions (PyStr.rstrip ".,;:" m)) as r eqn:Hd.
  intros [= ->].
  destruct (doi_search_shape text m Hm)
    as (digits & tail & Hshape & Hdig & Hlen & Hne & Htail).
  destruct (doi_search_occurs text m Hm) as (before & after & Htext).
  destruct (extract_doi_removed m) as (e & He & Hslash). rewrite <- Hd in He.
  assert (Hsplit : ("10." ++ digits) ++ String "/" tail = d ++ e)
    by (rewrite <- He, Hshape; reflexivity).
  assert (Hrest : exists rest, d = "10." ++ digits ++ "/" ++ rest /\ tail = rest ++ e).
  { apply append_eq_append in Hsplit as [(x & Hhead & Hx)|(x & Hd' & Hx)].
    - exfalso. rewrite Hx, all_chars_append in Hslash.
      apply andb_prop in Hslash as [_ Hslash]. discriminate.
    - destruct x as [|c x].
      + exfalso. cbn [String.append] in Hx. rewrite <- Hx in Hslash. discriminate.
      + cbn [String.append] in Hx. injection Hx as <- Hx. exists x.
        split; [|exact Hx]. rewrite Hd'. reflexivity. }
  destruct Hrest as (rest & Hform & Htl).
  exists before, (e ++ after), digits, rest.
  split; [|split; [exact Hform|split; [exact Hdig|split; [exact Hlen|]]]].
  - rewrite <- (append_assoc d e after), <- He. exact Htext.
  - rewrite Htl, all_chars_append in Htail. now apply andb_prop in Htail as [H _].
Qed.

Lemma extract_doi_sound_witness :
  exists before after digits rest,
    "see https://doi.org/10.1234/Abc.PDF." = before ++ "10.1234/Abc" ++ after /\
    "10.1234/Abc" = "10." ++ digits ++ "/" ++ rest /\
    all_chars PyStr.is_digit digits = true /\
    (4 <= String.length digits <= 9)%nat /\
    all_chars doi_tail_char rest = true.
Proof.
  apply (extract_doi_sound "see https://doi.org/10.1234/Abc.PDF." "10.1234/Abc").
  reflexivity.
Defined.

(** X12.  [extract_doi] finds a DOI exactly in the texts that hold one: the
    literal [10.], four to nine digits, a slash and one character or more of
    the DOI's class; on every other text it returns [None]. *)
Theorem extract_doi_complete (text : string) :
  extract_doi text <> None <->
  exists before digits c after,
    text = before ++ "10." ++ digits ++ "/" ++ String c after /\
    all_chars PyStr.is_digit digits = true /\
    (4 <= String.length digits <= 9)%nat /\
    doi_tail_char c = true.
Proof.
  unfold extract_doi. split.
  - destruct (doi_search text) as [m|] eqn:Hm; [intros _|congruence].
    destruct (doi_search_shape text m Hm)
      as (digits & tail & Hshape & Hdig & Hlen & Hne & Htail).
    destruct (doi_search_occurs text m Hm) as (before & after & Htext).
    destruct tail as [|c tail]; [contradiction|].
    exists before, digits, c, (tail ++ after).
    split; [|split; [exact Hdig|split; [exact Hlen|]]].
    + rewrite Htext, Hshape. cbn [String.append]. rewrite !append_assoc.
      cbn [String.append]. reflexivity.
    + cbn in Htail. now apply andb_prop in Htail as [H _].
  - intros (before & digits & c & after & -> & Hdig & Hlen & Hc).
    assert (Hs : doi_search (before ++ "10." ++ digits ++ "/" ++ String c after)
                 <> None).
    { apply doi_search_skip.
      assert (Hhere : doi_match_here ("10." ++ digits ++ "/" ++ String c after)
                      <> None).
      { cbn [String.append doi_match_here].
        destruct (take_while_all PyStr.is_digit digits
                    (String "/" (String c after)) Hdig) as [Htw Hdw].
        rewrite Htw, Hdw. cbn [String.append PyStr.take_while PyStr.drop_while].
        replace (PyStr.is_digit "/") with false by reflexivity.
        rewrite append_nil_r.
        destruct Hlen as [H4 H9].
        apply Nat.leb_le in H4. apply Nat.leb_le in H9. rewrite H4, H9. cbn [andb].
        cbn [PyStr.take_while]. rewrite Hc. discriminate. }
      destruct (doi_match_here _) as [m|] eqn:E; [|contradiction].
      rewrite (doi_search_here _ _ E). discriminate. }
    destruct (doi_search _); [discriminate|contradiction].
Qed.

(* --------------------------------------------------------------------- *)
(** *** [extract_doi_from_url] *)

Lemma strip_prefix_split (p s rest : string) :
  strip_prefix p s = Some rest <-> s = p ++ rest.
Proof.
  revert s. induction p as [|a p IH]; intros s; cbn.
  - split; [now intros [= ->]|now intros ->].
  - destruct s as [|b s]; [split; discriminate|].
    destruct (Ascii.eqb_spec a b) as [->|Hne].
    + rewrite IH. split; [now intros ->|now intros [= ->]].
    + split; [discriminate|]. intros [= -> _]. contradiction.
Qed.

(** [after_first] cuts at the first occurrence of the separator. *)
Lemma after_first_split (sep s rest : string) :
  after_first sep s = Some rest ->
  exists p, s = p ++ sep ++ rest /\
    forall p' rest', s = p' ++ sep ++ rest' ->
      (String.length p <= String.length p')%nat.
Proof.
  revert rest. induction s as [|c s IH]; intros rest; cbn [after_first].
  - destruct (strip_prefix sep "") as [r|] eqn:E; [|discriminate].
    intros [= ->]. apply strip_prefix_split in E. exists "".
    split; [exact E|]. intros; cbn; lia.
  - destruct (strip_prefix sep (String c s)) as [r|] eqn:E.
    + intros [= ->]. apply strip_prefix_split in E. exists "".
      split; [exact E|]. intros; cbn; lia.
    + intros H. destruct (IH rest H) as (p & -> & Hmin). exists (String c p).
      split; [reflexivity|]. intros p' rest' Hs. destruct p' as [|c' p'].
      * cbn [String.append] in Hs.
        apply strip_prefix_split in Hs. rewrite Hs in E. discriminate.
      * cbn [String.append] in Hs. injection Hs as _ Hs.
        specialize (Hmin p' rest' Hs). cbn. lia.
Qed.

Lemma extract_doi_occurs (text d : string) :
  extract_doi text = Some d -> exists before after, text = before ++ d ++ after.
Proof.
  unfold extract_doi.
  destruct (doi_search text) as [m|] eqn:Hm; [|discriminate].
  remember (strip_extensions known_extensions (PyStr.rstrip ".,;:" m)) as r eqn:Hd.
  intros [= ->].
  destruct (doi_search_occurs text m Hm) as (before & after & ->).
  destruct (extract_doi_removed m) as (e & He & _). rewrite <- Hd in He.
  exists before, (e ++ after).
  now rewrite <- (append_assoc d e after), <- He.
Qed.

Section UrlFacts.

Variable unquote : string -> string.

(** X13.  A DOI that [extract_doi_from_url] returns stands in the decoded
    URL; and when the URL names [doi.org/], the DOI is taken from what
    follows the first [doi.org/], whatever stands before it. *)
Theorem extract_doi_from_url_after (url d : string) :
  extract_doi_from_url unquote url = Ok (Some d) ->
  exists before after,
    unquote url = before ++ d ++ after /\
    (PyStr.contains (unquote url) "doi.org/" = true ->
     exists p q,
       before = p ++ "doi.org/" ++ q /\
       forall p' rest, unquote url = p' ++ "doi.org/" ++ rest ->
         (String.length p <= String.length p')%nat).
Proof.
  unfold extract_doi_from_url. cbv zeta.
  destruct (PyStr.contains (unquote url) "doi.org/").
  - destruct (after_first "doi.org/" (unquote url)) as [rest|] eqn:Hafter;
      [|discriminate].
    intros [= H]. destruct (extract_doi_occurs rest d H) as (q & after & ->).
    destruct (after_first_split _ _ _ Hafter) as (p & Hurl & Hmin).
    exists (p ++ "doi.org/" ++ q), after. split.
    + rewrite Hurl. rewrite !append_assoc. reflexivity.
    + intros _. now exists p, q.
  - intros [= H]. destruct (extract_doi_occurs _ d H) as (before & after & Hurl).
    exists before, after. split; [exact Hurl|discriminate].
Qed.

End UrlFacts.

Lemma extract_doi_from_url_after_witness :
  exists before after,
    "https://x.org/10.1111/old?to=https://doi.org/10.1234/abc.pdf"
    = before ++ "10.1234/abc" ++ after /\
    (PyStr.contains "https://x.org/10.1111/old?to=https://doi.org/10.1234/abc.pdf"
       "doi.org/" = true ->
     exists p q,
       before = p ++ "doi.org/" ++ q /\
       forall p' rest,
         "https://x.org/10.1111/old?to=https://doi.org/10.1234/abc.pdf"
         = p' ++ "doi.org/" ++ rest ->
         (String.length p <= String.length p')%nat).
Proof.
  apply (extract_doi_from_url_after (fun url => url)
           "https://x.org/10.1111/old?to=https://doi.org/10.1234/abc.pdf"
           "10.1234/abc").
  reflexivity.
Defined.

(* --------------------------------------------------------------------- *)
(** *** The cost of a lookup *)

Lemma tally_app (p : action -> bool) (a b : list action) :
  tally p (a ++ b) = tally p a + tally p b.
Proof. unfold tally. rewrite filter_app, length_app. lia. Qed.

Lemma costs_bind {A B : Type} (p : action -> bool) (lo1 hi1 lo2 hi2 : Z)
    (m : io A) (k : A -> io B) :
  costs p lo1 hi1 m -> (forall a, costs p lo2 hi2 (k a)) -> 0 <= hi2 ->
  costs p (lo1 + lo2) (hi1 + hi2) (io_bind m k).
Proof.
  intros [Hhi Hlo] Hk Hpos. unfold costs, returns, io_bind in *.
  destruct m as [trace [a|e]]; cbn [fst snd] in *.
  - destruct (Hk a) as [Hhi' Hlo']. destruct (k a) as [trace' r]. cbn [fst snd] in *.
    rewrite tally_app. split; [lia|]. intros Hr.
    specialize (Hlo' Hr). specialize (Hlo (ex_intro _ a eq_refl)). lia.
  - split; [lia|]. intros (a & Ha). discriminate.
Qed.

Lemma costs_if {A : Type} (p : action -> bool) (lo1 hi1 lo2 hi2 : Z) (c : bool)
    (m1 m2 : io A) :
  costs p lo1 hi1 m1 -> costs p lo2 hi2 m2 ->
  costs p (Z.min lo1 lo2) (Z.max hi1 hi2) (if c then m1 else m2).
Proof.
  intros [H1 L1] [H2 L2]. unfold costs.
  destruct c; (split; [lia|]); intros Hr; [specialize (L1 Hr)|specialize (L2 Hr)]; lia.
Qed.

Lemma costs_say (p : action -> bool) (text : string) :
  p (Say text) = false -> costs p 0 0 (say text).
Proof. intros H. unfold costs, tally. cbn. rewrite H. cbn. lia. Qed.

Lemma costs_pure {A : Type} (p : action -> bool) (r : result A) : costs p 0 0 (pure r).
Proof. unfold costs, tally. cbn. lia. Qed.

Lemma costs_weaken {A : Type} (p : action -> bool) (lo hi lo' hi' : Z) (m : io A) :
  costs p lo' hi' m -> lo <= lo' -> hi' <= hi -> costs p lo hi m.
Proof. intros [H L] Hlo Hhi. split; [lia|]. intros Hr. specialize (L Hr). lia. Qed.

Lemma tally_requests (trace : list event) :
  tally is_call (map Did trace) = count is_request trace.
Proof.
  unfold tally, count. induction trace as [|e trace IH]; [reflexivity|].
  cbn [map filter]. destruct e; cbn [is_call is_request List.length]; lia.
Qed.

Lemma retry_loop_impolite (net : network) (retries : Z) (attempts : list Z) :
  tally is_polite (map Did (fst (retry_loop net retries attempts))) = 0.
Proof.
  assert (Hreq : forall a, tally is_polite (map Did (request net a)) = 0).
  { intros a. unfold request. destruct (net a); reflexivity. }
  induction attempts as [|a rest IH]; [reflexivity|].
  rewrite retry_loop_cons, loop_body_classify.
  destruct (classify net a); [| |destruct (a <? retries)|destruct (a <? retries)];
    try destruct (retry_loop net retries rest) as [trace r]; cbn [fst] in *;
    rewrite ?map_app, ?tally_app, Hreq, ?IH; reflexivity.
Qed.

(** A call of the transport as the fetchers make it, with a budget of two
    retries. *)
Lemma costs_transport (net : network) :
  costs is_call 0 3 (call (_get net 2)) /\ costs is_call 0 3 (call (_post net 2)) /\
  costs is_polite 0 0 (call (_get net 2)) /\ costs is_polite 0 0 (call (_post net 2)) /\
  (sends net ->
   costs is_call 1 3 (call (_get net 2)) /\ costs is_call 1 3 (call (_post net 2))).
Proof.
  pose proof (retry_loop_counts net 2 2 0%nat eq_refl) as H. cbv zeta in H.
  change (map Z.of_nat (seq 0 3)) with (range (2 + 1)) in H.
  change (Z.of_nat 2) with 2 in H.
  destruct H as (Hs & Hr & Hsend).
  pose proof (Zle_0_nat (List.length (filter is_request
                (fst (retry_loop net 2 (range (2 + 1))))))) as H0.
  pose proof (Zle_0_nat (List.length (filter is_sleep
                (fst (retry_loop net 2 (range (2 + 1))))))) as H1.
  fold (count is_request (fst (retry_loop net 2 (range (2 + 1))))) in H0.
  fold (count is_sleep (fst (retry_loop net 2 (range (2 + 1))))) in H1.
  unfold costs, call, _get, _post. cbn [fst snd].
  rewrite tally_requests, retry_loop_impolite.
  repeat match goal with |- _ /\ _ => split end; try lia.
  intros Hnet. specialize (Hsend Hnet). split; split; lia.
Qed.

Lemma costs_unsent (net : network) (e : exn) :
  proxy_raises e net ->
  costs is_call 0 0 (call (_get net 2)) /\ costs is_call 0 0 (call (_post net 2)).
Proof.
  intros He. unfold costs, call, _get, _post. cbn [fst snd].
  rewrite tally_requests, (retry_loop_unsent net e 2 _ He). repeat split; lia.
Qed.

Lemma costs_delay :
  costs is_call 0 0 _polite_delay /\ costs is_polite 1 1 _polite_delay.
Proof. unfold costs, tally. cbn. split; split; lia. Qed.

(** The cost of a call: none when the context tells that [_get_proxy()]
    raises, a request or more when it tells that the network sends, and
    whatever it is otherwise. *)
Ltac cost_of_call :=
  lazymatch goal with
  | |- costs is_polite _ _ (call (_get ?net _)) =>
      apply (proj1 (proj2 (proj2 (costs_transport net))))
  | |- costs is_polite _ _ (call (_post ?net _)) =>
      apply (proj1 (proj2 (proj2 (proj2 (costs_transport net)))))
  | |- costs is_call _ _ (call (_get ?net _)) =>
      first [ apply (proj1 (costs_unsent net _ ltac:(auto)))
            | apply (proj1 (proj2 (proj2 (proj2 (proj2 (costs_transport net))))
                              ltac:(auto)))
            | apply (proj1 (costs_transport net)) ]
  | |- costs is_call _ _ (call (_post ?net _)) =>
      first [ apply (proj2 (costs_unsent net _ ltac:(auto)))
            | apply (proj2 (proj2 (proj2 (proj2 (proj2 (costs_transport net))))
                              ltac:(auto)))
            | apply (proj1 (proj2 (costs_transport net))) ]
  end.

Ltac cost fetchers :=
  cbv zeta;
  lazymatch goal with
  | |- costs _ _ _ (io_bind _ _) =>
      eapply costs_bind; [cost fetchers | intros ?; cost fetchers | cbn; lia]
  | |- costs _ _ _ (if _ then _ else _) =>
      eapply costs_if; [cost fetchers | cost fetchers]
  | |- costs _ _ _ (pure _) => apply costs_pure
  | |- costs _ _ _ (say _) => apply costs_say; reflexivity
  | |- costs _ _ _ _polite_delay =>
      first [apply (proj1 costs_delay) | apply (proj2 costs_delay)]
  | |- costs _ _ _ (call _) => cost_of_call
  | |- _ => fetchers
  end.

Lemma costs_semantic_scholar (by_doi : network) (by_arxiv : string -> network)
    (doi : string) :
  costs is_call 0 6 (fetch_semantic_scholar by_doi by_arxiv doi) /\
  costs is_polite 0 0 (fetch_semantic_scholar by_doi by_arxiv doi) /\
  (sends by_doi -> costs is_call 1 6 (fetch_semantic_scholar by_doi by_arxiv doi)) /\
  (forall e, proxy_raises e by_doi -> (forall id, proxy_raises e (by_arxiv id)) ->
     costs is_call 0 0 (fetch_semantic_scholar by_doi by_arxiv doi)).
Proof.
  assert (Hrest : forall data lo,
            lo <= 0 ->
            costs is_call lo 3
              (if negb (truthy data)
               then match arxiv_id doi with
                    | Some token => call (_get (by_arxiv token) 2)
                    | None => pure (Ok data)
                    end
               else pure (Ok data))).
  { intros data lo Hlo. destruct (negb (truthy data)); [destruct (arxiv_id doi)|].
    - eapply costs_weaken; [apply (proj1 (costs_transport _))|lia|lia].
    - eapply costs_weaken; [apply costs_pure|lia|lia].
    - eapply costs_weaken; [apply costs_pure|lia|lia]. }
  unfold fetch_semantic_scholar. split; [|split; [|split]].
  - apply (costs_bind is_call 0 3 0 3);
      [apply (proj1 (costs_transport _)) | intros data; now apply Hrest | lia].
  - apply (costs_bind is_polite 0 0 0 0);
      [apply (proj1 (proj2 (proj2 (costs_transport _)))) | | lia].
    intros data. destruct (negb (truthy data)); [destruct (arxiv_id doi)|];
      first [apply (proj1 (proj2 (proj2 (costs_transport _)))) | apply costs_pure].
  - intros Hnet. apply (costs_bind is_call 1 3 0 3);
      [apply (proj1 (proj2 (proj2 (proj2 (proj2 (costs_transport _)))) Hnet))
      | intros data; now apply Hrest | lia].
  - intros e He Hid. apply (costs_bind is_call 0 0 0 0);
      [apply (proj1 (costs_unsent _ e He)) | | lia].
    intros data. destruct (negb (truthy data)); [destruct (arxiv_id doi)|];
      first [apply (proj1 (costs_unsent _ e (Hid _))) | apply costs_pure].
Qed.

Ltac cost_of_fetcher :=
  idtac;
  lazymatch goal with
  | |- costs is_call _ _ (fetch_semantic_scholar ?by_doi ?by_arxiv ?doi) =>
      first [ apply (proj2 (proj2 (proj2 (costs_semantic_scholar by_doi by_arxiv doi)))
                       _ ltac:(auto) ltac:(auto))
            | apply (proj1 (proj2 (proj2 (costs_semantic_scholar by_doi by_arxiv doi)))
                       ltac:(auto))
            | apply (proj1 (costs_semantic_scholar by_doi by_arxiv doi)) ]
  | |- costs is_polite _ _ (fetch_semantic_scholar ?by_doi ?by_arxiv ?doi) =>
      apply (proj1 (proj2 (costs_semantic_scholar by_doi by_arxiv doi)))
  end.

Ltac unfold_fetchers :=
  unfold fetch_crossref, fetch_openalex, fetch_recommendations, fetch_pubmed_id,
    fetch_pubmed_pmc, fetch_pubpeer, fetch_europepmc, fetch_hypothesis_count.

(** X14.  What a lookup of one DOI costs, whatever the services do: at most
    30 requests and 7 polite pauses; a lookup that returns its report has
    made 6 polite pauses or more; and when [_get_proxy()] does not raise, it
    has made 7 requests or more, one or more to each of the seven services
    it always asks.  When [_get_proxy()] raises every time, the lookup
    returns its report without a single request. *)
Theorem aggregate_cost (w : world) (doi : string) :
  let trace := fst (aggregate_paper_data w doi) in
  tally is_call trace <= 30 /\
  tally is_polite trace <= 7 /\
  (returns (aggregate_paper_data w doi) ->
   6 <= tally is_polite trace /\
   (requests_go_out w -> 7 <= tally is_call trace)) /\
  (forall e, proxy_broken e w ->
     returns (aggregate_paper_data w doi) /\ tally is_call trace = 0).
Proof.
  cbv zeta.
  assert (Hcalls : costs is_call 0 30 (aggregate_paper_data w doi)).
  { unfold aggregate_paper_data. unfold_fetchers.
    eapply costs_weaken; [cost cost_of_fetcher | cbn; lia | cbn; lia]. }
  assert (Hpauses : costs is_polite 6 7 (aggregate_paper_data w doi)).
  { unfold aggregate_paper_data. unfold_fetchers.
    eapply costs_weaken; [cost cost_of_fetcher | cbn; lia | cbn; lia]. }
  destruct Hcalls as [Hc Lc]. destruct Hpauses as [Hp Lp].
  split; [exact Hc|]. split; [exact Hp|]. split.
  - intros Hr. split; [auto|].
    intros (Hcr & Hoa & Hss & Hpm & Hepmc & Hpp & Hhyp).
    assert (Hsent : costs is_call 7 30 (aggregate_paper_data w doi)).
    { unfold aggregate_paper_data. unfold_fetchers.
      eapply costs_weaken; [cost cost_of_fetcher | cbn; lia | cbn; lia]. }
    now apply Hsent.
  - intros e (Hcr & Hoa & Hss & Harxiv & Hrec & Hpm & Hpmc & Hepmc & Hpp & Hhyp).
    split.
    + eexists. apply aggregate_unreachable. unfold unreachable.
      repeat match goal with |- _ /\ _ => split end;
        intros k; unfold fails; intros attempt;
        first [ rewrite (Hcr k attempt) | rewrite (Hoa k attempt)
              | rewrite (Hss k attempt) | rewrite (Harxiv k attempt)
              | rewrite (Hpm k attempt) | rewrite (Hepmc k attempt)
              | rewrite (Hpp k attempt) | rewrite (Hhyp k attempt) ];
        exact I.
    + assert (Hnone : costs is_call 0 0 (aggregate_paper_data w doi)).
      { unfold aggregate_paper_data. unfold_fetchers.
        eapply costs_weaken; [cost cost_of_fetcher | cbn; lia | cbn; lia]. }
      destruct Hnone as [Hn _]. unfold tally in *. lia.
Qed.

(* --------------------------------------------------------------------- *)
(** *** The frame of every document *)

Lemma grows_extends (n : nat) (lines out : list string) :
  grows n lines out -> extends lines out.
Proof. intros (added & H & _). now exists added. Qed.

Lemma extends_refl (lines : list string) : extends lines lines.
Proof. exists []. now rewrite app_nil_r. Qed.

Lemma extends_trans (a b c : list string) :
  extends a b -> extends b c -> extends a c.
Proof. intros (x & ->) (y & ->). exists (x ++ y)%list. now rewrite app_assoc. Qed.

Lemma extends_append (lines out : list string) (x : string) :
  extends lines out -> extends lines (append out x).
Proof. intros (a & ->). exists (a ++ [x])%list. unfold append. now rewrite app_assoc. Qed.

Lemma fold_append {A : Type} (f : A -> string) (xs : list A) (lines : list string) :
  fold_left (fun lines x => append lines (f x)) xs lines = (lines ++ map f xs)%list.
Proof.
  revert lines. induction xs as [|x xs IH]; intros lines; cbn [fold_left map].
  - now rewrite app_nil_r.
  - rewrite IH. unfold append. now rewrite <- app_assoc.
Qed.

(** Closes a goal [grows n lines out] or [extends lines out] in which [out]
    is [lines] after some [append]s. *)
Ltac grown :=
  first
    [ exists []; split; [now rewrite app_nil_r | cbn; lia]
    | eexists; split;
      [unfold append; rewrite <- ?app_assoc; cbn [app]; reflexivity | cbn; lia]
    | exists []; now rewrite app_nil_r
    | eexists; unfold append; rewrite <- ?app_assoc; cbn [app]; reflexivity ].

(** Goes through the binds, tests and matches of a section up to its
    result. *)
Ltac crack :=
  repeat
    match goal with
    | |- Ok _ = Ok _ -> _ => intros [= <-]
    | |- Raise _ = Ok _ -> _ => discriminate
    | |- bind ?m _ = Ok _ -> _ => destruct m; cbn [bind]
    | |- (if ?c then _ else _) = Ok _ -> _ => destruct c
    | |- match ?x with _ => _ end = Ok _ -> _ => destruct x
    end.

Section FrameFacts.

Variable rt : runtime.
Variable list_of_set : list string -> list string.

Lemma md_title_frame (doi cr ss oa epmc : value) (out : list string) :
  md_title rt doi cr ss oa epmc [] = Ok out ->
  exists title, out = ["# " ++ title; ""].
Proof.
  unfold md_title. destruct (reconciled_title doi cr ss oa epmc) as [t|]; cbn [bind];
    [|discriminate].
  intros [= <-]. now exists (str rt t).
Qed.

Lemma md_authors_grows (cr oa ss epmc : value) (lines out : list string) :
  md_authors rt cr oa ss epmc lines = Ok out -> grows 1 lines out.
Proof. unfold md_authors. crack; grown. Qed.

Lemma md_journal_grows (cr ss epmc : value) (lines out : list string) :
  md_journal rt cr ss epmc lines = Ok out -> grows 1 lines out.
Proof.
  unfold md_journal. destruct (_extract_journal rt cr ss epmc) as [j|]; cbn [bind];
    [|discriminate].
  intros [= <-]. destruct (truthy j); grown.
Qed.

Lemma md_date_grows (cr ss oa epmc : value) (lines out : list string) :
  md_date rt cr ss oa epmc lines = Ok out -> grows 1 lines out.
Proof.
  unfold md_date. destruct (_extract_date rt cr ss oa epmc) as [d|]; cbn [bind];
    [|discriminate].
  intros [= <-]. destruct (truthy d); grown.
Qed.

Lemma md_type_grows (cr ss : value) (lines out : list string) :
  md_type rt cr ss lines = Ok out -> grows 1 lines out.
Proof.
  unfold md_type. destruct (get cr "type" VNone) as [t|]; cbn [bind]; [|discriminate].
  destruct (or_else t _) as [p|]; cbn [bind]; [|discriminate].
  intros [= <-]. destruct (truthy p); grown.
Qed.

Lemma md_pubmed_grows (report : value) (lines out : list string) :
  md_pubmed rt report lines = Ok out -> grows 2 lines out.
Proof.
  unfold md_pubmed. destruct (get report "pmid" VNone) as [pmid|]; cbn [bind];
    [|discriminate].
  destruct (get report "pmc_id" VNone) as [pmc|]; cbn [bind]; [|discriminate].
  intros [= <-]. destruct (truthy pmid), (truthy pmc); grown.
Qed.

Lemma md_tldr_grows (ss : value) (lines out : list string) :
  md_tldr rt ss lines = Ok out -> grows 4 lines out.
Proof.
  unfold md_tldr. destruct (get ss "tldr" (VDict [])) as [tldr|]; cbn [bind];
    [|discriminate].
  destruct (if is_dict tldr then _ else _) as [text|]; cbn [bind]; [|discriminate].
  destruct (is_dict tldr && truthy text); [|intros [= <-]; grown].
  destruct (getitem tldr "text"); cbn [bind]; [|discriminate].
  intros [= <-]; grown.
Qed.

Lemma md_abstract_grows (cr epmc : value) (lines out : list string) :
  md_abstract cr epmc lines = Ok out -> grows 4 lines out.
Proof.
  unfold md_abstract. destruct (get cr "abstract" VNone) as [a|]; cbn [bind];
    [|discriminate].
  destruct (or_else a _) as [abstract|]; cbn [bind]; [|discriminate].
  destruct (truthy abstract); [|intros [= <-]; grown].
  destruct abstract; try discriminate. intros [= <-]; grown.
Qed.

Lemma md_citations_frame (cr oa ss epmc : value) (lines out : list string) :
  md_citations rt cr oa ss epmc lines = Ok out ->
  exists rows, out = (lines ++ citation_header ++ rows ++ [""])%list /\
               (List.length rows <= 4)%nat.
Proof.
  unfold md_citations. cbv zeta.
  set (table := append (append (append (append lines _) _) _) _).
  assert (Htable : table = (lines ++ citation_header)%list)
    by (unfold table, append; rewrite <- !app_assoc; reflexivity).
  clearbody table.
  destruct (get cr "is-referenced-by-count" VNone) as [c1|]; cbn [bind]; [|discriminate].
  destruct (match c1 with VNone => _ | _ => _ end) as [l1|] eqn:E1; cbn [bind];
    [|discriminate].
  assert (H1 : grows 1 table l1).
  { revert E1. destruct c1; crack; grown. }
  destruct (get oa "cited_by_count" VNone) as [c2|]; cbn [bind]; [|discriminate].
  destruct (match c2 with VNone => _ | _ => _ end) as [l2|] eqn:E2; cbn [bind];
    [|discriminate].
  assert (H2 : grows 1 l1 l2).
  { revert E2. destruct c2; crack; grown. }
  destruct (get ss "citationCount" VNone) as [c3|]; cbn [bind]; [|discriminate].
  destruct (match c3 with VNone => _ | _ => _ end) as [l3|] eqn:E3; cbn [bind];
    [|discriminate].
  assert (H3 : grows 1 l2 l3).
  { revert E3. destruct c3; crack; grown. }
  destruct (get epmc "citedByCount" VNone) as [c4|]; cbn [bind]; [|discriminate].
  destruct (match c4 with VNone => _ | _ => _ end) as [l4|] eqn:E4; cbn [bind];
    [|discriminate].
  assert (H4 : grows 1 l3 l4).
  { revert E4. destruct c4; crack; grown. }
  intros [= <-].
  destruct H1 as (r1 & -> & L1). destruct H2 as (r2 & -> & L2).
  destruct H3 as (r3 & -> & L3). destruct H4 as (r4 & -> & L4).
  exists (r1 ++ r2 ++ r3 ++ r4)%list. split.
  - subst table. unfold append. now rewrite <- !app_assoc.
  - rewrite !length_app. lia.
Qed.

Lemma md_open_access_extends (cr oa ss epmc report : value) (lines out : list string) :
  md_open_access rt cr oa ss epmc report lines = Ok out -> extends lines out.
Proof.
  unfold md_open_access.
  destruct (_extract_oa_links rt cr oa ss epmc report) as [[|l links]|]; cbn [bind];
    [| |discriminate]; intros [= <-]; [apply extends_refl|].
  cbv zeta. rewrite fold_append. grown.
Qed.

Lemma md_notices_extends (cr : value) (lines out : list string) :
  md_notices list_of_set cr lines = Ok out -> extends lines out.
Proof.
  unfold md_notices.
  destruct (_extract_notices list_of_set cr) as [[|n notices]|]; cbn [bind];
    [| |discriminate]; intros [= <-]; [apply extends_refl|].
  cbv zeta. rewrite fold_append. grown.
Qed.

Lemma md_pubpeer_extends (doi pp : value) (lines out : list string) :
  md_pubpeer rt doi pp lines = Ok out -> extends lines out.
Proof. unfold md_pubpeer. crack; grown. Qed.

Lemma md_hypothesis_extends (doi report : value) (lines out : list string) :
  md_hypothesis rt doi report lines = Ok out -> extends lines out.
Proof. unfold md_hypothesis. crack; grown. Qed.

Lemma topic_lines_extends (top : list value) :
  forall lines out, topic_lines rt top lines = Ok out -> extends lines out.
Proof.
  induction top as [|c rest IH]; intros lines out; cbn [topic_lines].
  - intros [= <-]. apply extends_refl.
  - destruct (get c "score" (VInt 0)) as [score|]; cbn [bind]; [|discriminate].
    destruct (get c "display_name" (VStr "?")) as [name|]; cbn [bind]; [|discriminate].
    destruct (format_percent0 rt score) as [pct|]; cbn [bind]; [|discriminate].
    intros H. apply IH in H. eapply extends_trans; [|exact H]. grown.
Qed.

Lemma md_topics_extends (oa : value) (lines out : list string) :
  md_topics rt oa lines = Ok out -> extends lines out.
Proof.
  unfold md_topics. destruct (get oa "concepts" (VList [])) as [concepts|]; cbn [bind];
    [|discriminate].
  destruct (truthy concepts); [|intros [= <-]; apply extends_refl].
  destruct (iter concepts) as [items|]; cbn [bind]; [|discriminate].
  destruct (collect relevant_concept items) as [relevant|]; cbn [bind]; [|discriminate].
  destruct (firstn 8 relevant) as [|c top]; [intros [= <-]; apply extends_refl|].
  cbv zeta. destruct (topic_lines rt (c :: top) _) as [l|] eqn:E; cbn [bind];
    [|discriminate].
  intros [= <-]. apply extends_append. apply topic_lines_extends in E.
  eapply extends_trans; [|exact E]. grown.
Qed.

Lemma funder_lines_extends (funders : list value) :
  forall lines out, funder_lines rt funders lines = Ok out -> extends lines out.
Proof.
  induction funders as [|f rest IH]; intros lines out; cbn [funder_lines].
  - intros [= <-]. apply extends_refl.
  - destruct (get f "name" (VStr "Unknown")) as [name|]; cbn [bind]; [|discriminate].
    destruct (get f "award" (VList [])) as [awards|]; cbn [bind]; [|discriminate].
    destruct (truthy awards).
    + destruct (iter awards) as [items|]; cbn [bind]; [|discriminate].
      destruct (join ", " items) as [grants|]; cbn [bind]; [|discriminate].
      intros H. apply IH in H. eapply extends_trans; [|exact H]. grown.
    + intros H. apply IH in H. eapply extends_trans; [|exact H]. grown.
Qed.

Lemma md_funding_extends (cr : value) (lines out : list string) :
  md_funding rt cr lines = Ok out -> extends lines out.
Proof.
  unfold md_funding. destruct (get cr "funder" (VList [])) as [funders|]; cbn [bind];
    [|discriminate].
  destruct (truthy funders); [|intros [= <-]; apply extends_refl].
  cbv zeta. destruct (iter funders) as [items|]; cbn [bind]; [|discriminate].
  destruct (funder_lines rt items _) as [l|] eqn:E; cbn [bind]; [|discriminate].
  intros [= <-]. apply extends_append. apply funder_lines_extends in E.
  eapply extends_trans; [|exact E]. grown.
Qed.

Lemma md_references_extends (cr : value) (lines out : list string) :
  md_references cr lines = Ok out -> extends lines out.
Proof. unfold md_references. crack; grown. Qed.

Lemma recommendation_lines_extends (recs : list value) :
  forall lines out, recommendation_lines rt recs lines = Ok out -> extends lines out.
Proof.
  induction recs as [|r rest IH]; intros lines out; cbn [recommendation_lines].
  - intros [= <-]. apply extends_refl.
  - destruct (get r "title" (VStr "Untitled")) as [r_title|]; cbn [bind]; [|discriminate].
    destruct (get r "authors" (VList [])) as [r_authors|]; cbn [bind]; [|discriminate].
    destruct (get r "year" (VStr "")) as [r_year|]; cbn [bind]; [|discriminate].
    destruct (get r "citationCount" (VInt 0)) as [r_cite|]; cbn [bind]; [|discriminate].
    destruct (if truthy r_authors then _ else _) as [author_str|]; cbn [bind];
      [|discriminate].
    cbv zeta.
    destruct (if truthy r_cite then _ else _) as [parts|]; cbn [bind]; [|discriminate].
    destruct (join _ parts) as [joined|]; cbn [bind]; [|discriminate].
    intros H. apply IH in H. eapply extends_trans; [|exact H]. grown.
Qed.

Lemma md_recommendations_extends (report : value) (lines out : list string) :
  md_recommendations rt report lines = Ok out -> extends lines out.
Proof.
  unfold md_recommendations.
  destruct (get report "recommendations" (VList [])) as [recs|]; cbn [bind];
    [|discriminate].
  destruct (truthy recs); [|intros [= <-]; apply extends_refl].
  cbv zeta. destruct (first_five recs) as [five|]; cbn [bind]; [|discriminate].
  destruct (recommendation_lines rt five _) as [l|] eqn:E; cbn [bind]; [|discriminate].
  intros [= <-]. apply extends_append. apply recommendation_lines_extends in E.
  eapply extends_trans; [|exact E]. grown.
Qed.

Ltac section_of H x E :=
  match type of H with
  | bind ?m _ = Ok _ => destruct m as [x|] eqn:E; cbn [bind] in H; [|discriminate]
  end.

(** X15.  Every document starts with the title line, an empty line and the
    DOI link; then come at most six lines of metadata, the separator, at
    most eight lines of summary and abstract, the header of the citation
    table, which is there whatever the report holds, its rows and an empty
    line, the other sections, and last the rule and the footer with the
    date: thirteen lines or more. *)
Theorem document_frame (today : string) (report : value) (lines : list string) :
  markdown_lines rt list_of_set today report = Ok lines ->
  exists doi title meta summary rows rest,
    getitem report "doi" = Ok doi /\
    lines = (title_block title (str rt doi) ++ meta ++ separator ++ summary
             ++ citation_header ++ rows ++ [""] ++ rest ++ footer today)%list /\
    (List.length meta <= 6)%nat /\ (List.length summary <= 8)%nat /\
    (List.length rows <= 4)%nat /\ (13 <= List.length lines)%nat.
Proof.
  intros H. unfold markdown_lines in H. cbv zeta in H.
  section_of H doi Edoi. section_of H cr Ecr. section_of H oa Eoa.
  section_of H ss Ess. section_of H epmc Eepmc. section_of H sources Esources.
  section_of H pp Epp.
  section_of H l1 E1. apply md_title_frame in E1 as (title & ->).
  section_of H l2 E2. apply md_authors_grows in E2 as (a2 & -> & H2).
  section_of H l3 E3. apply md_journal_grows in E3 as (a3 & -> & H3).
  section_of H l4 E4. apply md_date_grows in E4 as (a4 & -> & H4).
  section_of H l5 E5. apply md_type_grows in E5 as (a5 & -> & H5).
  section_of H l6 E6. apply md_pubmed_grows in E6 as (a6 & -> & H6).
  section_of H l7 E7. apply md_tldr_grows in E7 as (a7 & -> & H7).
  section_of H l8 E8. apply md_abstract_grows in E8 as (a8 & -> & H8).
  section_of H l9 E9. apply md_citations_frame in E9 as (rows & -> & Hrows).
  section_of H l10 E10. apply md_open_access_extends in E10 as (a10 & ->).
  section_of H l11 E11. apply md_notices_extends in E11 as (a11 & ->).
  section_of H l12 E12. apply md_pubpeer_extends in E12 as (a12 & ->).
  section_of H l13 E13. apply md_hypothesis_extends in E13 as (a13 & ->).
  section_of H l14 E14. apply md_topics_extends in E14 as (a14 & ->).
  section_of H l15 E15. apply md_funding_extends in E15 as (a15 & ->).
  section_of H l16 E16. apply md_references_extends in E16 as (a16 & ->).
  section_of H l17 E17. apply md_recommendations_extends in E17 as (a17 & ->).
  injection H as <-.
  exists doi, title, (a2 ++ a3 ++ a4 ++ a5 ++ a6)%list, (a7 ++ a8)%list, rows,
    (a10 ++ a11 ++ a12 ++ a13 ++ a14 ++ a15 ++ a16 ++ a17)%list.
  split; [reflexivity|].
  split; [|split; [|split; [|split]]].
  - unfold md_footer, md_separator, md_doi, append, title_block, separator, footer,
      citation_header.
    repeat (progress (rewrite <- ?app_assoc, <- ?app_comm_cons; cbn [List.app])).
    reflexivity.
  - rewrite !length_app. lia.
  - rewrite !length_app. lia.
  - exact Hrows.
  - unfold md_footer, md_separator, md_doi, append.
    repeat (rewrite length_app || cbn [List.length]). lia.
Qed.

End FrameFacts.

Lemma document_frame_witness :
  exists doi title meta summary rows rest,
    getitem sample_report "doi" = Ok doi /\
    sample_document
    = (title_block title (str demo_runtime doi) ++ meta ++ separator ++ summary
       ++ citation_header ++ rows ++ [""] ++ rest ++ footer "2024-05-17")%list /\
    (List.length meta <= 6)%nat /\ (List.length summary <= 8)%nat /\
    (List.length rows <= 4)%nat /\ (13 <= List.length sample_document)%nat.
Proof.
  apply (document_frame demo_runtime distinct_items "2024-05-17" sample_report).
  reflexivity.
Defined.

(* --------------------------------------------------------------------- *)
(** *** [_extract_journal] *)

(** X16.  The journal comes from the first source that names one, in the
    order CrossRef, Semantic Scholar, Europe PMC.  A CrossRef record with a
    container title decides alone, whatever the other two hold: the line is
    the container title, the first one of a list, and then, each only when
    the record holds it, the volume, the issue and the pages, separated by
    commas.  Without a container title, the journal of Semantic Scholar is
    taken when it is an object with a name that is not empty; in every other
    case, no [journal] key, [null], a value that is no object, an object
    without a name or with an empty one, the result is the journal title of
    Europe PMC, [None] if it has none. *)
Theorem journal_priority (rt : runtime) (cr ss epmc : list (string * value)) :
  let ct := field cr "container-title" (VList []) in
  let ss_journal := field ss "journal" (VDict []) in
  let journal := _extract_journal rt (VDict cr) (VDict ss) (VDict epmc) in
  let line j :=
    VStr (PyStr.join ", "
            (j :: journal_part rt "vol. " (field cr "volume" (VStr ""))
               ++ journal_part rt "no. " (field cr "issue" (VStr ""))
               ++ journal_part rt "pp. " (field cr "page" (VStr "")))) in
  (truthy ct = true ->
   (forall ss' epmc', _extract_journal rt (VDict cr) ss' epmc' = journal) /\
   (forall j more, ct = VList (VStr j :: more) -> journal = Ok (line j)) /\
   (forall j, ct = VStr j -> journal = Ok (line j))) /\
  (truthy ct = false ->
   (forall j name,
      ss_journal = VDict j -> lookup "name" j = Some name ->
      truthy name = true -> journal = Ok name) /\
   ((forall j name,
       ss_journal = VDict j -> lookup "name" j = Some name -> truthy name = false) ->
    journal = Ok (field epmc "journalTitle" VNone))).
Proof.
  cbv zeta. unfold _extract_journal, field. cbn [get bind].
  destruct (truthy (match lookup "container-title" cr with
                    | Some x => x | None => VList [] end)) eqn:Hct.
  - split; [intros _|discriminate]. split; [reflexivity|].
    split.
    + intros j more ->. cbn [is_list first bind].
      unfold journal_part, append.
      destruct (truthy (match lookup "volume" cr with Some x => x | None => VStr "" end));
        destruct (truthy (match lookup "issue" cr with Some x => x | None => VStr "" end));
        destruct (truthy (match lookup "page" cr with Some x => x | None => VStr "" end));
        reflexivity.
    + intros j ->. cbn [is_list first bind].
      unfold journal_part, append.
      destruct (truthy (match lookup "volume" cr with Some x => x | None => VStr "" end));
        destruct (truthy (match lookup "issue" cr with Some x => x | None => VStr "" end));
        destruct (truthy (match lookup "page" cr with Some x => x | None => VStr "" end));
        reflexivity.
  - split; [discriminate|intros _]. split.
    + intros j name -> Hn Ht. cbn [is_dict get bind andb].
      rewrite Hn, Ht. cbn [getitem]. now rewrite Hn.
    + intros Hnone.
      destruct (match lookup "journal" ss with Some x => x | None => VDict [] end)
        as [| | | | | |j] eqn:Hj; try reflexivity.
      cbn [is_dict get bind andb].
      destruct (lookup "name" j) as [name|] eqn:Hn; [|reflexivity].
      now rewrite (Hnone j name eq_refl Hn).
Qed.

(** A record of Semantic Scholar whose journal is [null], beside a named
    journal of Europe PMC. *)
Example journal_null_falls_back :
  _extract_journal demo_runtime (VDict [])
    (VDict [("journal", VNone)]) (VDict [("journalTitle", VStr "Nature")])
  = Ok (VStr "Nature").
Proof. reflexivity. Qed.

(* --------------------------------------------------------------------- *)
(** *** The abstract of a document *)









(* --------------------------------------------------------------------- *)
(** *** [main]: the paper a title search settles on *)

Lemma by_author_same (author_lower : string) (r x : value) :
  by_author author_lower r = Ok (Some x) -> x = r.
Proof.
  unfold by_author.
  destruct (get r "author" (VList [])) as [authors|]; cbn [bind]; [|discriminate].
  destruct (iter authors) as [items|]; cbn [bind]; [|discriminate].
  destruct (any_family author_lower items) as [[|]|]; cbn [bind]; congruence.
Qed.

Lemma collect_by_author (author_lower : string) (items : list value) :
  forall filtered,
    collect (by_author author_lower) items = Ok filtered ->
    match filtered with
    | [] => forall r, In r items -> by_author author_lower r = Ok None
    | x :: _ =>
        exists before after,
          items = (before ++ x :: after)%list /\
          (forall r, In r before -> by_author author_lower r = Ok None) /\
          by_author author_lower x = Ok (Some x)
    end.
Proof.
  induction items as [|a rest IH]; intros filtered; cbn [collect].
  - intros [= <-]. intros r [].
  - destruct (by_author author_lower a) as [o|] eqn:Ha; cbn [bind]; [|discriminate].
    destruct (collect (by_author author_lower) rest) as [r|]; cbn [bind];
      [|discriminate].
    specialize (IH r eq_refl). intros [= <-]. destruct o as [x|].
    + pose proof (by_author_same _ _ _ Ha) as ->.
      exists [], rest. split; [reflexivity|]. split; [intros ? []|exact Ha].
    + destruct r as [|x r].
      * intros y [<-|Hy]; [exact Ha|now apply IH].
      * destruct IH as (before & after & -> & Hb & Hx).
        exists (a :: before), after. split; [reflexivity|]. split; [|exact Hx].
        intros y [<-|Hy]; [exact Ha|now apply Hb].
Qed.

(** X18.  With [--author], the paper a title search settles on is the first
    result one of whose authors has a family name containing the given
    name, whatever the case; and when no result has such an author, the
    first result of all. *)
Theorem best_result_first_match (author : string) (items : list value)
    (best : value) :
  author <> "" ->
  best_result (VStr author) (VList items) = Ok best ->
  exists before after,
    items = (before ++ best :: after)%list /\
    (forall r, In r before -> by_author (PyStr.lower author) r = Ok None) /\
    (by_author (PyStr.lower author) best = Ok (Some best) \/
     before = [] /\
     forall r, In r items -> by_author (PyStr.lower author) r = Ok None).
Proof.
  intros Hne. unfold best_result. cbn [truthy lower iter bind].
  destruct (String.eqb_spec author "") as [->|_]; [contradiction|]. cbn [negb].
  destruct (collect (by_author (PyStr.lower author)) items) as [filtered|] eqn:Hc;
    cbn [bind]; [|discriminate].
  apply collect_by_author in Hc. destruct filtered as [|x more]; cbn [first].
  - destruct items as [|r rest]; [discriminate|]. intros [= <-].
    exists [], rest. split; [reflexivity|]. split; [intros ? []|]. right. auto.
  - intros [= <-]. destruct Hc as (before & after & -> & Hb & Hx).
    exists before, after. auto.
Qed.

Lemma best_result_first_match_witness :
  exists before after,
    [smith_paper; mcdonald_paper] = (before ++ mcdonald_paper :: after)%list /\
    (forall r, In r before -> by_author (PyStr.lower "DONALD") r = Ok None) /\
    (by_author (PyStr.lower "DONALD") mcdonald_paper = Ok (Some mcdonald_paper) \/
     before = [] /\
     forall r, In r [smith_paper; mcdonald_paper] ->
       by_author (PyStr.lower "DONALD") r = Ok None).
Proof.
  apply (best_result_first_match "DONALD").
  - discriminate.
  - reflexivity.
Defined.

(* --------------------------------------------------------------------- *)
(** *** [main]: the name of the output file *)

(** X19.  A CrossRef record with an empty list of titles is no obstacle to
    the document, whose title then comes from the other sources exactly as
    if CrossRef held no title; but the file name [main] derives from a
    single report cannot be made of it: the lookup of the first title
    raises [IndexError]. *)
Theorem empty_title_list (report sources cr : list (string * value)) :
  lookup "sources" report = Some (VDict sources) ->
  lookup "crossref" sources = Some (VDict cr) ->
  lookup "title" cr = Some (VList []) ->
  output_name [VDict report] = Raise IndexError /\
  (forall doi ss oa epmc,
     reconciled_title doi (VDict cr) ss oa epmc
     = reconciled_title doi (VDict []) ss oa epmc).
Proof.
  intros Hs Hc Ht. split.
  - unfold output_name. cbn [getitem]. rewrite Hs. cbn [get bind].
    rewrite Hc. cbn [get bind]. rewrite Ht. reflexivity.
  - intros doi ss oa epmc. unfold reconciled_title. cbn [get bind lookup].
    rewrite Ht. reflexivity.
Qed.

Lemma empty_title_list_witness :
  output_name [VDict untitled_report] = Raise IndexError /\
  (forall doi ss oa epmc,
     reconciled_title doi (VDict [("title", VList []); ("type", VStr "dataset")])
       ss oa epmc
     = reconciled_title doi (VDict []) ss oa epmc).
Proof.
  apply (empty_title_list untitled_report
           [("crossref", VDict [("title", VList []); ("type", VStr "dataset")])]
           [("title", VList []); ("type", VStr "dataset")]);
    reflexivity.
Defined.
